(** * pymongorm: documents, fields and the identity cache

    A shallow embedding of [mongorm/documents.py] and [pymongorm/fields.py].

    Python objects live in a heap addressed by locations; a name bound to a
    list, a dict, a document or a field descriptor is a location, so two
    names for one object see each other's writes.  Every method is a
    function from a state to a result and a state: an exception keeps the
    writes made before it was raised. *)

From stdpp Require Import base tactics option list strings.
From Stdlib Require Import ZArith NArith Lia.

Open Scope string_scope.

(** ** Values and objects *)

Definition loc := nat.
Definition cid := nat.

(** The classes a field validates against ([isinstance(value, self.types)]). *)
Inductive ptype :=
| TInt | TStr | TList | TDict | TObjectId | TDBRef
| TDoc (c : cid).

Inductive value :=
| VNone
| VInt (z : Z)
| VStr (s : string)
| VOid (o : N)                        (* bson.ObjectId *)
| VDBRef (collection : string) (id : value) (* bson.DBRef *)
| VLoc (l : loc)                      (* list, dict, document, field *)
| VOpaque.                            (* a bound method *)

(** [default=] of a field: absent, a value, or a callable. *)
Inductive producer := PList | PDict.
Inductive dflt :=
| DNone
| DValue (v : value)
| DCall (p : producer).

Inductive field_class :=
| BaseField | Field | RefField | ObjectIdField | SelfishField
| ListField | ListRefField | DictField | ListDictField.

(** The instance attributes of a field descriptor. *)
Record field := mkField {
  f_class : field_class;
  f_name : value;                 (* None until the metaclass names the field *)
  f_types : list ptype;
  f_default : dflt;
  f_required : bool;
  f_doc_types : list (string * ptype);
  f_value : value              (* SelfishField._value *)
}.

(** A dict, in iteration order; keys are hashable values. *)
Definition dict := list (value * value).
(** An instance [__dict__] or keyword arguments: the keys are names. *)
Definition attrs := list (string * value).

Inductive obj :=
| OList (xs : list value)
| ODict (d : dict)
| OInst (c : cid) (a : attrs)        (* a document and its __dict__ *)
| OField (f : field).

(** What a class body binds a name to. *)
Inductive cattr :=
| CVal (v : value)       (* a field descriptor (a location) or a plain value *)
| CPropData              (* the property [data], with its setter *)
| CPropRO                (* the read-only properties [ref] and [fields] *)
| CMethod.               (* a function or classmethod *)

Record class := mkClass {
  cls_name : string;                  (* __name__ *)
  cls_mro : list cid;                 (* __mro__ without object, the class first *)
  cls_dict : list (string * cattr);   (* __dict__ *)
  cls_collection : option string;     (* _collection["name"], when declared *)
  cls_cache : list (value * loc)      (* __cache__: identity -> weak reference *)
}.

(** ** Exceptions *)

Inductive verr :=
| MissingFields (who : value) (missing : list value)
| NotOfTypes (name : value) (types : list ptype)
| MustBeList.

Inductive exn :=
| TypeError | AttributeError | KeyError | IndexError | RuntimeError
| InvalidDocument
| ValidationError (e : verr).

Inductive res (A : Type) :=
| Ok (a : A)
| Err (e : exn).
Arguments Ok {A} a.
Arguments Err {A} e.

#[global] Instance ptype_eq_dec : EqDecision ptype.
Proof. solve_decision. Defined.
#[global] Instance value_eq_dec : EqDecision value.
Proof. solve_decision. Defined.
#[global] Instance field_class_eq_dec : EqDecision field_class.
Proof. solve_decision. Defined.

(** ** Field classes: inheritance, [super], construction *)

Module Fields.

(** [class RefField(BaseField)], [Field = type("Field", (BaseField,), {})], ... *)
Definition base_of (c : field_class) : option field_class :=
  match c with
  | BaseField => None
  | Field => Some BaseField
  | RefField => Some BaseField
  | ObjectIdField => Some BaseField
  | SelfishField => Some BaseField
  | ListField => Some SelfishField
  | ListRefField => Some ListField
  | DictField => Some BaseField
  | ListDictField => Some SelfishField
  end.

Fixpoint mro_upto (n : nat) (c : field_class) : list field_class :=
  match n with
  | 0 => []
  | S n => c :: match base_of c with
                | Some b => mro_upto n b
                | None => []
                end
  end.

(** [__mro__] of a field class, [object] left out (nine classes in all). *)
Definition mro (c : field_class) : list field_class := mro_upto 9 c.

Inductive method :=
| m_init | m_get | m_set | m_validate | m_to_dict | m_to_ref
| m_getitem | m_setitem.

(** Which class body defines which method. *)
Definition defines (m : method) (c : field_class) : bool :=
  match c, m with
  | BaseField, (m_init | m_get | m_set | m_validate | m_to_dict | m_to_ref) => true
  | RefField, (m_init | m_get | m_set) => true
  | ObjectIdField, m_init => true
  | SelfishField, (m_init | m_get | m_set) => true
  | ListField, (m_init | m_set | m_getitem | m_setitem) => true
  | ListRefField, (m_init | m_getitem | m_setitem) => true
  | DictField, (m_init | m_set | m_get) => true
  | ListDictField, (m_init | m_set | m_getitem | m_setitem | m_to_dict) => true
  | _, _ => false
  end.

Definition defines_init : field_class -> bool := defines m_init.

Fixpoint after (t : field_class) (l : list field_class) : option (list field_class) :=
  match l with
  | [] => None
  | c :: l' => if decide (c = t) then Some l' else after t l'
  end.

(** [super(t, self)]: [self] must be an instance of [t]; the lookup then
    starts behind [t] in the MRO of [type(self)]. *)
Definition py_super (t self_class : field_class) : res (list field_class) :=
  match after t (mro self_class) with
  | Some rest => Ok rest
  | None => Err TypeError
  end.

(** Attribute lookup on an instance of [c]: the first class of the MRO
    that defines the method. *)
Definition resolve (m : method) (c : field_class) : option field_class :=
  List.find (defines m) (mro c).

Record kwargs := mkKwargs {
  kw_name : value;
  kw_default : dflt;
  kw_required : bool
}.

(** [kwargs.get("name")], [kwargs.get("default", None)],
    [kwargs.get("required", False)] of an empty [kwargs]. *)
Definition no_kwargs : kwargs := mkKwargs VNone DNone false.

Definition set_kw_default (d : dflt) (kw : kwargs) : kwargs :=
  mkKwargs (kw_name kw) d (kw_required kw).

Definition with_doc_types (dt : list (string * ptype)) (f : field) : field :=
  mkField (f_class f) (f_name f) (f_types f) (f_default f) (f_required f) dt (f_value f).

Definition with_value (v : value) (f : field) : field :=
  mkField (f_class f) (f_name f) (f_types f) (f_default f) (f_required f)
          (f_doc_types f) v.

Definition with_name (n : value) (f : field) : field :=
  mkField (f_class f) n (f_types f) (f_default f) (f_required f)
          (f_doc_types f) (f_value f).

Section Init.

(** [typ.__name__] *)
Variable type_name : ptype -> string.

Definition doc_types_of (types : list ptype) : list (string * ptype) :=
  map (fun t => (type_name t, t)) types.

(** The body of [c.__init__], [c] a class that defines [__init__].  [depth] bounds the chain of [super] calls. *)
Fixpoint run_init (depth : nat) (c : field_class) (self : field)
         (types : list ptype) (kw : kwargs) : res field :=
  match depth with
  | 0 => Err RuntimeError
  | S depth =>
    let super_init (t : field_class) (self : field) types kw :=
      match py_super t (f_class self) with
      | Err e => Err e
      | Ok rest =>
        match List.find defines_init rest with
        | Some c' => run_init depth c' self types kw
        | None => Ok self
        end
      end in
    match c with
    | BaseField | Field =>
      Ok (mkField (f_class self) (kw_name kw) types (kw_default kw)
                  (kw_required kw) (f_doc_types self) (f_value self))
    | RefField =>
      super_init RefField (with_doc_types (doc_types_of types) self) [TDBRef] kw
    | ObjectIdField =>
      super_init ObjectIdField self [TObjectId] kw
    | SelfishField =>
      match super_init SelfishField self types kw with
      | Ok self => Ok (with_value VNone self)
      | Err e => Err e
      end
    | ListField =>
      super_init ListField self types (set_kw_default (DCall PList) kw)
    | ListRefField =>
      super_init ListRefField (with_doc_types (doc_types_of types) self) [TDBRef] kw
    | DictField =>
      let kw := set_kw_default (DCall PDict) kw in
      super_init ListRefField (with_doc_types (doc_types_of types) self) [TDict] kw
    | ListDictField =>
      let kw := set_kw_default (DCall PList) kw in
      super_init ListField (with_doc_types (doc_types_of types) self) [TDict] kw
    end
  end.

(** A fresh object of class [c], no attribute bound yet. *)
Definition blank (c : field_class) : field :=
  mkField c VNone [] DNone false [] VNone.

(** Calling the class [c] with positional types and keyword arguments. *)
Definition construct (c : field_class) (types : list ptype) (kw : kwargs) : res field :=
  match List.find defines_init (mro c) with
  | Some c' => run_init (length (mro c)) c' (blank c) types kw
  | None => Ok (blank c)
  end.

End Init.

End Fields.

(** ** Storage documents

    What the collection keeps and hands out: trees without sharing. *)

#[local] Unset Elimination Schemes.
Inductive raw :=
| RNone
| RInt (z : Z)
| RStr (s : string)
| ROid (o : N)
| RDBRef (collection : string) (id : raw)
| RList (xs : list raw)
| RDict (d : list (string * raw)).
#[local] Set Elimination Schemes.

Definition rdoc := list (string * raw).

Record database := mkDb {
  db_colls : list (string * list rdoc);   (* collection name -> documents *)
  db_next : N                             (* the next identity to hand out *)
}.

(** ** Program state and the monad of methods *)

Record state := mkState {
  heap : list obj;
  classes : list class;
  db : database
}.

Definition M (A : Type) : Type := state -> res A * state.

#[global] Instance M_ret : MRet M := fun A (a : A) s => (Ok a, s).
#[global] Instance M_bind : MBind M := fun A B (k : A -> M B) (m : M A) s =>
  match m s with
  | (Ok a, s') => k a s'
  | (Err e, s') => (Err e, s')
  end.

Definition raise {A} (e : exn) : M A := fun s => (Err e, s).
Definition get_state : M state := fun s => (Ok s, s).
Definition set_heap (h : list obj) : M unit :=
  fun s => (Ok tt, mkState h (classes s) (db s)).
Definition set_classes (cs : list class) : M unit :=
  fun s => (Ok tt, mkState (heap s) cs (db s)).
Definition set_db (d : database) : M unit :=
  fun s => (Ok tt, mkState (heap s) (classes s) d).

(** [for x in xs: body(x)] *)
Fixpoint for_each {A} (xs : list A) (body : A -> M unit) : M unit :=
  match xs with
  | [] => mret tt
  | x :: xs => body x ;; for_each xs body
  end.

Fixpoint map_each {A B} (xs : list A) (body : A -> M B) : M (list B) :=
  match xs with
  | [] => mret []
  | x :: xs => y ← body x; ys ← map_each xs body; mret (y :: ys)
  end.

(** *** Association lists *)

Section Assoc.
Context {K V : Type} `{EqDecision K}.

Fixpoint assoc (k : K) (l : list (K * V)) : option V :=
  match l with
  | [] => None
  | (k', v) :: l => if decide (k' = k) then Some v else assoc k l
  end.

(** [d[k] = v]: an existing key keeps its place. *)
Fixpoint assoc_set (k : K) (v : V) (l : list (K * V)) : list (K * V) :=
  match l with
  | [] => [(k, v)]
  | (k', v') :: l =>
    if decide (k' = k) then (k, v) :: l else (k', v') :: assoc_set k v l
  end.

Fixpoint assoc_del (k : K) (l : list (K * V)) : list (K * V) :=
  match l with
  | [] => []
  | (k', v') :: l =>
    if decide (k' = k) then l else (k', v') :: assoc_del k l
  end.

Definition assoc_mem (k : K) (l : list (K * V)) : bool :=
  match assoc k l with Some _ => true | None => false end.

(** [d.update(other)] *)
Definition assoc_update (l other : list (K * V)) : list (K * V) :=
  fold_left (fun acc kv => assoc_set (fst kv) (snd kv) acc) other l.
End Assoc.

(** *** The heap *)

(** A new object; nothing else refers to its location yet. *)
Definition alloc (o : obj) : M loc :=
  fun s => (Ok (length (heap s)), mkState (heap s ++ [o]) (classes s) (db s)).

(** The object at a location.  Every location a program holds is one that
    [alloc] returned; a location outside the heap names no object. *)
Definition load (l : loc) : M obj :=
  fun s => match heap s !! l with
           | Some o => (Ok o, s)
           | None => (Err RuntimeError, s)
           end.

Definition store (l : loc) (o : obj) : M unit :=
  fun s => (Ok tt, mkState (<[l := o]> (heap s)) (classes s) (db s)).

Definition get_class (c : cid) : M class :=
  fun s => match classes s !! c with
           | Some k => (Ok k, s)
           | None => (Err RuntimeError, s)
           end.

Definition set_cache (c : cid) (cache : list (value * loc)) : M unit :=
  k ← get_class c;
  s ← get_state;
  set_classes (<[c := mkClass (cls_name k) (cls_mro k) (cls_dict k)
                              (cls_collection k) cache]> (classes s)).

(** ** Python primitives *)

(** [hash(v)] succeeds: lists and dicts are unhashable. *)
Fixpoint hashable (h : list obj) (v : value) : bool :=
  match v with
  | VLoc l => match h !! l with
              | Some (OList _) | Some (ODict _) => false
              | _ => true
              end
  | VDBRef _ i => hashable h i
  | _ => true
  end.

Definition check_hashable (v : value) : M unit :=
  s ← get_state;
  if hashable (heap s) v then mret tt else raise TypeError.

(** A list index: negative indices count from the end. *)
Definition list_index (len : nat) (i : Z) : option nat :=
  let i' := (if Z.ltb i 0 then i + Z.of_nat len else i)%Z in
  if (Z.leb 0 i' && Z.ltb i' (Z.of_nat len))%bool then Some (Z.to_nat i') else None.

Fixpoint is_substring (a b : string) : bool :=
  (String.prefix a b ||
   match b with
   | EmptyString => false
   | String _ b' => is_substring a b'
   end)%bool.

(** [k in container] *)
Definition py_contains (k container : value) : M bool :=
  match container with
  | VLoc l =>
    o ← load l;
    match o with
    | ODict d => check_hashable k ;; mret (assoc_mem k d)
    | OList xs => mret (bool_decide (k ∈ xs))
    | _ => raise TypeError
    end
  | VStr s => match k with
              | VStr a => mret (is_substring a s)
              | _ => raise TypeError
              end
  | _ => raise TypeError
  end.

(** [container[k]] for dicts and lists. *)
Definition py_getitem (container k : value) : M value :=
  match container with
  | VLoc l =>
    o ← load l;
    match o with
    | ODict d =>
      check_hashable k ;;
      match assoc k d with
      | Some v => mret v
      | None => raise KeyError
      end
    | OList xs =>
      match k with
      | VInt i => match list_index (length xs) i with
                  | Some n => match xs !! n with
                              | Some v => mret v
                              | None => raise IndexError
                              end
                  | None => raise IndexError
                  end
      | _ => raise TypeError
      end
    | _ => raise TypeError
    end
  | _ => raise TypeError
  end.

(** [container[k] = v] for dicts and lists. *)
Definition py_setitem (container k v : value) : M unit :=
  match container with
  | VLoc l =>
    o ← load l;
    match o with
    | ODict d => check_hashable k ;; store l (ODict (assoc_set k v d))
    | OList xs =>
      match k with
      | VInt i => match list_index (length xs) i with
                  | Some n => store l (OList (<[n := v]> xs))
                  | None => raise IndexError
                  end
      | _ => raise TypeError
      end
    | _ => raise TypeError
    end
  | _ => raise TypeError
  end.

(** [d.setdefault(k, v)] on a dict. *)
Definition py_setdefault (container k v : value) : M unit :=
  match container with
  | VLoc l =>
    o ← load l;
    match o with
    | ODict d =>
      check_hashable k ;;
      if assoc_mem k d then mret tt else store l (ODict (assoc_set k v d))
    | _ => raise AttributeError
    end
  | _ => raise AttributeError
  end.

(** [copy.copy(v)]: one new object at the top, its contents shared. *)
Definition py_copy (v : value) : M value :=
  match v with
  | VLoc l => o ← load l; l' ← alloc o; mret (VLoc l')
  | _ => mret v
  end.

(** [isinstance(v, t)] *)
Definition isinstance1 (s : state) (v : value) (t : ptype) : bool :=
  match t, v with
  | TInt, VInt _ => true
  | TStr, VStr _ => true
  | TObjectId, VOid _ => true
  | TDBRef, VDBRef _ _ => true
  | TList, VLoc l => match heap s !! l with Some (OList _) => true | _ => false end
  | TDict, VLoc l => match heap s !! l with Some (ODict _) => true | _ => false end
  | TDoc c, VLoc l =>
    match heap s !! l with
    | Some (OInst c' _) =>
      match classes s !! c' with
      | Some k => bool_decide (c ∈ cls_mro k)
      | None => false
      end
    | _ => false
    end
  | _, _ => false
  end.

(** [isinstance(v, types)] with [types] a tuple of classes. *)
Definition isinstance (v : value) (types : list ptype) : M bool :=
  s ← get_state; mret (existsb (isinstance1 s v) types).

(** ** The storage collaborator *)

Module Storage.

(** Modelled from the spec: the collection and database objects
    ([connection.get_collection], [connection.get_database]) are not in
    the sources; section 6 of the specification gives their interface:
    insert returns a freshly assigned identity, update is a full replace
    of the document at an identity, find returns the matching raw
    documents, find_one the first match or nothing, dereference the
    document a reference points to or nothing.  A query matches a
    document when each of its keys is bound to an equal value. *)

Fixpoint raw_eqb (a b : raw) {struct a} : bool :=
  match a, b with
  | RNone, RNone => true
  | RInt x, RInt y => Z.eqb x y
  | RStr x, RStr y => String.eqb x y
  | ROid x, ROid y => N.eqb x y
  | RDBRef c i, RDBRef c' i' => (String.eqb c c' && raw_eqb i i')%bool
  | RList xs, RList ys =>
    (fix go (xs ys : list raw) : bool :=
       match xs, ys with
       | [], [] => true
       | x :: xs, y :: ys => (raw_eqb x y && go xs ys)%bool
       | _, _ => false
       end) xs ys
  | RDict d, RDict d' =>
    (fix go (d d' : list (string * raw)) : bool :=
       match d, d' with
       | [], [] => true
       | (k, x) :: d, (k', y) :: d' =>
         (String.eqb k k' && raw_eqb x y && go d d')%bool
       | _, _ => false
       end) d d'
  | _, _ => false
  end.

Definition docs_of (d : database) (coll : string) : list rdoc :=
  default [] (assoc coll (db_colls d)).

Definition has_id (i : raw) (d : rdoc) : bool :=
  match assoc "_id" d with
  | Some j => raw_eqb i j
  | None => false
  end.

Definition matches (query : rdoc) (d : rdoc) : bool :=
  forallb (fun kv => match assoc (fst kv) d with
                     | Some v => raw_eqb (snd kv) v
                     | None => false
                     end) query.

Definition db_find (d : database) (coll : string) (query : rdoc) : list rdoc :=
  filter (fun x => matches query x = true) (docs_of d coll).

Definition db_find_one (d : database) (coll : string) (query : rdoc) : option rdoc :=
  head (db_find d coll query).

Definition db_dereference (d : database) (coll : string) (i : raw) : option rdoc :=
  List.find (has_id i) (docs_of d coll).

Definition db_insert (d : database) (coll : string) (doc : rdoc) : N * database :=
  let i := db_next d in
  (i, mkDb (assoc_set coll (docs_of d coll ++ [assoc_set "_id" (ROid i) doc])%list
                      (db_colls d))
           (N.succ i)).

Fixpoint replace_first (i : raw) (doc : rdoc) (l : list rdoc) : list rdoc :=
  match l with
  | [] => []
  | x :: l => if has_id i x then assoc_set "_id" i doc :: l
              else x :: replace_first i doc l
  end.

Definition db_update (d : database) (coll : string) (i : raw) (doc : rdoc) : database :=
  mkDb (assoc_set coll (replace_first i doc (docs_of d coll)) (db_colls d))
       (db_next d).

(** Every document at the identity goes; none there is no error. *)
Definition db_remove (d : database) (coll : string) (i : raw) : database :=
  mkDb (assoc_set coll (List.filter (fun x => negb (has_id i x)) (docs_of d coll))
                  (db_colls d))
       (db_next d).

(** *** Between Python values and stored documents *)

(** A Python value as a stored tree.  Documents, descriptors and bound
    methods have no encoding; neither has a dict with a key that is not a
    string.  [fuel] bounds the nesting. *)
Fixpoint encode (fuel : nat) (h : list obj) (v : value) : option raw :=
  match fuel with
  | 0 => None
  | S fuel =>
    match v with
    | VNone => Some RNone
    | VInt z => Some (RInt z)
    | VStr s => Some (RStr s)
    | VOid o => Some (ROid o)
    | VDBRef c i => RDBRef c <$> encode fuel h i
    | VLoc l =>
      match h !! l with
      | Some (OList xs) => RList <$> mapM (encode fuel h) xs
      | Some (ODict d) =>
        RDict <$> mapM (fun kv => match fst kv with
                                  | VStr k => pair k <$> encode fuel h (snd kv)
                                  | _ => None
                                  end) d
      | _ => None
      end
    | VOpaque => None
    end
  end.

(** Nesting deeper than the heap has objects is a cycle. *)
Definition encode_value (v : value) : M raw :=
  s ← get_state;
  match encode (S (length (heap s))) (heap s) v with
  | Some r => mret r
  | None => raise InvalidDocument
  end.

Definition encode_doc (v : value) : M rdoc :=
  r ← encode_value v;
  match r with
  | RDict d => mret d
  | _ => raise TypeError
  end.

Fixpoint encode_query (spec : attrs) : M rdoc :=
  match spec with
  | [] => mret []
  | (k, v) :: spec => r ← encode_value v; q ← encode_query spec; mret ((k, r) :: q)
  end.

(** A stored tree as fresh Python objects. *)
Fixpoint decode (r : raw) : M value :=
  match r with
  | RNone => mret VNone
  | RInt z => mret (VInt z)
  | RStr s => mret (VStr s)
  | ROid o => mret (VOid o)
  | RDBRef c i => i' ← decode i; mret (VDBRef c i')
  | RList xs =>
    vs ← (fix go (xs : list raw) : M (list value) :=
            match xs with
            | [] => mret []
            | x :: xs => v ← decode x; vs ← go xs; mret (v :: vs)
            end) xs;
    l ← alloc (OList vs); mret (VLoc l)
  | RDict d =>
    kvs ← (fix go (d : list (string * raw)) : M dict :=
             match d with
             | [] => mret []
             | (k, x) :: d => v ← decode x; kvs ← go d; mret ((VStr k, v) :: kvs)
             end) d;
    l ← alloc (ODict kvs); mret (VLoc l)
  end.

(** The two inner loops of [decode], by name. *)
Fixpoint decode_list (xs : list raw) : M (list value) :=
  match xs with
  | [] => mret []
  | x :: xs => v ← decode x; vs ← decode_list xs; mret (v :: vs)
  end.

Fixpoint decode_items (d : list (string * raw)) : M dict :=
  match d with
  | [] => mret []
  | (k, x) :: d => v ← decode x; kvs ← decode_items d; mret ((VStr k, v) :: kvs)
  end.

Definition decode_doc (d : rdoc) : M value := decode (RDict d).

(** *** The collection interface, as the methods call it *)

(** [col.insert(doc)] *)
Definition col_insert (coll : string) (doc : value) : M value :=
  d ← encode_doc doc;
  s ← get_state;
  let '(i, db') := db_insert (db s) coll d in
  set_db db' ;; mret (VOid i).

(** [col.update({"_id": i}, doc)] *)
Definition col_update (coll : string) (i doc : value) : M unit :=
  ri ← encode_value i;
  d ← encode_doc doc;
  s ← get_state;
  set_db (db_update (db s) coll ri d).

(** [col.remove({"_id": i})] *)
Definition col_remove (coll : string) (i : value) : M unit :=
  ri ← encode_value i;
  s ← get_state;
  set_db (db_remove (db s) coll ri).

(** [col.find(spec)]: the cursor, that is the stored documents it is
    going to yield; a document is decoded when the cursor gets to it. *)
Definition col_find (coll : string) (spec : attrs) : M (list rdoc) :=
  q ← encode_query spec;
  s ← get_state;
  mret (db_find (db s) coll q).

(** A cursor read to its end. *)
Definition read_cursor (cursor : list rdoc) : M (list value) :=
  map_each cursor decode_doc.

(** [col.find_one(spec)]: a document or [None]. *)
Definition col_find_one (coll : string) (spec : attrs) : M value :=
  q ← encode_query spec;
  s ← get_state;
  match db_find_one (db s) coll q with
  | Some d => decode_doc d
  | None => mret VNone
  end.

(** [db.dereference(dbref)]: a document or [None]. *)
Definition dereference (dbref : value) : M value :=
  match dbref with
  | VDBRef coll i =>
    ri ← encode_value i;
    s ← get_state;
    match db_dereference (db s) coll ri with
    | Some d => decode_doc d
    | None => mret VNone
    end
  | _ => raise TypeError
  end.

End Storage.

(** ** Attribute access on objects *)

Definition load_field (self : loc) : M field :=
  o ← load self;
  match o with
  | OField f => mret f
  | _ => raise AttributeError
  end.

Definition store_field (self : loc) (f : field) : M unit := store self (OField f).

(** The class and the [__dict__] of a document. *)
Definition load_inst (v : value) : M (cid * attrs) :=
  match v with
  | VLoc l =>
    o ← load l;
    match o with
    | OInst c a => mret (c, a)
    | _ => raise AttributeError
    end
  | _ => raise AttributeError
  end.

(** [inst._data], which is what the getter of [Document.data] returns. *)
Definition get_data (inst : value) : M value :=
  ca ← load_inst inst;
  match assoc "_data" (snd ca) with
  | Some v => mret v
  | None => raise AttributeError
  end.

(** Binding a name in the instance [__dict__]. *)
Definition set_inst_attr (inst : value) (name : string) (v : value) : M unit :=
  ca ← load_inst inst;
  match inst with
  | VLoc l => store l (OInst (fst ca) (assoc_set name v (snd ca)))
  | _ => raise AttributeError
  end.

(** Modelled from the spec: [utils.is_field] is not in the sources; a
    field is a field-shaped attribute, that is a descriptor object. *)
Definition is_field (v : value) : M bool :=
  s ← get_state;
  mret match v with
       | VLoc l => match heap s !! l with Some (OField _) => true | _ => false end
       | _ => false
       end.

(** The first binding of [name] along the MRO of class [c]. *)
Fixpoint mro_lookup (cs : list class) (name : string) (mro : list cid) : option cattr :=
  match mro with
  | [] => None
  | c :: mro =>
    match cs !! c with
    | Some k => match assoc name (cls_dict k) with
                | Some a => Some a
                | None => mro_lookup cs name mro
                end
    | None => mro_lookup cs name mro
    end
  end.

Definition class_attr (c : cid) (name : string) : M (option cattr) :=
  k ← get_class c;
  s ← get_state;
  mret (mro_lookup (classes s) name (cls_mro k)).

(** ** Field descriptors ([fields.py]) *)

(** [BaseField.validate] *)
Definition BaseField_validate (self : loc) (v : value) : M unit :=
  f ← load_field self;
  ok ← isinstance v (f_types f);
  if ok : bool then mret tt
  else raise (ValidationError (NotOfTypes (f_name f) (f_types f))).

(** [BaseField.__get__], read through an instance. *)
Definition BaseField_get (self : loc) (inst : value) : M value :=
  f ← load_field self;
  d ← get_data inst;
  py_getitem d (f_name f).

(** [BaseField.__set__] *)
Definition BaseField_set (self : loc) (inst v : value) : M unit :=
  BaseField_validate self v ;;
  f ← load_field self;
  d ← get_data inst;
  py_setitem d (f_name f) v.

(** [self._value = v] on a descriptor. *)
Definition set_field_value (self : loc) (v : value) : M unit :=
  f ← load_field self;
  store_field self (Fields.with_value v f).

(** [SelfishField.__get__]: the descriptor itself, rebound to the list of
    the instance it was read through. *)
Definition SelfishField_get (self : loc) (inst : value) : M value :=
  f ← load_field self;
  d ← get_data inst;
  v ← py_getitem d (f_name f);
  set_field_value self v ;;
  mret (VLoc self).

(** [SelfishField.__set__] *)
Definition SelfishField_set (self : loc) (inst v : value) : M unit :=
  set_field_value self v ;;
  f ← load_field self;
  d ← get_data inst;
  py_setitem d (f_name f) v.

(** The items of a value iterated by [for item in value]. *)
Definition list_items (v : value) : M (list value) :=
  match v with
  | VLoc l => o ← load l;
              match o with
              | OList xs => mret xs
              | _ => raise TypeError
              end
  | _ => raise TypeError
  end.

(** [ListField.__set__] (and, word for word, [ListDictField.__set__]). *)
Definition ListField_set (self : loc) (inst v : value) : M unit :=
  isl ← isinstance v [TList];
  if isl : bool then
    items ← list_items v;
    for_each items (BaseField_validate self) ;;
    set_field_value self v ;;
    f ← load_field self;
    d ← get_data inst;
    py_setitem d (f_name f) v
  else raise (ValidationError MustBeList).

(** [ListField.__getitem__] *)
Definition ListField_getitem (self : loc) (key : value) : M value :=
  f ← load_field self;
  py_getitem (f_value f) key.

(** [ListField.__setitem__] *)
Definition ListField_setitem (self : loc) (key v : value) : M value :=
  BaseField_validate self v ;;
  f ← load_field self;
  py_setitem (f_value f) key v ;;
  mret (f_value f).

(** [ListField.value] *)
Definition ListField_value (self : loc) : M value :=
  f ← load_field self; mret (f_value f).

(** [container.append], the attribute lookup alone: lists have the
    method; [None], scalars and dicts have not, and a document or a
    descriptor is taken to define none. *)
Definition has_append (container : value) : M unit :=
  match container with
  | VLoc l =>
    o ← load l;
    match o with
    | OList _ => mret tt
    | _ => raise AttributeError
    end
  | _ => raise AttributeError
  end.

(** [container.append(v)] *)
Definition py_append (container v : value) : M unit :=
  match container with
  | VLoc l =>
    o ← load l;
    match o with
    | OList xs => store l (OList (xs ++ [v])%list)
    | _ => raise AttributeError
    end
  | _ => raise AttributeError
  end.

(** [SelfishField.__getattr__] for the name [append], which no class
    between [SelfishField] and [ListField] defines: the call
    [field.append(v)] is [field._value.append(v)]. *)
Definition SelfishField_getattr_append (self : loc) (v : value) : M unit :=
  f ← load_field self;
  py_append (f_value f) v.

(** [value.iteritems()]: dicts have the method; [None], scalars and
    lists have not, and a document or a descriptor is taken to define
    none. *)
Definition py_iteritems (v : value) : M dict :=
  match v with
  | VLoc l =>
    o ← load l;
    match o with
    | ODict d => mret d
    | _ => raise AttributeError
    end
  | _ => raise AttributeError
  end.

(** [field.required] and [field.name] for an item [field] of
    [self.fields]: the attributes of a descriptor; a value that is not a
    descriptor is taken to have neither. *)
Definition item_field (v : value) : M field :=
  match v with
  | VLoc l => load_field l
  | _ => raise AttributeError
  end.

(** The classes of the table [cs] that inherit from [c], in the order of
    their creation. *)
Definition subclasses (cs : list class) (c : cid) : list cid :=
  List.filter
    (fun c' => negb (bool_decide (c' = c)) &&
               match cs !! c' with
               | Some k => bool_decide (c ∈ cls_mro k)
               | None => false
               end)%bool
    (seq 0 (length cs)).

(** ** Documents ([documents.py]) *)

Section Documents.

(** Reading a [RefField] or a [DictField] through an instance builds a
    document, and building a document writes its fields: Python binds
    these calls when they run.  The methods below take the two readers
    as [materialise]; [dereference_field] at the end of the file closes
    the loop. *)
Variable materialise : loc -> value -> M value.

(** [field.__get__(inst, type(inst))], by the class of the field. *)
Definition descr_get (self : loc) (inst : value) : M value :=
  f ← load_field self;
  match Fields.resolve Fields.m_get (f_class f) with
  | Some BaseField => BaseField_get self inst
  | Some SelfishField => SelfishField_get self inst
  | Some RefField | Some DictField => materialise self inst
  | _ => raise AttributeError
  end.

(** [getattr(inst, name)]: a descriptor of the class wins over the
    instance [__dict__], which wins over a method or a plain attribute of
    the class.  The [data] property reads [_data]; the values of the two
    read-only properties of [Document] are computed where a method reads
    them, by [self_fields] and [value_ref] below. *)
Definition get_attr (inst : value) (name : string) : M value :=
  ca ← load_inst inst;
  bound ← class_attr (fst ca) name;
  match bound with
  | Some (CVal v) =>
    isf ← is_field v;
    if isf : bool then
      match v with
      | VLoc f => descr_get f inst
      | _ => raise AttributeError
      end
    else mret (default v (assoc name (snd ca)))
  | Some CPropData => get_data inst
  | Some CPropRO => mret VOpaque
  | Some CMethod => mret (default VOpaque (assoc name (snd ca)))
  | None =>
    match assoc name (snd ca) with
    | Some v => mret v
    | None => raise AttributeError
    end
  end.

(** [BaseField.to_dict]: [value.data] is looked up on the value; a value
    that is not a document has no such attribute. *)
Definition BaseField_to_dict (self : loc) (v : value) : M value :=
  isd ← isinstance v [TDict];
  if isd : bool then mret v else get_attr v "data".

(** [ListDictField.to_dict] *)
Definition ListDictField_to_dict (self : loc) (v : value) : M value :=
  fun s =>
    match BaseField_validate self v s with
    | (Err (ValidationError _), s') => get_attr v "data" s'
    | (Err e, s') => (Err e, s')
    | (Ok _, s') => (Ok v, s')
    end.

(** [DictField.__set__] *)
Definition DictField_set (self : loc) (inst v : value) : M unit :=
  v' ← BaseField_to_dict self v;
  f ← load_field self;
  d ← get_data inst;
  py_setitem d (f_name f) v'.

(** [Document.fields]: the class dicts merged from the most basic class
    down, the fields kept. *)
Definition Document_fields (self : value) : M (list (string * loc)) :=
  ca ← load_inst self;
  k ← get_class (fst ca);
  s ← get_state;
  let attrs := fold_left
                 (fun acc c => match classes s !! c with
                               | Some k' => assoc_update acc (cls_dict k')
                               | None => acc
                               end)
                 (rev (cls_mro k)) [] in
  mret (omap (fun kv => match snd kv with
                        | CVal (VLoc l) =>
                          match heap s !! l with
                          | Some (OField _) => Some (fst kv, l)
                          | _ => None
                          end
                        | _ => None
                        end) attrs).

(** [self.name(args)] for a method [name] of [Document].  The call runs
    [method] when the first class of the MRO that binds [name] binds it
    to a function and the [__dict__] of [self] has no entry for it; else
    the lookup yields a value, the arguments are evaluated, and the call
    raises, since no value of the model can be called. *)
Definition call_method {A B} (self : value) (name : string)
           (args : M B) (method : B -> M A) : M A :=
  ca ← load_inst self;
  bound ← class_attr (fst ca) name;
  match bound, assoc name (snd ca) with
  | Some CMethod, None => b ← args; method b
  | _, _ => get_attr self name ;; args ;; raise TypeError
  end.

(** [self.fields] as [validate] reads it: the property of [Document], or
    what the class binds under the name in its place, of which the items
    are asked for. *)
Definition self_fields (self : value) : M (list value) :=
  ca ← load_inst self;
  bound ← class_attr (fst ca) "fields";
  match bound with
  | Some CPropRO => fields ← Document_fields self; mret (map (fun nf => VLoc (snd nf)) fields)
  | _ => v ← get_attr self "fields"; items ← py_iteritems v; mret (map snd items)
  end.

(** [Document.cache]: a weak reference to [self] under [_id] in the cache
    of the class of [self]. *)
Definition Document_cache (self : value) (_id : value) : M unit :=
  ca ← load_inst self;
  k ← get_class (fst ca);
  check_hashable _id ;;
  match self with
  | VLoc l => set_cache (fst ca) (assoc_set _id l (cls_cache k))
  | _ => raise AttributeError
  end.

(** [_id in cls.__cache__] *)
Definition in_cache (c : cid) (_id : value) : M bool :=
  k ← get_class c;
  check_hashable _id ;;
  mret (assoc_mem _id (cls_cache k)).

(** [Document.get_cache]: the referent of the weak reference, or [None]. *)
Definition Document_get_cache (c : cid) (_id : value) : M value :=
  k ← get_class c;
  check_hashable _id ;;
  match assoc _id (cls_cache k) with
  | Some l => mret (VLoc l)
  | None => mret VNone
  end.

(** The loop of [Document.validate] over [self.fields]: the names of the
    required fields that are not in [self.data], appended to [missing]. *)
Fixpoint missing_fields (self : value) (fields : list value)
         (missing : list value) : M (list value) :=
  match fields with
  | [] => mret missing
  | field :: fields =>
    f ← item_field field;
    if f_required f then
      data ← get_attr self "data";
      present ← py_contains (f_name f) data;
      if present : bool then missing_fields self fields missing
      else missing_fields self fields (missing ++ [f_name f])%list
    else missing_fields self fields missing
  end.

(** [Document.validate] *)
Definition Document_validate (self : value) : M unit :=
  fields ← self_fields self;
  missing ← missing_fields self fields [];
  match missing with
  | [] => mret tt
  | _ =>
    who ← get_attr self "name";
    raise (ValidationError (MissingFields who missing))
  end.

(** [Document.collection] with [get_collection]: the collection name. *)
Definition Document_collection (c : cid) : M string :=
  k ← get_class c;
  s ← get_state;
  let declared := (fix find (mro : list cid) : option string :=
                     match mro with
                     | [] => None
                     | c' :: mro =>
                       match classes s !! c' with
                       | Some k' => match cls_collection k' with
                                    | Some n => Some n
                                    | None => find mro
                                    end
                       | None => find mro
                       end
                     end) (cls_mro k) in
  mret (default (cls_name k) declared).

(** [setattr(inst, name, v)], the descriptors written through [descr_set]. *)
Definition setattr_via (descr_set : loc -> value -> value -> M unit)
           (inst : value) (name : string) (v : value) : M unit :=
  ca ← load_inst inst;
  bound ← class_attr (fst ca) name;
  match bound with
  | Some (CVal (VLoc f)) =>
    isf ← is_field (VLoc f);
    if isf : bool then descr_set f inst v else set_inst_attr inst name v
  | Some CPropData => set_inst_attr inst "_data" v
  | Some CPropRO => raise AttributeError
  | _ => set_inst_attr inst name v
  end.

(** [Document.save].  The metaclass binds [_id] to an [ObjectIdField] in
    every class, and [ObjectIdField] inherits [BaseField.__set__]. *)
Definition Document_save (self : value) : M value :=
  col ← call_method self "collection" (mret tt)
        (fun _ => ca ← load_inst self; Document_collection (fst ca));
  call_method self "validate" (mret tt) (fun _ => Document_validate self) ;;
  data ← get_attr self "data";
  has_id ← py_contains (VStr "_id") data;
  if has_id : bool then
    _id ← get_attr self "_id";
    data ← get_attr self "data";
    Storage.col_update col _id data ;;
    mret self
  else
    data ← get_attr self "data";
    i ← Storage.col_insert col data;
    setattr_via BaseField_set self "_id" i ;;
    call_method self "cache" (get_attr self "_id") (Document_cache self) ;;
    mret self.

(** [Document.ref] *)
Definition Document_ref (self : value) : M value :=
  data ← get_attr self "data";
  has_id ← py_contains (VStr "_id") data;
  (if has_id : bool then mret tt
   else call_method self "save" (mret tt) (fun _ => Document_save self) ;; mret tt) ;;
  t ← get_attr self "_type";
  i ← get_attr self "_id";
  match t with
  | VStr coll => mret (VDBRef coll i)
  | _ => raise TypeError
  end.

(** [value.ref]: the property of [Document], or what the class of the
    document binds under the name in its place; a value that is not a
    document has no such attribute. *)
Definition value_ref (v : value) : M value :=
  ca ← load_inst v;
  bound ← class_attr (fst ca) "ref";
  match bound with
  | Some CPropRO => Document_ref v
  | _ => get_attr v "ref"
  end.

(** [BaseField.to_ref] *)
Definition BaseField_to_ref (self : loc) (v : value) : M value :=
  isr ← isinstance v [TDBRef];
  if isr : bool then mret v
  else value_ref v.

(** [RefField.__set__] *)
Definition RefField_set (self : loc) (inst v : value) : M unit :=
  r ← BaseField_to_ref self v;
  f ← load_field self;
  d ← get_data inst;
  py_setitem d (f_name f) r.

(** [ListRefField.__setitem__] *)
Definition ListRefField_setitem (self : loc) (key v : value) : M value :=
  r ← BaseField_to_ref self v;
  ListField_setitem self key r ;;
  mret VNone.

(** [field.__set__(inst, v)], by the class of the field. *)
Definition descr_set (self : loc) (inst v : value) : M unit :=
  f ← load_field self;
  match Fields.resolve Fields.m_set (f_class f) with
  | Some BaseField => BaseField_set self inst v
  | Some RefField => RefField_set self inst v
  | Some SelfishField => SelfishField_set self inst v
  | Some ListField | Some ListDictField => ListField_set self inst v
  | Some DictField => DictField_set self inst v
  | _ => raise AttributeError
  end.

Definition set_attr : value -> string -> value -> M unit := setattr_via descr_set.

(** The items of [doc] as keyword arguments of a call of the class. *)
Definition kwargs_of (doc : value) : M attrs :=
  match doc with
  | VLoc l =>
    o ← load l;
    match o with
    | ODict d =>
      (fix go (d : dict) : M attrs :=
         match d with
         | [] => mret []
         | (VStr k, v) :: d => kw ← go d; mret ((k, v) :: kw)
         | _ => raise TypeError
         end) d
    | _ => raise TypeError
    end
  | _ => raise TypeError
  end.

(** One turn of the loop over [self.fields] in [__init__]: a default
    that is not callable is copied, a callable one is called, and
    [setdefault] keeps a value that is already there. *)
Definition fill_default (self : value) (name : string) (field : loc) : M unit :=
  f ← load_field field;
  match f_default f with
  | DNone | DValue VNone => mret tt
  | DValue v =>
    defl ← py_copy v;
    data ← get_data self;
    py_setdefault data (VStr name) defl
  | DCall p =>
    l ← alloc match p with PList => OList [] | PDict => ODict [] end;
    data ← get_data self;
    py_setdefault data (VStr name) (VLoc l)
  end.

(** The [__init__] that [MetaDocument.__new__] gives every class. *)
Definition Document_init (self : value) (kwargs : attrs) : M unit :=
  ca ← load_inst self;
  match assoc "_id" kwargs with
  | Some i =>
    cached ← in_cache (fst ca) i;
    if cached : bool then mret tt else Document_cache self i
  | None => mret tt
  end ;;
  d ← alloc (ODict []);
  set_inst_attr self "_data" (VLoc d) ;;
  for_each kwargs (fun kv => set_attr self (fst kv) (snd kv)) ;;
  fields ← Document_fields self;
  for_each fields (fun nf => fill_default self (fst nf) (snd nf)).

(** Calling the class: a new object, then [__init__]. *)
Definition Document_new (c : cid) (kwargs : attrs) : M value :=
  get_class c ;;
  l ← alloc (OInst c []);
  Document_init (VLoc l) kwargs ;;
  mret (VLoc l).

(** One turn of the loop of [Document.generate_objects]. *)
Definition generate_object (c : cid) (doc : value) : M value :=
  i ← py_getitem doc (VStr "_id");
  cached ← in_cache c i;
  if cached : bool then
    i ← py_getitem doc (VStr "_id");
    document ← Document_get_cache c i;
    set_attr document "data" doc ;;
    mret document
  else
    kw ← kwargs_of doc;
    Document_new c kw.

(** [Document.generate_objects], the generator read to its end: every
    turn of the loop takes the next document from the cursor. *)
Definition Document_generate_objects (c : cid) (cursor : list rdoc) : M (list value) :=
  map_each cursor (fun raw => doc ← Storage.decode_doc raw; generate_object c doc).

(** [Document.find], the cursor or the generator it returns read to its
    end. *)
Definition Document_find (c : cid) (decode : bool) (spec : attrs) : M (list value) :=
  col ← Document_collection c;
  docs ← Storage.col_find col spec;
  if decode then Document_generate_objects c docs else Storage.read_cursor docs.

(** [Document.find_one] *)
Definition Document_find_one (c : cid) (decode : bool) (spec : attrs) : M value :=
  col ← Document_collection c;
  doc ← Storage.col_find_one col spec;
  if decode then
    i ← py_getitem doc (VStr "_id");
    cached ← in_cache c i;
    if cached : bool then
      i ← py_getitem doc (VStr "_id");
      document ← Document_get_cache c i;
      set_attr document "data" doc ;;
      mret document
    else
      kw ← kwargs_of doc;
      Document_new c kw
  else mret doc.

(** Modelled from the spec: [utils.rget_subclasses] is not in the
    sources; the specification has the full subclass tree of the
    requesting type searched.  The classes that inherit from [c], in the
    order of their creation. *)
Definition rget_subclasses (c : cid) : M (list cid) :=
  s ← get_state; mret (subclasses (classes s) c).

(** The loop of [Document.dereference] over the subclasses: every
    subclass named like the type tag of [doc] replaces [doc_type]. *)
Fixpoint pick_subclass (doc : value) (subs : list cid) (doc_type : cid) : M cid :=
  match subs with
  | [] => mret doc_type
  | subc :: subs =>
    t ← py_getitem doc (VStr "_type");
    k' ← get_class subc;
    if decide (t = VStr (cls_name k')) then pick_subclass doc subs subc
    else pick_subclass doc subs doc_type
  end.

(** [Document.dereference] *)
Definition Document_dereference (c : cid) (dbref : value) : M value :=
  doc ← Storage.dereference dbref;
  t ← py_getitem doc (VStr "_type");
  k ← get_class c;
  doc_type ←
    (if decide (t = VStr (cls_name k)) then mret c
     else subs ← rget_subclasses c; pick_subclass doc subs c);
  match dbref with
  | VDBRef _ i =>
    cached ← in_cache doc_type i;
    if cached : bool then
      i ← py_getitem doc (VStr "_id");
      document ← Document_get_cache doc_type i;
      set_attr document "data" doc ;;
      mret document
    else
      kw ← kwargs_of doc;
      Document_new doc_type kw
  | _ => raise AttributeError
  end.

(** The class a field resolves a name to: its own [doc_types] first,
    then the classes of the program by name. *)
Definition referent_type (f : field) (name : string) : M cid :=
  s ← get_state;
  match assoc name (f_doc_types f) with
  | Some (TDoc c) => mret c
  | Some _ => raise AttributeError
  | None =>
    match List.find (fun c => match classes s !! c with
                              | Some k => bool_decide (cls_name k = name)
                              | None => false
                              end) (seq 0 (length (classes s))) with
    | Some c => mret c
    | None => raise AttributeError
    end
  end.

(** [RefField.__get__] *)
Definition RefField_get (self : loc) (inst : value) : M value :=
  f ← load_field self;
  d ← get_data inst;
  ref ← py_getitem d (f_name f);
  match ref with
  | VDBRef coll _ =>
    doc_type ← referent_type f coll;
    Document_dereference doc_type ref
  | _ => raise AttributeError
  end.

(** [DictField.__get__] *)
Definition DictField_get (self : loc) (inst : value) : M value :=
  f ← load_field self;
  d ← get_data inst;
  data ← py_getitem d (f_name f);
  tagged ← py_contains (VStr "_type") data;
  if tagged : bool then
    t ← py_getitem data (VStr "_type");
    match t with
    | VStr name =>
      doc_type ← referent_type f name;
      kw ← kwargs_of data;
      Document_new doc_type kw
    | _ => raise TypeError
    end
  else mret data.

(** [Document.remove] *)
Definition Document_remove (self : value) : M unit :=
  col ← call_method self "collection" (mret tt)
        (fun _ => ca ← load_inst self; Document_collection (fst ca));
  data ← get_attr self "data";
  has_id ← py_contains (VStr "_id") data;
  if has_id : bool then
    _id ← get_attr self "_id";
    Storage.col_remove col _id
  else mret tt.

(** [ListRefField.__getitem__] *)
Definition ListRefField_getitem (self : loc) (key : value) : M value :=
  f ← load_field self;
  ref ← py_getitem (f_value f) key;
  match ref with
  | VDBRef coll _ =>
    doc_type ← referent_type f coll;
    Document_dereference doc_type ref
  | _ => raise AttributeError
  end.

(** [ListRefField.append]: the method of [self._value] is looked up
    before the argument is evaluated. *)
Definition ListRefField_append (self : loc) (v : value) : M unit :=
  f ← load_field self;
  has_append (f_value f) ;;
  r ← BaseField_to_ref self v;
  py_append (f_value f) r.

(** [ListRefField.__add__] *)
Definition ListRefField_add (self : loc) (v : value) : M value :=
  ListRefField_append self v ;;
  f ← load_field self;
  mret (f_value f).

(** The two readers [materialise] stands for. *)
Definition read_field (self : loc) (inst : value) : M value :=
  f ← load_field self;
  match Fields.resolve Fields.m_get (f_class f) with
  | Some RefField => RefField_get self inst
  | Some DictField => DictField_get self inst
  | _ => raise AttributeError
  end.

End Documents.

(** Reading a reference field inside the construction that another such
    read started: [depth] is the number of nested reads the interpreter
    allows before it raises. *)
Fixpoint dereference_field (depth : nat) (self : loc) (inst : value) : M value :=
  match depth with
  | 0 => raise RuntimeError
  | S depth => read_field (dereference_field depth) self inst
  end.

(** ** Class creation ([MetaDocument.__new__]) *)

Definition type_name (cs : list class) (t : ptype) : string :=
  match t with
  | TInt => "int"
  | TStr => "basestring"
  | TList => "list"
  | TDict => "dict"
  | TObjectId => "ObjectId"
  | TDBRef => "DBRef"
  | TDoc c => match cs !! c with Some k => cls_name k | None => "" end
  end.

(** A field declaration in a class body, for instance [Field(int, required=True)]. *)
Definition field_new (c : field_class) (types : list ptype) (kw : Fields.kwargs) : M value :=
  s ← get_state;
  match Fields.construct (type_name (classes s)) c types kw with
  | Ok f => l ← alloc (OField f); mret (VLoc l)
  | Err e => raise e
  end.

(** [value.__dict__["name"] = name] for every field of the class body. *)
Definition name_fields (body : list (string * cattr)) : M unit :=
  for_each body (fun kv =>
    match snd kv with
    | CVal v =>
      isf ← is_field v;
      if isf : bool then
        match v with
        | VLoc l => f ← load_field l;
                    store_field l (Fields.with_name (VStr (fst kv)) f)
        | _ => mret tt
        end
      else mret tt
    | _ => mret tt
    end).

(** [MetaDocument.__new__(cls, clsname, bases, attrs)] with one base class
    ([None] for [object]); the new class. *)
Definition MetaDocument_new (clsname : string) (base : option cid)
           (collection : option string) (body : list (string * cattr)) : M cid :=
  t ← field_new Field [TStr] (Fields.mkKwargs VNone (DValue (VStr clsname)) false);
  let attrs := assoc_set "_type" (CVal t) body in
  i ← field_new ObjectIdField [] Fields.no_kwargs;
  let attrs := assoc_set "_id" (CVal i) attrs in
  name_fields attrs ;;
  let attrs := assoc_set "__init__" CMethod attrs in
  base_mro ← match base with
             | Some b => k ← get_class b; mret (cls_mro k)
             | None => mret []
             end;
  s ← get_state;
  let c := length (classes s) in
  set_classes (classes s ++ [mkClass clsname (c :: base_mro) attrs collection []]) ;;
  mret c.

(** The body of [class Document(object)]. *)
Definition Document_body : list (string * cattr) :=
  [("__metaclass__", CVal VOpaque);
   ("ref", CPropRO); ("fields", CPropRO); ("data", CPropData);
   ("cache", CMethod); ("get_cache", CMethod); ("validate", CMethod);
   ("save", CMethod); ("generate_objects", CMethod); ("find", CMethod);
   ("find_one", CMethod); ("remove", CMethod); ("collection", CMethod);
   ("dereference", CMethod)].

Definition empty_state : state := mkState [] [] (mkDb [] 0).

(** The module [documents] once imported: [Document] is class 0. *)
Definition Document : cid := 0.
Definition boot : M cid := MetaDocument_new "Document" None None Document_body.

(** ** Example programs *)

Module Examples.

(** The interpreter's default recursion limit. *)
Definition read : loc -> value -> M value := dereference_field 1000.

Definition required : Fields.kwargs := Fields.mkKwargs VNone DNone true.

(** [class User(Document): name = Field(basestring, required=True);
    tags = ListField(basestring)] *)
Definition declare_User : M cid :=
  n ← field_new Field [TStr] required;
  t ← field_new ListField [TStr] Fields.no_kwargs;
  MetaDocument_new "User" (Some Document) None [("name", CVal n); ("tags", CVal t)].

(** [class Post(Document): title = Field(basestring, required=True);
    body = Field(basestring, required=True)] *)
Definition declare_Post : M cid :=
  t ← field_new Field [TStr] required;
  b ← field_new Field [TStr] required;
  MetaDocument_new "Post" (Some Document) None [("title", CVal t); ("body", CVal b)].

(** [Post().validate()] *)
Definition validate_empty_post : M unit :=
  boot ;;
  c ← declare_Post;
  p ← Document_new read c [];
  Document_validate read p.

(** [User().validate()] *)
Definition validate_empty_user : M unit :=
  boot ;;
  c ← declare_User;
  u ← Document_new read c [];
  Document_validate read u.

(** [User.find_one(name="bob")] on an empty collection. *)
Definition find_nobody (decode : bool) : M value :=
  boot ;;
  c ← declare_User;
  Document_find_one read c decode [("name", VStr "bob")].

(** Two users, each with a list of tags of its own. *)
Definition two_users : M (value * value) :=
  boot ;;
  c ← declare_User;
  ta ← alloc (OList [VStr "p"]);
  tb ← alloc (OList [VStr "q"]);
  a ← Document_new read c [("name", VStr "ann"); ("tags", VLoc ta)];
  b ← Document_new read c [("name", VStr "bob"); ("tags", VLoc tb)];
  mret (a, b).

(** [class Named(Document): name = Field(basestring);
    title = Field(basestring, required=True)], and
    [Named(name="alice").validate()]. *)
Definition validate_named : M unit :=
  boot ;;
  n ← field_new Field [TStr] Fields.no_kwargs;
  t ← field_new Field [TStr] required;
  c ← MetaDocument_new "Named" (Some Document) None [("name", CVal n); ("title", CVal t)];
  d ← Document_new read c [("name", VStr "alice")];
  Document_validate read d.

(** [Post(title="t", body="b")], not saved yet. *)
Definition new_post : M value :=
  boot ;;
  c ← declare_Post;
  Document_new read c [("title", VStr "t"); ("body", VStr "b")].

(** [class Author(Document): pass] and
    [class Book(Document): author = RefField(Author)]; an author and a
    book, neither saved. *)
Definition author_and_book : M (value * value) :=
  boot ;;
  author ← MetaDocument_new "Author" (Some Document) None [];
  rf ← field_new RefField [TDoc author] Fields.no_kwargs;
  book ← MetaDocument_new "Book" (Some Document) None [("author", CVal rf)];
  a ← Document_new read author [];
  b ← Document_new read book [];
  mret (a, b).

(** A collection that holds a user nobody has loaded yet. *)
Definition stored_user : M cid :=
  boot ;;
  c ← declare_User;
  set_db (mkDb [("User", [[("name", RStr "alice"); ("_type", RStr "User");
                           ("tags", RList [RStr "x"]); ("_id", ROid 7)]])] 8) ;;
  mret c.

(** [class Animal(Document)], [class Dog(Animal)], and a stored dog in the
    collection of the animals. *)
Definition stored_dog : M (cid * cid) :=
  boot ;;
  animal ← MetaDocument_new "Animal" (Some Document) None [];
  dog ← MetaDocument_new "Dog" (Some animal) None [];
  set_db (mkDb [("Animal", [[("_type", RStr "Dog"); ("_id", ROid 3)]])] 4) ;;
  mret (animal, dog).

(** [class Animal(Document): _collection = {"name": "animals"}] and
    [class Dog(Animal)], which inherits the collection, and a stored dog. *)
Definition kennel : M (cid * cid) :=
  boot ;;
  animal ← MetaDocument_new "Animal" (Some Document) (Some "animals") [];
  dog ← MetaDocument_new "Dog" (Some animal) None [];
  set_db (mkDb [("animals", [[("_type", RStr "Dog"); ("_id", ROid 3)]])] 4) ;;
  mret (animal, dog).

(** [class Grid(Document): rows = Field(list, default=[[1]])] and a grid
    whose construction has come as far as [self._data = {}]. *)
Definition grid_under_construction : M (loc * loc * loc) :=
  boot ;;
  inner ← alloc (OList [VInt 1]);
  outer ← alloc (OList [VLoc inner]);
  rows ← field_new Field [TList] (Fields.mkKwargs VNone (DValue (VLoc outer)) false);
  c ← MetaDocument_new "Grid" (Some Document) None [("rows", CVal rows)];
  g ← alloc (OInst c []);
  d ← alloc (ODict []);
  set_inst_attr (VLoc g) "_data" (VLoc d) ;;
  match rows with
  | VLoc r => mret (r, g, d)
  | _ => raise RuntimeError
  end.

(** [class Bag(Document): items = ListField(int)] and a bag whose
    construction has come as far as [self._data = {}]. *)
Definition bag_under_construction : M (loc * loc * loc) :=
  boot ;;
  items ← field_new ListField [TInt] Fields.no_kwargs;
  c ← MetaDocument_new "Bag" (Some Document) None [("items", CVal items)];
  b ← alloc (OInst c []);
  d ← alloc (ODict []);
  set_inst_attr (VLoc b) "_data" (VLoc d) ;;
  match items with
  | VLoc r => mret (r, b, d)
  | _ => raise RuntimeError
  end.

(** [class Author(Document): pass] and
    [class Shelf(Document): authors = ListRefField(Author)]; a shelf, and
    [shelf.authors] read once. *)
Definition shelf : M (loc * value) :=
  boot ;;
  author ← MetaDocument_new "Author" (Some Document) None [];
  lf ← field_new ListRefField [TDoc author] Fields.no_kwargs;
  c ← MetaDocument_new "Shelf" (Some Document) None [("authors", CVal lf)];
  sh ← Document_new read c [];
  get_attr read sh "authors" ;;
  match lf with
  | VLoc l => mret (l, sh)
  | _ => raise RuntimeError
  end.

(** [class Note(Document): body = SelfishField(basestring)] and a note. *)
Definition note : M (loc * value) :=
  boot ;;
  b ← field_new SelfishField [TStr] Fields.no_kwargs;
  c ← MetaDocument_new "Note" (Some Document) None [("body", CVal b)];
  n ← Document_new read c [];
  match b with
  | VLoc l => mret (l, n)
  | _ => raise RuntimeError
  end.

(** [ann = User(name="ann", _id=ObjectId(7))] *)
Definition ann : M (cid * value) :=
  boot ;;
  c ← declare_User;
  a ← Document_new read c [("name", VStr "ann"); ("_id", VOid 7)];
  mret (c, a).

(** [ann], and then [bob = User(name="bob", _id=ObjectId(7))]: a second
    user constructed under the identity of the first. *)
Definition twins : M (value * value) :=
  ca ← ann;
  b ← Document_new read (fst ca) [("name", VStr "bob"); ("_id", VOid 7)];
  mret (snd ca, b).

(** [class Grid(Document): rows = Field(list, default=[[1]])], two grids
    [a] and [b], and [a.rows[0].append(2)]; the result is [a.rows],
    [b.rows] and [b.rows[0]]. *)
Definition two_grids : M (value * value * value) :=
  boot ;;
  inner ← alloc (OList [VInt 1]);
  outer ← alloc (OList [VLoc inner]);
  rows ← field_new Field [TList] (Fields.mkKwargs VNone (DValue (VLoc outer)) false);
  c ← MetaDocument_new "Grid" (Some Document) None [("rows", CVal rows)];
  a ← Document_new read c [];
  b ← Document_new read c [];
  ra ← get_attr read a "rows";
  row ← py_getitem ra (VInt 0);
  py_append row (VInt 2) ;;
  rb ← get_attr read b "rows";
  row' ← py_getitem rb (VInt 0);
  mret (ra, rb, row').

End Examples.

(** A value every state takes for an instance of one of [types]. *)
Definition accepted (types : list ptype) (v : value) : Prop :=
  forall s, existsb (isinstance1 s v) types = true.

(** The document at [l]: an instance of [c] whose [_data] is the dict [dd]
    at [d]. *)
Definition document_at (s : state) (l : loc) (c : cid) (a : attrs)
           (d : loc) (dd : dict) : Prop :=
  heap s !! l = Some (OInst c a) /\
  assoc "_data" a = Some (VLoc d) /\
  heap s !! d = Some (ODict dd).

(** Class [c] binds [name] to the descriptor [f] at [fl], the way the
    metaclass names the fields of a class body. *)
Definition bound_field (s : state) (c : cid) (name : string) (fl : loc) (f : field) : Prop :=
  exists k, classes s !! c = Some k /\
            mro_lookup (classes s) name (cls_mro k) = Some (CVal (VLoc fl)) /\
            heap s !! fl = Some (OField f) /\
            f_name f = VStr name.

(** Two objects of one kind: lists, dicts, documents of one class, or one
    descriptor up to its [_value]. *)
Definition same_kind (o o' : obj) : Prop :=
  match o, o' with
  | OList _, OList _ => True
  | ODict _, ODict _ => True
  | OInst c _, OInst c' _ => c = c'
  | OField f, OField f' => f' = Fields.with_value (f_value f') f
  | _, _ => False
  end.

(** [s'] comes from [s] by allocations and by writes into objects: the
    classes, their caches and the collections are the same, and every
    object is still of its kind. *)
Definition ext (s s' : state) : Prop :=
  classes s' = classes s /\
  db s' = db s /\
  forall l o, heap s !! l = Some o -> exists o', heap s' !! l = Some o' /\ same_kind o o'.

(** A method that leaves the state as it found it, whatever it returns. *)
Definition reads {A} (m : M A) : Prop :=
  forall s r s', m s = (r, s') -> s' = s.

(** A method that writes into objects only. *)
Definition keeps {A} (m : M A) : Prop :=
  forall s r s', m s = (r, s') -> ext s s'.

(** A value that is not a document: a scalar, a reference, a list, a dict
    or a descriptor. *)
Definition plain (h : list obj) (v : value) : bool :=
  match v with
  | VLoc l => match h !! l with
              | Some (OInst _ _) | None => false
              | Some _ => true
              end
  | _ => true
  end.

(** The class table once [__init__] of the new document [l] of class [c]
    has looked at its [_id] argument: the document is registered under it
    when the argument is there, is hashable and is not yet a key of the
    cache. *)
Definition registered (s : state) (l : loc) (c : cid) (kw : attrs) : list class :=
  match assoc "_id" kw with
  | Some i =>
    match classes s !! c with
    | Some k =>
      if hashable (heap s) i then
        if assoc_mem i (cls_cache k) then classes s
        else <[c := mkClass (cls_name k) (cls_mro k) (cls_dict k) (cls_collection k)
                            (assoc_set i l (cls_cache k))]> (classes s)
      else classes s
    | None => classes s
    end
  | None => classes s
  end.

(** A method that, run from [s], writes into objects only. *)
Definition keeps_at {A} (m : M A) (s : state) : Prop :=
  forall r s', m s = (r, s') -> ext s s'.

(** The first class of the MRO of [c] that binds [name] binds it to [m]:
    with [m] as in the body of [Document], the class and its bases leave
    that member of [Document] alone. *)
Definition binds (s : state) (c : cid) (name : string) (m : cattr) : Prop :=
  exists k, classes s !! c = Some k /\
            mro_lookup (classes s) name (cls_mro k) = Some m.

(** A document of class [c] whose [__dict__] is [a] finds the method
    [name] of [Document] under that name. *)
Definition calls (s : state) (c : cid) (a : attrs) (name : string) : Prop :=
  binds s c name CMethod /\ assoc name a = None.

(** The class [Document.dereference] settles on for a type tag: the
    requesting class when the tag is its name, else the last subclass of
    that name, else the requesting class. *)
Definition resolve_type (cs : list class) (c : cid) (tag : value) : cid :=
  match cs !! c with
  | Some k =>
    if decide (tag = VStr (cls_name k)) then c
    else fold_left (fun acc subc =>
                      match cs !! subc with
                      | Some k' => if decide (tag = VStr (cls_name k')) then subc else acc
                      | None => acc
                      end) (subclasses cs c) c
  | None => c
  end.

(** The instance the cache of class [c] holds under the identity [i]. *)
Definition cache_at (s : state) (c : cid) (i : value) : option loc :=
  match classes s !! c with
  | Some k => assoc i (cls_cache k)
  | None => None
  end.

(** A sequence of loads of stored documents whose identity is [o], each
    through the cache of class [c], and the instances they return, in
    order.  A load is a [find_one] or a [find] of class [c], or a
    [dereference] of any class that settles on [c]; between two loads the
    program may do anything that leaves the entry of the cache alone,
    which is what holding a reference to the instance guarantees. *)
Inductive loads_of (rd : loc -> value -> M value) (c : cid) (o : N) :
  state -> list value -> state -> Prop :=
| loads_nil (s : state) : loads_of rd c o s [] s
| loads_find_one (s s1 s2 : state) (spec : attrs) (col : string) (q doc : rdoc)
                 (r : value) (rs : list value) :
    Document_collection c s = (Ok col, s) ->
    Storage.encode_query spec s = (Ok q, s) ->
    Storage.db_find_one (db s) col q = Some doc ->
    assoc "_id" doc = Some (ROid o) ->
    Document_find_one rd c true spec s = (Ok r, s1) ->
    loads_of rd c o s1 rs s2 ->
    loads_of rd c o s (r :: rs) s2
| loads_find (s s1 s2 : state) (spec : attrs) (col : string) (q : rdoc)
             (found rs : list value) :
    Document_collection c s = (Ok col, s) ->
    Storage.encode_query spec s = (Ok q, s) ->
    Forall (fun doc => assoc "_id" doc = Some (ROid o)) (Storage.db_find (db s) col q) ->
    Document_find rd c true spec s = (Ok found, s1) ->
    loads_of rd c o s1 rs s2 ->
    loads_of rd c o s (found ++ rs)%list s2
| loads_dereference (s s1 s2 : state) (c0 : cid) (coll tag : string) (doc : rdoc)
                    (r : value) (rs : list value) :
    Storage.db_dereference (db s) coll (ROid o) = Some doc ->
    assoc "_id" doc = Some (ROid o) ->
    assoc "_type" doc = Some (RStr tag) ->
    resolve_type (classes s) c0 (VStr tag) = c ->
    Document_dereference rd c0 (VDBRef coll (VOid o)) s = (Ok r, s1) ->
    loads_of rd c o s1 rs s2 ->
    loads_of rd c o s (r :: rs) s2
| loads_other (s s1 s2 : state) (rs : list value) :
    (forall l, cache_at s c (VOid o) = Some l -> cache_at s1 c (VOid o) = Some l) ->
    loads_of rd c o s1 rs s2 ->
    loads_of rd c o s rs s2.

(** The Python value of a stored scalar. *)
Definition scalar_value (r : raw) : option value :=
  match r with
  | RNone => Some VNone
  | RInt z => Some (VInt z)
  | RStr x => Some (VStr x)
  | ROid o => Some (VOid o)
  | _ => None
  end.

(** A scalar, a reference, a list or a dict: a value that has none of the
    attributes the fields and the documents ask a value for ([ref],
    [data], [collection]) and forwards no attribute lookup. *)
Definition passive (h : list obj) (v : value) : bool :=
  match v with
  | VLoc l => match h !! l with
              | Some (OList _) | Some (ODict _) => true
              | _ => false
              end
  | VOpaque => false
  | _ => true
  end.

(** The names of the required fields among [fields] that are not keys of
    the data [dd], in the order of [fields]. *)
Definition required_missing (h : list obj) (dd : dict) (fields : list (string * loc))
  : list value :=
  omap (fun nf => match h !! nf.2 with
                  | Some (OField f) =>
                    if (f_required f && negb (assoc_mem (f_name f) dd))%bool
                    then Some (f_name f) else None
                  | _ => None
                  end) fields.

(** The heap once the metaclass has named the fields among [attrs]. *)
Definition named (h : list obj) (attrs : list (string * cattr)) : list obj :=
  fold_left (fun h kv =>
               match kv.2 with
               | CVal (VLoc l) =>
                 match h !! l with
                 | Some (OField f) => <[l := OField (Fields.with_name (VStr kv.1) f)]> h
                 | _ => h
                 end
               | _ => h
               end) attrs h.

(** * Properties *)

Lemma bind_unfold {A B} (m : M A) (k : A -> M B) (s : state) :
  (m ≫= k) s = match m s with
               | (Ok a, s') => k a s'
               | (Err e, s') => (Err e, s')
               end.
Proof. reflexivity. Qed.

(** Runs a method as far as its first call whose outcome is not known. *)
Ltac mred :=
  repeat first
    [ rewrite bind_unfold
    | progress unfold get_state, raise, mret, M_ret
    | progress cbv beta iota ].

(** ** Embedded container fields cannot be constructed *)

(** C9.  [DictField.__init__] calls [super(ListRefField, self)] and
    [ListDictField.__init__] calls [super(ListField, self)]; neither class
    has that class in its MRO, so for all types and keyword arguments the
    construction raises TypeError. *)
Theorem embedded_fields_raise_TypeError :
  forall (type_name : ptype -> string) (types : list ptype) (kw : Fields.kwargs),
    (ListRefField ∉ Fields.mro DictField) /\
    (ListField ∉ Fields.mro ListDictField) /\
    Fields.py_super ListRefField DictField = Err TypeError /\
    Fields.py_super ListField ListDictField = Err TypeError /\
    Fields.construct type_name DictField types kw = Err TypeError /\
    Fields.construct type_name ListDictField types kw = Err TypeError.
Proof.
  intros tn types kw.
  assert (Hd : Fields.mro DictField = [DictField; BaseField]) by reflexivity.
  assert (Hl : Fields.mro ListDictField = [ListDictField; SelfishField; BaseField])
    by reflexivity.
  repeat split; try reflexivity.
  - rewrite Hd. intros Hin. repeat (apply elem_of_cons in Hin as [Hin | Hin]; [discriminate |]).
    by apply elem_of_nil in Hin.
  - rewrite Hl. intros Hin. repeat (apply elem_of_cons in Hin as [Hin | Hin]; [discriminate |]).
    by apply elem_of_nil in Hin.
Qed.

(** The same at the level of a class body: the declaration raises and
    leaves the program state as it was. *)
Lemma field_new_embedded (types : list ptype) (kw : Fields.kwargs) (s : state) :
  field_new DictField types kw s = (Err TypeError, s) /\
  field_new ListDictField types kw s = (Err TypeError, s).
Proof. split; reflexivity. Qed.

(** ** [find_one] without a match *)

(** C8.  When no stored document matches, [col.find_one] returns [None];
    with decoding the method then subscripts [None] and raises TypeError,
    without decoding it returns [None]. *)
Theorem find_one_no_match :
  forall (rd : loc -> value -> M value) (c : cid) (spec : attrs) (s : state)
         (col : string) (q : rdoc),
    Document_collection c s = (Ok col, s) ->
    Storage.encode_query spec s = (Ok q, s) ->
    Storage.db_find_one (db s) col q = None ->
    Document_find_one rd c true spec s = (Err TypeError, s) /\
    Document_find_one rd c false spec s = (Ok VNone, s).
Proof.
  intros rd c spec s col q Hcol Hq Hnone.
  unfold Document_find_one, Storage.col_find_one.
  mred. rewrite Hcol. mred. rewrite Hq. mred. rewrite Hnone.
  split; reflexivity.
Qed.

Lemma find_one_no_match_witness :
  exists s c,
    Examples.find_nobody true empty_state = (Err TypeError, s) /\
    Document_find_one Examples.read c false [("name", VStr "bob")] s = (Ok VNone, s).
Proof.
  pose (s := snd (Examples.find_nobody true empty_state)).
  exists s, 1.
  assert (Hs : (boot ;; Examples.declare_User) empty_state = (Ok 1, s)) by (vm_compute; reflexivity).
  destruct (find_one_no_match Examples.read 1 [("name", VStr "bob")] s "User"
              [("name", RStr "bob")]) as [H1 H2];
    [vm_compute; reflexivity | vm_compute; reflexivity | vm_compute; reflexivity |].
  split; [| exact H2].
  unfold Examples.find_nobody.
  change ((boot ≫= (fun _ => Examples.declare_User ≫= fun c =>
             Document_find_one Examples.read c true [("name", VStr "bob")])) empty_state
          = (Err TypeError, s)).
  vm_compute. reflexivity.
Defined.

(** ** The list proxy *)

Lemma hashable_VStr (h : list obj) (x : string) : hashable h (VStr x) = true.
Proof. reflexivity. Qed.

Lemma hashable_VOid (h : list obj) (o : N) : hashable h (VOid o) = true.
Proof. reflexivity. Qed.

(** Unfolds the primitives and uses what the context says about the state. *)
Ltac mgo :=
  repeat first
    [ rewrite bind_unfold
    | progress unfold get_state, raise, mret, M_ret, load, store, alloc,
        load_field, store_field, set_field_value, load_inst, get_data, check_hashable,
        isinstance, set_heap, set_classes, set_db, get_class
    | progress cbn [fst snd heap classes db]
    | progress cbv beta iota
    | rewrite hashable_VStr
    | rewrite hashable_VOid
    | match goal with
      | H : ?x = _ |- context [?x] => rewrite H
      end ].

Lemma lookup_kind_ne (h : list obj) (l l' : loc) (o o' : obj) :
  h !! l = Some o -> h !! l' = Some o' -> o <> o' -> l <> l'.
Proof. intros H H' Hne ->. congruence. Qed.

Lemma SelfishField_get_spec (s : state) (fl a da : loc) (f : field) (ca : cid)
      (aa : attrs) (dda : dict) (v : value) :
  heap s !! fl = Some (OField f) ->
  heap s !! a = Some (OInst ca aa) ->
  assoc "_data" aa = Some (VLoc da) ->
  heap s !! da = Some (ODict dda) ->
  hashable (heap s) (f_name f) = true ->
  assoc (f_name f) dda = Some v ->
  SelfishField_get fl (VLoc a) s =
  (Ok (VLoc fl),
   mkState (<[fl := OField (Fields.with_value v f)]> (heap s)) (classes s) (db s)).
Proof.
  intros Hf Ha Hd Hda Hh Hv.
  unfold SelfishField_get, py_getitem. mgo. reflexivity.
Qed.

Lemma with_value_class (v : value) (f : field) :
  f_class (Fields.with_value v f) = f_class f /\
  f_name (Fields.with_value v f) = f_name f /\
  f_types (Fields.with_value v f) = f_types f /\
  f_value (Fields.with_value v f) = v.
Proof. by destruct f. Qed.

Lemma ListField_setitem_spec (s : state) (fl l : loc) (f : field) (xs : list value)
      (key : Z) (n : nat) (v : value) :
  heap s !! fl = Some (OField f) ->
  f_value f = VLoc l ->
  heap s !! l = Some (OList xs) ->
  accepted (f_types f) v ->
  list_index (length xs) key = Some n ->
  ListField_setitem fl (VInt key) v s =
  (Ok (VLoc l),
   mkState (<[l := OList (<[n := v]> xs)]> (heap s)) (classes s) (db s)).
Proof.
  intros Hf Hv Hl Hacc Hidx.
  unfold ListField_setitem, BaseField_validate, py_setitem. mgo.
  rewrite (Hacc s). mgo. reflexivity.
Qed.

(** C10.  The state of the list proxy is an attribute of the field
    declaration, one object for the whole document type.  With two
    documents [a] and [b] of that type holding different lists [la] and
    [lb], reading the field on [a] and then on [b] yields the same object
    twice, and an index assignment through what the read on [a] returned
    writes into the list of [b], the instance read last; the list and the
    backing dict of [a] are as they were. *)
Theorem list_proxy_writes_last_read :
  forall (rd : loc -> value -> M value) (s : state) (fl a b da db_ la lb : loc)
         (f : field) (nm : string) (ca cb : cid) (aa ab : attrs) (dda ddb : dict)
         (xa xb : list value) (key : Z) (n : nat) (v : value),
    heap s !! fl = Some (OField f) ->
    f_class f = ListField ->
    f_name f = VStr nm ->
    heap s !! a = Some (OInst ca aa) ->
    assoc "_data" aa = Some (VLoc da) ->
    heap s !! da = Some (ODict dda) ->
    assoc (VStr nm) dda = Some (VLoc la) ->
    heap s !! la = Some (OList xa) ->
    heap s !! b = Some (OInst cb ab) ->
    assoc "_data" ab = Some (VLoc db_) ->
    heap s !! db_ = Some (ODict ddb) ->
    assoc (VStr nm) ddb = Some (VLoc lb) ->
    heap s !! lb = Some (OList xb) ->
    la <> lb ->
    accepted (f_types f) v ->
    list_index (length xb) key = Some n ->
    exists s1 s2 s3 pa pb,
      descr_get rd fl (VLoc a) s = (Ok pa, s1) /\
      descr_get rd fl (VLoc b) s1 = (Ok pb, s2) /\
      pa = pb /\
      match pa with
      | VLoc p => ListField_setitem p (VInt key) v s2 = (Ok (VLoc lb), s3)
      | _ => False
      end /\
      heap s3 !! lb = Some (OList (<[n := v]> xb)) /\
      heap s3 !! la = Some (OList xa) /\
      heap s3 !! da = Some (ODict dda) /\
      heap s3 !! a = Some (OInst ca aa).
Proof.
  intros rd s fl a b da db_ la lb f nm ca cb aa ab dda ddb xa xb key n v
         Hf Hcls Hnm Ha Hda Hdda Hla Hxa Hb Hdb Hddb Hlb Hxb Hne Hacc Hidx.
  assert (Hfl : fl < length (heap s)) by (eapply lookup_lt_Some; eauto).
  assert (Hlbl : lb < length (heap s)) by (eapply lookup_lt_Some; eauto).
  assert (fl <> a) by (eapply lookup_kind_ne; eauto; discriminate).
  assert (fl <> b) by (eapply lookup_kind_ne; eauto; discriminate).
  assert (fl <> da) by (eapply lookup_kind_ne; eauto; discriminate).
  assert (fl <> db_) by (eapply lookup_kind_ne; eauto; discriminate).
  assert (fl <> la) by (eapply lookup_kind_ne; eauto; discriminate).
  assert (fl <> lb) by (eapply lookup_kind_ne; eauto; discriminate).
  assert (lb <> da) by (eapply lookup_kind_ne; eauto; discriminate).
  assert (lb <> a) by (eapply lookup_kind_ne; eauto; discriminate).
  set (f1 := Fields.with_value (VLoc la) f).
  set (f2 := Fields.with_value (VLoc lb) f1).
  set (s1 := mkState (<[fl := OField f1]> (heap s)) (classes s) (db s)).
  set (s2 := mkState (<[fl := OField f2]> (heap s1)) (classes s1) (db s1)).
  set (s3 := mkState (<[lb := OList (<[n := v]> xb)]> (heap s2)) (classes s2) (db s2)).
  exists s1, s2, s3, (VLoc fl), (VLoc fl).
  assert (Hget1 : descr_get rd fl (VLoc a) s = (Ok (VLoc fl), s1)).
  { unfold descr_get. mgo.
    change (Fields.resolve Fields.m_get ListField) with (Some SelfishField). cbv iota.
    eapply SelfishField_get_spec; eauto; by rewrite Hnm. }
  assert (Hf1 : heap s1 !! fl = Some (OField f1))
    by (cbn; by apply list_lookup_insert_eq).
  destruct (with_value_class (VLoc la) f) as (Hc1 & Hn1 & _ & _).
  fold f1 in Hc1, Hn1. rewrite Hcls in Hc1. rewrite Hnm in Hn1.
  assert (Hget2 : descr_get rd fl (VLoc b) s1 = (Ok (VLoc fl), s2)).
  { unfold descr_get. mgo.
    change (Fields.resolve Fields.m_get ListField) with (Some SelfishField). cbv iota.
    eapply SelfishField_get_spec; eauto.
    - cbn. by rewrite list_lookup_insert_ne.
    - cbn. by rewrite list_lookup_insert_ne.
    - by rewrite Hn1.
    - by rewrite Hn1. }
  assert (Hf2 : heap s2 !! fl = Some (OField f2)).
  { cbn. apply list_lookup_insert_eq. by rewrite length_insert. }
  assert (Hlb2 : heap s2 !! lb = Some (OList xb)).
  { cbn. by rewrite !list_lookup_insert_ne. }
  assert (Hset : ListField_setitem fl (VInt key) v s2 = (Ok (VLoc lb), s3)).
  { eapply ListField_setitem_spec; eauto. }
  repeat split; try assumption.
  - cbn. apply list_lookup_insert_eq. by rewrite !length_insert.
  - cbn. by rewrite !list_lookup_insert_ne.
  - cbn. by rewrite !list_lookup_insert_ne.
  - cbn. by rewrite !list_lookup_insert_ne.
Qed.

Lemma list_proxy_writes_last_read_witness :
  exists s s3,
    Examples.two_users empty_state = (Ok (VLoc 8, VLoc 11), s) /\
    heap s !! 6 = Some (OList [VStr "p"]) /\
    heap s !! 7 = Some (OList [VStr "q"]) /\
    heap s3 !! 7 = Some (OList [VStr "x"]) /\
    heap s3 !! 6 = Some (OList [VStr "p"]).
Proof.
  pose (s := snd (Examples.two_users empty_state)).
  destruct (list_proxy_writes_last_read Examples.read s 3 8 11 9 12 6 7
              (mkField ListField (VStr "tags") [TStr] (DCall PList) false [] (VLoc 7))
              "tags" 1 1 [("_data", VLoc 9)] [("_data", VLoc 12)]
              [(VStr "name", VStr "ann"); (VStr "tags", VLoc 6); (VStr "_type", VStr "User")]
              [(VStr "name", VStr "bob"); (VStr "tags", VLoc 7); (VStr "_type", VStr "User")]
              [VStr "p"] [VStr "q"] 0%Z 0 (VStr "x"))
    as (s1 & s2 & s3 & pa & pb & _ & _ & _ & _ & Hb & Ha & _);
    try (vm_compute; reflexivity).
  - discriminate.
  - exists s, s3. repeat split; try assumption; vm_compute; reflexivity.
Defined.

(** ** Validation *)

(** C6.  With required fields missing, [validate] formats its message
    with [self.name], an attribute [Document] does not define.  A document
    type without an attribute [name] raises AttributeError instead of the
    ValidationError; one whose field [name] is itself missing raises
    KeyError; and where [name] is set, the ValidationError carries the
    value of that field (here "alice"), not the name of the type. *)
Theorem validate_formats_with_self_name :
  fst (Examples.validate_empty_post empty_state) = Err AttributeError /\
  fst (Examples.validate_empty_user empty_state) = Err KeyError /\
  fst (Examples.validate_named empty_state) =
  Err (ValidationError (MissingFields (VStr "alice") [VStr "title"])).
Proof. repeat split; vm_compute; reflexivity. Qed.

(** ** Methods that only read *)

Lemma reads_ret {A} (a : A) : reads (mret a).
Proof. intros s r s' H. by inversion H. Qed.

Lemma reads_raise {A} (e : exn) : reads (@raise A e).
Proof. intros s r s' H. by inversion H. Qed.

Lemma reads_get_state : reads get_state.
Proof. intros s r s' H. by inversion H. Qed.

Lemma reads_bind {A B} (m : M A) (k : A -> M B) :
  reads m -> (forall a, reads (k a)) -> reads (m ≫= k).
Proof.
  intros Hm Hk s r s' H. rewrite bind_unfold in H.
  destruct (m s) as [[a | e] s1] eqn:E.
  - apply Hm in E as ->. by apply Hk in H.
  - apply Hm in E as ->. by inversion H.
Qed.

Lemma reads_load (l : loc) : reads (load l).
Proof. intros s r s' H. unfold load in H. destruct (heap s !! l); by inversion H. Qed.

Lemma reads_get_class (c : cid) : reads (get_class c).
Proof. intros s r s' H. unfold get_class in H. destruct (classes s !! c); by inversion H. Qed.

Create HintDb reads.
#[export] Hint Resolve reads_ret reads_raise reads_get_state reads_load reads_get_class : reads.

(** Splits a method along its binds and its case distinctions. *)
Ltac reads_step :=
  match goal with
  | |- reads (_ ≫= _) => apply reads_bind; [| intros ?]
  | |- reads (mret _) => apply reads_ret
  | |- reads (raise _) => apply reads_raise
  | |- reads (match ?x with _ => _ end) => destruct x
  | |- reads _ => solve [eauto with reads]
  end.
Ltac reads_auto := repeat reads_step.

Lemma reads_load_field (l : loc) : reads (load_field l).
Proof. unfold load_field. reads_auto. Qed.

Lemma reads_load_inst (v : value) : reads (load_inst v).
Proof. unfold load_inst. reads_auto. Qed.

Lemma reads_check_hashable (v : value) : reads (check_hashable v).
Proof. unfold check_hashable. reads_auto. Qed.
#[export] Hint Resolve reads_load_field reads_load_inst reads_check_hashable : reads.

Lemma reads_get_data (v : value) : reads (get_data v).
Proof. unfold get_data. reads_auto. Qed.

Lemma reads_is_field (v : value) : reads (is_field v).
Proof. unfold is_field. reads_auto. Qed.

Lemma reads_class_attr (c : cid) (name : string) : reads (class_attr c name).
Proof. unfold class_attr. reads_auto. Qed.

Lemma reads_isinstance (v : value) (types : list ptype) : reads (isinstance v types).
Proof. unfold isinstance. reads_auto. Qed.

Lemma reads_py_contains (k c : value) : reads (py_contains k c).
Proof. unfold py_contains. reads_auto. Qed.

Lemma reads_py_getitem (c k : value) : reads (py_getitem c k).
Proof. unfold py_getitem. reads_auto. Qed.
#[export] Hint Resolve reads_get_data reads_is_field reads_class_attr
  reads_isinstance reads_py_contains reads_py_getitem : reads.

Lemma reads_list_items (v : value) : reads (list_items v).
Proof. unfold list_items. reads_auto. Qed.

Lemma reads_BaseField_validate (self : loc) (v : value) : reads (BaseField_validate self v).
Proof. unfold BaseField_validate. reads_auto. Qed.

Lemma reads_BaseField_get (self : loc) (inst : value) : reads (BaseField_get self inst).
Proof. unfold BaseField_get. reads_auto. Qed.

#[export] Hint Resolve reads_list_items reads_BaseField_validate reads_BaseField_get : reads.

Lemma reads_for_each {A} (xs : list A) (body : A -> M unit) :
  (forall x, reads (body x)) -> reads (for_each xs body).
Proof. intros Hb. induction xs as [| x xs IH]; cbn [for_each]; reads_auto. Qed.

Lemma reads_Document_fields (self : value) : reads (Document_fields self).
Proof. unfold Document_fields. reads_auto. Qed.

Lemma reads_Document_collection (c : cid) : reads (Document_collection c).
Proof. unfold Document_collection. reads_auto. Qed.

Lemma reads_in_cache (c : cid) (i : value) : reads (in_cache c i).
Proof. unfold in_cache. reads_auto. Qed.

Lemma reads_Document_get_cache (c : cid) (i : value) : reads (Document_get_cache c i).
Proof. unfold Document_get_cache. reads_auto. Qed.
#[export] Hint Resolve reads_Document_fields reads_Document_collection reads_in_cache
  reads_Document_get_cache : reads.

Lemma reads_item_field (v : value) : reads (item_field v).
Proof. unfold item_field. reads_auto. Qed.

Lemma reads_py_iteritems (v : value) : reads (py_iteritems v).
Proof. unfold py_iteritems. reads_auto. Qed.

Lemma reads_kwargs_of (doc : value) : reads (kwargs_of doc).
Proof.
  unfold kwargs_of. reads_auto.
  induction d as [| [k v] d IH]; reads_auto.
Qed.

Lemma reads_encode_value (v : value) : reads (Storage.encode_value v).
Proof. unfold Storage.encode_value. reads_auto. Qed.
#[export] Hint Resolve reads_item_field reads_py_iteritems reads_kwargs_of
  reads_encode_value : reads.

Lemma reads_encode_doc (v : value) : reads (Storage.encode_doc v).
Proof. unfold Storage.encode_doc. reads_auto. Qed.

Lemma reads_encode_query (spec : attrs) : reads (Storage.encode_query spec).
Proof. induction spec as [| [k v] spec IH]; cbn [Storage.encode_query]; reads_auto. Qed.

Lemma reads_rget_subclasses (c : cid) : reads (rget_subclasses c).
Proof. unfold rget_subclasses. reads_auto. Qed.
#[export] Hint Resolve reads_encode_doc reads_encode_query reads_rget_subclasses : reads.

(** ** The members of [Document] a class leaves alone *)

Lemma get_attr_data (rd : loc -> value -> M value) (s : state) (l : loc) (c : cid)
      (a : attrs) :
  heap s !! l = Some (OInst c a) ->
  binds s c "data" CPropData ->
  get_attr rd (VLoc l) "data" s = get_data (VLoc l) s.
Proof.
  intros Hl (k & Hk & Hm). unfold get_attr, class_attr. mgo. reflexivity.
Qed.

Lemma call_method_own {A B} (rd : loc -> value -> M value) (s : state) (l : loc)
      (c : cid) (a : attrs) (name : string) (args : M B) (method : B -> M A) :
  heap s !! l = Some (OInst c a) ->
  calls s c a name ->
  call_method rd (VLoc l) name args method s = (b ← args; method b) s.
Proof.
  intros Hl ((k & Hk & Hm) & Ha). unfold call_method, class_attr. mgo. reflexivity.
Qed.

Lemma self_fields_own (rd : loc -> value -> M value) (s : state) (l : loc) (c : cid)
      (a : attrs) :
  heap s !! l = Some (OInst c a) ->
  binds s c "fields" CPropRO ->
  self_fields rd (VLoc l) s =
  (fields ← Document_fields (VLoc l); mret (map (fun nf => VLoc nf.2) fields)) s.
Proof.
  intros Hl (k & Hk & Hm). unfold self_fields, class_attr.
  rewrite bind_unfold. unfold load_inst at 1, load at 1. mred. rewrite Hl. mred.
  cbn [fst]. unfold get_class at 1. mred. rewrite Hk. mred. rewrite Hm. reflexivity.
Qed.

Lemma value_ref_own (rd : loc -> value -> M value) (s : state) (l : loc) (c : cid)
      (a : attrs) :
  heap s !! l = Some (OInst c a) ->
  binds s c "ref" CPropRO ->
  value_ref rd (VLoc l) s = Document_ref rd (VLoc l) s.
Proof.
  intros Hl (k & Hk & Hm). unfold value_ref, class_attr.
  rewrite bind_unfold. unfold load_inst at 1, load at 1. mred. rewrite Hl. mred.
  cbn [fst]. unfold get_class at 1. mred. rewrite Hk. mred. rewrite Hm. reflexivity.
Qed.

(** ** Validation and saving *)

(** The loop of [validate] writes nothing when [data] is the property. *)
Lemma missing_fields_reads (rd : loc -> value -> M value) (s : state) (l : loc)
      (c : cid) (a : attrs) (fields : list value) (missing : list value)
      (r : res (list value)) (s' : state) :
  heap s !! l = Some (OInst c a) ->
  binds s c "data" CPropData ->
  missing_fields rd (VLoc l) fields missing s = (r, s') ->
  s' = s.
Proof.
  intros Hl Hb. revert missing.
  induction fields as [| fv fields IH]; intros missing; cbn [missing_fields].
  - by inversion 1.
  - rewrite bind_unfold.
    destruct (item_field fv s) as [[f | e] s0] eqn:E;
      apply reads_item_field in E as ->; [| by inversion 1].
    destruct (f_required f); [| apply IH].
    rewrite bind_unfold, (get_attr_data rd s l c a Hl Hb).
    destruct (get_data (VLoc l) s) as [[data | e] s0] eqn:E2;
      apply reads_get_data in E2 as ->; [| by inversion 1].
    rewrite bind_unfold.
    destruct (py_contains (f_name f) data s) as [[p | e] s0] eqn:E3;
      apply reads_py_contains in E3 as ->; [| by inversion 1].
    destruct p; apply IH.
Qed.

Lemma validate_unfold (rd : loc -> value -> M value) (s : state) (l : loc) (c : cid)
      (a : attrs) (fields : list (string * loc)) (missing : list value) :
  heap s !! l = Some (OInst c a) ->
  binds s c "fields" CPropRO ->
  Document_fields (VLoc l) s = (Ok fields, s) ->
  missing_fields rd (VLoc l) (map (fun nf => VLoc nf.2) fields) [] s = (Ok missing, s) ->
  Document_validate rd (VLoc l) s =
  match missing with
  | [] => (Ok tt, s)
  | _ => match get_attr rd (VLoc l) "name" s with
         | (Ok who, s') => (Err (ValidationError (MissingFields who missing)), s')
         | (Err e, s') => (Err e, s')
         end
  end.
Proof.
  intros Hl Hb Hf Hm. unfold Document_validate.
  rewrite bind_unfold, (self_fields_own rd s l c a Hl Hb), bind_unfold, Hf.
  mred. rewrite Hm. mred.
  destruct missing; [reflexivity |]. mred. reflexivity.
Qed.

(** Up to the message, [validate] writes nothing: it ends in the state it
    started in, or in the one reading [self.name] left. *)
Lemma validate_cases (rd : loc -> value -> M value) (s : state) (l : loc) (c : cid)
      (a : attrs) (r : res unit) (s' : state) :
  heap s !! l = Some (OInst c a) ->
  binds s c "data" CPropData ->
  binds s c "fields" CPropRO ->
  Document_validate rd (VLoc l) s = (r, s') ->
  s' = s \/ exists rn, get_attr rd (VLoc l) "name" s = (rn, s') /\ r <> Ok tt.
Proof.
  intros Hl Hd Hf. unfold Document_validate.
  rewrite bind_unfold, (self_fields_own rd s l c a Hl Hf), bind_unfold.
  destruct (Document_fields (VLoc l) s) as [[fields | e] s0] eqn:E;
    apply reads_Document_fields in E as ->; [| inversion 1; by left].
  mred.
  destruct (missing_fields rd (VLoc l) (map (fun nf => VLoc nf.2) fields) [] s)
    as [[missing | e] s0] eqn:Hm;
    apply (missing_fields_reads rd s l c a _ _ _ _ Hl Hd) in Hm as ->;
    [| inversion 1; by left].
  destruct missing; [inversion 1; by left |].
  mred. destruct (get_attr rd (VLoc l) "name" s) as [[who | e] s0] eqn:Hg;
    inversion 1; subst; right; eexists; split; try reflexivity; discriminate.
Qed.

(** A validation that passes has written nothing. *)
Lemma validate_ok_reads (rd : loc -> value -> M value) (s : state) (l : loc) (c : cid)
      (a : attrs) (s' : state) :
  heap s !! l = Some (OInst c a) ->
  binds s c "data" CPropData ->
  binds s c "fields" CPropRO ->
  Document_validate rd (VLoc l) s = (Ok tt, s') -> s' = s.
Proof.
  intros Hl Hd Hf Hv.
  destruct (validate_cases rd s l c a _ _ Hl Hd Hf Hv) as [-> | (rn & _ & Hne)]; done.
Qed.

(** The first two statements of [save]. *)
Lemma save_unfold (rd : loc -> value -> M value) (s : state) (l : loc) (c : cid)
      (a : attrs) (col : string) :
  heap s !! l = Some (OInst c a) ->
  calls s c a "collection" ->
  calls s c a "validate" ->
  Document_collection c s = (Ok col, s) ->
  Document_save rd (VLoc l) s =
  match Document_validate rd (VLoc l) s with
  | (Ok _, s1) =>
    (data ← get_attr rd (VLoc l) "data";
     has_id ← py_contains (VStr "_id") data;
     if has_id : bool then
       _id ← get_attr rd (VLoc l) "_id";
       data ← get_attr rd (VLoc l) "data";
       Storage.col_update col _id data ;;
       mret (VLoc l)
     else
       data ← get_attr rd (VLoc l) "data";
       i ← Storage.col_insert col data;
       setattr_via BaseField_set (VLoc l) "_id" i ;;
       call_method rd (VLoc l) "cache" (get_attr rd (VLoc l) "_id")
                   (Document_cache (VLoc l)) ;;
       mret (VLoc l)) s1
  | (Err e, s1) => (Err e, s1)
  end.
Proof.
  intros Hl Hc Hv Hcol. unfold Document_save.
  rewrite bind_unfold, (call_method_own rd s l c a "collection" _ _ Hl Hc).
  mred. unfold load_inst at 1, load at 1. mred. rewrite Hl. mred. cbn [fst].
  rewrite Hcol. mred.
  rewrite (call_method_own rd s l c a "validate" _ _ Hl Hv). mred.
  destruct (Document_validate rd (VLoc l) s) as [[[] | e] s1]; reflexivity.
Qed.

(** A validation that fails ends [save] on the spot. *)
Lemma save_validation_error (rd : loc -> value -> M value) (s : state) (l : loc)
      (c : cid) (a : attrs) (col : string) (s1 : state) (e : exn) :
  heap s !! l = Some (OInst c a) ->
  calls s c a "collection" ->
  calls s c a "validate" ->
  Document_collection c s = (Ok col, s) ->
  Document_validate rd (VLoc l) s = (Err e, s1) ->
  Document_save rd (VLoc l) s = (Err e, s1).
Proof.
  intros Hl Hc Hv Hcol Hval.
  by rewrite (save_unfold rd s l c a col Hl Hc Hv Hcol), Hval.
Qed.

Lemma get_attr_base_field (rd : loc -> value -> M value) (s : state) (l d fl : loc)
      (c : cid) (a : attrs) (dd : dict) (name : string) (f : field) (v : value) :
  document_at s l c a d dd ->
  bound_field s c name fl f ->
  Fields.resolve Fields.m_get (f_class f) = Some BaseField ->
  assoc (VStr name) dd = Some v ->
  get_attr rd (VLoc l) name s = (Ok v, s).
Proof.
  intros (Hl & Ha & Hd) (k & Hk & Hmro & Hf & Hn) Hres Hv.
  unfold get_attr, class_attr, is_field, descr_get, BaseField_get, py_getitem.
  mgo. reflexivity.
Qed.

Lemma save_update_path (rd : loc -> value -> M value) (s : state) (l d fid : loc)
      (c : cid) (a : attrs) (dd : dict) (f : field) (col : string)
      (iv : value) (ri : raw) (doc : rdoc) :
  document_at s l c a d dd ->
  bound_field s c "_id" fid f ->
  Fields.resolve Fields.m_get (f_class f) = Some BaseField ->
  binds s c "data" CPropData ->
  calls s c a "collection" ->
  calls s c a "validate" ->
  Document_collection c s = (Ok col, s) ->
  Document_validate rd (VLoc l) s = (Ok tt, s) ->
  assoc (VStr "_id") dd = Some iv ->
  Storage.encode_value iv s = (Ok ri, s) ->
  Storage.encode_doc (VLoc d) s = (Ok doc, s) ->
  Document_save rd (VLoc l) s =
  (Ok (VLoc l), mkState (heap s) (classes s) (Storage.db_update (db s) col ri doc)).
Proof.
  intros (Hl & Ha & Hd) (k & Hk & Hmro & Hf & Hn) Hres Hdata Hc Hv Hcol Hval Hid Hri Hdoc.
  rewrite (save_unfold rd s l c a col Hl Hc Hv Hcol), Hval.
  pose proof (get_attr_data rd s l c a Hl Hdata) as Hgd.
  assert (Hgi : get_attr rd (VLoc l) "_id" s = (Ok iv, s)).
  { eapply get_attr_base_field; [done | by exists k | done | done]. }
  unfold py_contains, Storage.col_update, assoc_mem.
  mgo. reflexivity.
Qed.

Lemma assoc_set_eq {K V} `{EqDecision K} (k : K) (v : V) (l : list (K * V)) :
  assoc k (assoc_set k v l) = Some v.
Proof.
  induction l as [| [k' v'] l IH]; cbn.
  - by rewrite decide_True.
  - destruct (decide (k' = k)); cbn; [by rewrite decide_True | by rewrite decide_False].
Qed.

Lemma assoc_set_ne {K V} `{EqDecision K} (k k' : K) (v : V) (l : list (K * V)) :
  k <> k' -> assoc k' (assoc_set k v l) = assoc k' l.
Proof.
  intros Hne. induction l as [| [k0 v0] l IH]; cbn.
  - by rewrite decide_False.
  - destruct (decide (k0 = k)) as [-> |]; cbn.
    + by rewrite !decide_False.
    + destruct (decide (k0 = k')); [done | apply IH].
Qed.

Lemma save_insert_path (rd : loc -> value -> M value) (s : state) (l d fid : loc)
      (c : cid) (k : class) (a : attrs) (dd : dict) (f : field) (col : string)
      (doc : rdoc) :
  document_at s l c a d dd ->
  bound_field s c "_id" fid f ->
  classes s !! c = Some k ->
  Fields.resolve Fields.m_get (f_class f) = Some BaseField ->
  f_types f = [TObjectId] ->
  binds s c "data" CPropData ->
  calls s c a "collection" ->
  calls s c a "validate" ->
  calls s c a "cache" ->
  Document_collection c s = (Ok col, s) ->
  Document_validate rd (VLoc l) s = (Ok tt, s) ->
  assoc (VStr "_id") dd = None ->
  Storage.encode_doc (VLoc d) s = (Ok doc, s) ->
  let i := db_next (db s) in
  Document_save rd (VLoc l) s =
  (Ok (VLoc l),
   mkState (<[d := ODict (assoc_set (VStr "_id") (VOid i) dd)]> (heap s))
           (<[c := mkClass (cls_name k) (cls_mro k) (cls_dict k) (cls_collection k)
                           (assoc_set (VOid i) l (cls_cache k))]> (classes s))
           (Storage.db_insert (db s) col doc).2).
Proof.
  intros (Hl & Ha & Hd) (k' & Hk' & Hmro & Hf & Hn) Hk Hres Hty Hdata Hc Hv Hca
         Hcol Hval Hid Hdoc i.
  assert (k' = k) as -> by congruence.
  assert (Hdl : d <> l) by (eapply lookup_kind_ne; eauto; discriminate).
  assert (Hdf : d <> fid) by (eapply lookup_kind_ne; eauto; discriminate).
  assert (Hdlt : d < length (heap s)) by (eapply lookup_lt_Some; eauto).
  set (dd' := assoc_set (VStr "_id") (VOid i) dd).
  assert (Hl' : <[d := ODict dd']> (heap s) !! l = Some (OInst c a))
    by (by rewrite list_lookup_insert_ne).
  assert (Hf' : <[d := ODict dd']> (heap s) !! fid = Some (OField f))
    by (by rewrite list_lookup_insert_ne).
  assert (Hd' : <[d := ODict dd']> (heap s) !! d = Some (ODict dd'))
    by (by apply list_lookup_insert_eq).
  assert (Hi' : assoc (VStr "_id") dd' = Some (VOid i)) by apply assoc_set_eq.
  rewrite (save_unfold rd s l c a col Hl Hc Hv Hcol), Hval.
  pose proof (get_attr_data rd s l c a Hl Hdata) as Hgd.
  mred. rewrite Hgd.
  unfold py_contains, assoc_mem.
  mgo. unfold Storage.col_insert. mgo.
  unfold Storage.db_insert at 1. fold i. mgo.
  unfold setattr_via, class_attr, is_field, BaseField_set, BaseField_validate, py_setitem.
  mgo. cbn [existsb isinstance1 orb]. mgo. fold dd'.
  match goal with
  | |- context [call_method rd (VLoc l) "cache" ?args ?m ?st] =>
    rewrite (call_method_own rd st l c a "cache" args m Hl' Hca)
  end.
  unfold get_attr, class_attr, is_field, descr_get, BaseField_get, py_getitem.
  mgo.
  unfold Document_cache, set_cache. mgo. reflexivity.
Qed.

(** *** What the collection holds after a write *)

Lemma raw_eqb_refl (r : raw) : Storage.raw_eqb r r = true.
Proof.
  revert r. fix IH 1. intros [| z | x | o | c i | xs | d]; cbn.
  - reflexivity.
  - apply Z.eqb_refl.
  - apply String.eqb_refl.
  - apply N.eqb_refl.
  - by rewrite String.eqb_refl, IH.
  - induction xs as [| x xs IHxs]; [reflexivity |]. by rewrite IH, IHxs.
  - induction d as [| [k x] d IHd]; [reflexivity |].
    by rewrite String.eqb_refl, IH, IHd.
Qed.

Lemma docs_of_insert (d : database) (coll : string) (doc : rdoc) :
  Storage.docs_of (Storage.db_insert d coll doc).2 coll =
  (Storage.docs_of d coll ++ [assoc_set "_id" (ROid (db_next d)) doc])%list.
Proof. unfold Storage.db_insert, Storage.docs_of. cbn. by rewrite assoc_set_eq. Qed.

Lemma replace_first_find (i : raw) (doc : rdoc) (l : list rdoc) :
  (exists x, x ∈ l /\ Storage.has_id i x = true) ->
  List.find (Storage.has_id i) (Storage.replace_first i doc l) =
  Some (assoc_set "_id" i doc).
Proof.
  intros (x & Hin & Hx). induction l as [| y l IH]; [by apply elem_of_nil in Hin |].
  cbn. destruct (Storage.has_id i y) eqn:Hy.
  - cbn. unfold Storage.has_id at 1. by rewrite assoc_set_eq, raw_eqb_refl.
  - cbn. rewrite Hy. apply IH.
    apply elem_of_cons in Hin as [-> | Hin]; [congruence | done].
Qed.

(** After an update, the document at the identity is the one written. *)
Lemma dereference_update (d : database) (coll : string) (i : raw) (doc : rdoc) :
  (exists x, x ∈ Storage.docs_of d coll /\ Storage.has_id i x = true) ->
  Storage.db_dereference (Storage.db_update d coll i doc) coll i =
  Some (assoc_set "_id" i doc).
Proof.
  intros Hx. unfold Storage.db_dereference, Storage.db_update.
  unfold Storage.docs_of at 1. cbn. rewrite assoc_set_eq. cbn.
  by apply replace_first_find.
Qed.

(** ** References *)

(** [Document.ref] of a document that has an identity: nothing is saved. *)
Lemma Document_ref_with_id (rd : loc -> value -> M value) (s : state)
      (l d fid ftid : loc) (c : cid) (a : attrs) (dd : dict) (f_id f_t : field)
      (t : string) (iv : value) :
  document_at s l c a d dd ->
  bound_field s c "_id" fid f_id ->
  bound_field s c "_type" ftid f_t ->
  Fields.resolve Fields.m_get (f_class f_id) = Some BaseField ->
  Fields.resolve Fields.m_get (f_class f_t) = Some BaseField ->
  binds s c "data" CPropData ->
  assoc (VStr "_id") dd = Some iv ->
  assoc (VStr "_type") dd = Some (VStr t) ->
  Document_ref rd (VLoc l) s = (Ok (VDBRef t iv), s).
Proof.
  intros Hdoc Hid Ht Hrid Hrt Hdata Hiv Htv.
  pose proof (get_attr_base_field rd _ _ _ _ _ _ _ _ _ _ Hdoc Hid Hrid Hiv) as Hg1.
  pose proof (get_attr_base_field rd _ _ _ _ _ _ _ _ _ _ Hdoc Ht Hrt Htv) as Hg2.
  destruct Hdoc as (Hl & Ha & Hd).
  pose proof (get_attr_data rd s l c a Hl Hdata) as Hgd.
  unfold Document_ref, py_contains, assoc_mem. mgo. reflexivity.
Qed.

Lemma mro_lookup_same_dicts (cs : list class) (c : cid) (k k' : class)
      (name : string) (mro : list cid) :
  cs !! c = Some k ->
  cls_dict k' = cls_dict k ->
  mro_lookup (<[c := k']> cs) name mro = mro_lookup cs name mro.
Proof.
  intros Hk Hd. induction mro as [| c0 mro IH]; [reflexivity |]. cbn.
  destruct (decide (c0 = c)) as [-> |].
  - rewrite list_lookup_insert_eq by (eapply lookup_lt_Some; eauto).
    rewrite Hk, Hd. by rewrite IH.
  - rewrite list_lookup_insert_ne by done. by rewrite IH.
Qed.

Lemma RefField_store (s : state) (fl li di : loc) (fr : field) (nm : string)
      (ci : cid) (ai : attrs) (ddi : dict) (r : value) :
  heap s !! fl = Some (OField fr) ->
  f_name fr = VStr nm ->
  document_at s li ci ai di ddi ->
  (f ← load_field fl; d ← get_data (VLoc li); py_setitem d (f_name f) r) s =
  (Ok tt, mkState (<[di := ODict (assoc_set (VStr nm) r ddi)]> (heap s)) (classes s) (db s)).
Proof.
  intros Hf Hn (Hl & Ha & Hd). unfold py_setitem. mgo. reflexivity.
Qed.

Lemma RefField_set_dbref (rd : loc -> value -> M value) (s : state) (fl li di : loc)
      (fr : field) (nm : string) (ci : cid) (ai : attrs) (ddi : dict)
      (coll : string) (i : value) :
  heap s !! fl = Some (OField fr) ->
  f_name fr = VStr nm ->
  document_at s li ci ai di ddi ->
  RefField_set rd fl (VLoc li) (VDBRef coll i) s =
  (Ok tt, mkState (<[di := ODict (assoc_set (VStr nm) (VDBRef coll i) ddi)]> (heap s))
                  (classes s) (db s)).
Proof.
  intros Hf Hn Hdoc. unfold RefField_set, BaseField_to_ref. mgo.
  cbn [existsb isinstance1 orb]. mred.
  by eapply RefField_store.
Qed.

Lemma RefField_set_saved (rd : loc -> value -> M value) (s : state)
      (fl li di lv dv fid ftid : loc) (fr f_id f_t : field) (nm t : string)
      (ci cv : cid) (ai av : attrs) (ddi ddv : dict) (iv : value) :
  heap s !! fl = Some (OField fr) ->
  f_name fr = VStr nm ->
  document_at s li ci ai di ddi ->
  document_at s lv cv av dv ddv ->
  bound_field s cv "_id" fid f_id ->
  bound_field s cv "_type" ftid f_t ->
  Fields.resolve Fields.m_get (f_class f_id) = Some BaseField ->
  Fields.resolve Fields.m_get (f_class f_t) = Some BaseField ->
  binds s cv "data" CPropData ->
  binds s cv "ref" CPropRO ->
  assoc (VStr "_id") ddv = Some iv ->
  assoc (VStr "_type") ddv = Some (VStr t) ->
  RefField_set rd fl (VLoc li) (VLoc lv) s =
  (Ok tt, mkState (<[di := ODict (assoc_set (VStr nm) (VDBRef t iv) ddi)]> (heap s))
                  (classes s) (db s)).
Proof.
  intros Hf Hn Hdoc Hval Hid Ht Hrid Hrt Hdata Href0 Hiv Htv.
  pose proof (Document_ref_with_id rd _ _ _ _ _ _ _ _ _ _ _ _
                Hval Hid Ht Hrid Hrt Hdata Hiv Htv) as Href.
  unfold RefField_set, BaseField_to_ref. mred.
  destruct Hval as (Hlv & Hav & Hdv).
  unfold isinstance. mred. cbn [existsb isinstance1 orb]. mred.
  rewrite (value_ref_own rd s lv cv av Hlv Href0), Href. mred.
  destruct Hdoc as (Hl & Ha & Hd). unfold py_setitem. mgo. reflexivity.
Qed.

Lemma RefField_set_unsaved (rd : loc -> value -> M value) (s : state)
      (fl li di lv dv fid ftid : loc) (fr f_id f_t : field) (nm t col : string)
      (ci cv : cid) (k : class) (ai av : attrs) (ddi ddv : dict) (doc : rdoc) :
  heap s !! fl = Some (OField fr) ->
  f_name fr = VStr nm ->
  document_at s li ci ai di ddi ->
  document_at s lv cv av dv ddv ->
  di <> dv ->
  bound_field s cv "_id" fid f_id ->
  bound_field s cv "_type" ftid f_t ->
  classes s !! cv = Some k ->
  Fields.resolve Fields.m_get (f_class f_id) = Some BaseField ->
  Fields.resolve Fields.m_get (f_class f_t) = Some BaseField ->
  f_types f_id = [TObjectId] ->
  binds s cv "data" CPropData ->
  binds s cv "ref" CPropRO ->
  calls s cv av "collection" ->
  calls s cv av "validate" ->
  calls s cv av "cache" ->
  calls s cv av "save" ->
  Document_collection cv s = (Ok col, s) ->
  Document_validate rd (VLoc lv) s = (Ok tt, s) ->
  assoc (VStr "_id") ddv = None ->
  assoc (VStr "_type") ddv = Some (VStr t) ->
  Storage.encode_doc (VLoc dv) s = (Ok doc, s) ->
  let i := db_next (db s) in
  exists s1,
    Document_save rd (VLoc lv) s = (Ok (VLoc lv), s1) /\
    RefField_set rd fl (VLoc li) (VLoc lv) s =
    (Ok tt, mkState (<[di := ODict (assoc_set (VStr nm) (VDBRef t (VOid i)) ddi)]> (heap s1))
                    (classes s1) (db s1)) /\
    heap s1 !! dv = Some (ODict (assoc_set (VStr "_id") (VOid i) ddv)) /\
    Storage.docs_of (db s1) col =
      (Storage.docs_of (db s) col ++ [assoc_set "_id" (ROid i) doc])%list.
Proof.
  intros Hf Hn Hdoc Hval Hne Hid Ht Hk Hrid Hrt Hty Hdata Href0 Hcc Hcv Hca Hcs
         Hcol Hv Hnoid Htv Henc i.
  pose proof (save_insert_path rd s lv dv fid cv k av ddv f_id col doc
                Hval Hid Hk Hrid Hty Hdata Hcc Hcv Hca Hcol Hv Hnoid Henc) as Hsave.
  cbn zeta in Hsave. fold i in Hsave.
  destruct Hdoc as (Hli & Hai & Hdi). destruct Hval as (Hlv & Hav & Hdv).
  destruct Hid as (k1 & Hk1 & Hmid & Hfid & Hnid).
  destruct Ht as (k2 & Hk2 & Hmt & Hft & Hnt).
  assert (k1 = k) as -> by congruence. assert (k2 = k) as -> by congruence.
  set (ddv' := assoc_set (VStr "_id") (VOid i) ddv) in *.
  set (k' := mkClass (cls_name k) (cls_mro k) (cls_dict k) (cls_collection k)
                     (assoc_set (VOid i) lv (cls_cache k))) in *.
  remember (mkState (<[dv := ODict ddv']> (heap s)) (<[cv := k']> (classes s))
                    (Storage.db_insert (db s) col doc).2) as s1 eqn:Es1.
  assert (Hdvlt : dv < length (heap s)) by (eapply lookup_lt_Some; eauto).
  assert (Hh1 : forall x o, x <> dv -> heap s !! x = Some o -> heap s1 !! x = Some o).
  { intros x o Hx Ho. subst s1. cbn. by rewrite list_lookup_insert_ne. }
  assert (Hdv1 : heap s1 !! dv = Some (ODict ddv'))
    by (subst s1; cbn; by apply list_lookup_insert_eq).
  assert (Hk1' : classes s1 !! cv = Some k').
  { subst s1. cbn. apply list_lookup_insert_eq. eapply lookup_lt_Some; eauto. }
  assert (Hm1 : forall name, mro_lookup (classes s1) name (cls_mro k')
                             = mro_lookup (classes s) name (cls_mro k)).
  { intros name. subst s1. cbn. by apply mro_lookup_same_dicts with (k := k). }
  assert (Hdoc1 : document_at s1 lv cv av dv ddv').
  { repeat split; try done. apply Hh1; [| done].
    eapply lookup_kind_ne; eauto; discriminate. }
  assert (Hid1 : bound_field s1 cv "_id" fid f_id).
  { exists k'. repeat split; try done.
    - by rewrite Hm1.
    - apply Hh1; [| done]. eapply lookup_kind_ne; eauto; discriminate. }
  assert (Ht1 : bound_field s1 cv "_type" ftid f_t).
  { exists k'. repeat split; try done.
    - by rewrite Hm1.
    - apply Hh1; [| done]. eapply lookup_kind_ne; eauto; discriminate. }
  assert (Href1 : get_attr rd (VLoc lv) "_type" s1 = (Ok (VStr t), s1)).
  { eapply get_attr_base_field; eauto. unfold ddv'. by rewrite assoc_set_ne. }
  assert (Href2 : get_attr rd (VLoc lv) "_id" s1 = (Ok (VOid i), s1)).
  { eapply get_attr_base_field; eauto. apply assoc_set_eq. }
  assert (Href : Document_ref rd (VLoc lv) s = (Ok (VDBRef t (VOid i)), s1)).
  { unfold Document_ref. rewrite bind_unfold.
    rewrite (get_attr_data rd s lv cv av Hlv Hdata).
    unfold get_data at 1. unfold load_inst. mgo.
    unfold py_contains, assoc_mem. mgo.
    rewrite (call_method_own rd s lv cv av "save" _ _ Hlv Hcs). mgo.
    reflexivity.
  }
  exists s1. split; [exact Hsave |]. split; [| split].
  - unfold RefField_set, BaseField_to_ref. mred.
    unfold isinstance. mred. cbn [existsb isinstance1 orb]. mred.
    rewrite (value_ref_own rd s lv cv av Hlv Href0), Href. mred.
    eapply RefField_store.
    + apply Hh1; [| done]. eapply lookup_kind_ne; eauto; discriminate.
    + done.
    + repeat split; try done.
      * apply Hh1; [| done]. eapply lookup_kind_ne; eauto; discriminate.
      * by apply Hh1.
  - done.
  - subst s1. cbn. apply docs_of_insert.
Qed.

Lemma descr_set_RefField (rd : loc -> value -> M value) (s : state) (fl : loc)
      (fr : field) (inst v : value) :
  heap s !! fl = Some (OField fr) ->
  f_class fr = RefField ->
  descr_set rd fl inst v s = RefField_set rd fl inst v s.
Proof. intros Hf Hc. unfold descr_set. mgo. reflexivity. Qed.



(** ** Methods that write into objects only *)

Lemma same_kind_refl (o : obj) : same_kind o o.
Proof. destruct o as [| | | f]; cbn; try done. by destruct f. Qed.

Lemma same_kind_trans (o1 o2 o3 : obj) :
  same_kind o1 o2 -> same_kind o2 o3 -> same_kind o1 o3.
Proof.
  destruct o1 as [| | | f1], o2 as [| | | f2], o3 as [| | | f3]; cbn; try done.
  - congruence.
  - intros -> ->. by destruct f1.
Qed.

Lemma ext_refl (s : state) : ext s s.
Proof. repeat split. intros l o H. exists o. split; [done | apply same_kind_refl]. Qed.

Lemma ext_trans (s1 s2 s3 : state) : ext s1 s2 -> ext s2 s3 -> ext s1 s3.
Proof.
  intros (Hc1 & Hd1 & Hh1) (Hc2 & Hd2 & Hh2). repeat split; try congruence.
  intros l o H. destruct (Hh1 l o H) as (o2 & H2 & Hk2).
  destruct (Hh2 l o2 H2) as (o3 & H3 & Hk3).
  exists o3. split; [done | by eapply same_kind_trans].
Qed.

Lemma reads_keeps {A} (m : M A) : reads m -> keeps m.
Proof. intros Hm s r s' H. apply Hm in H as ->. apply ext_refl. Qed.

Lemma keeps_bind {A B} (m : M A) (k : A -> M B) :
  keeps m -> (forall a, keeps (k a)) -> keeps (m ≫= k).
Proof.
  intros Hm Hk s r s' H. rewrite bind_unfold in H.
  destruct (m s) as [[a | e] s1] eqn:E.
  - eapply ext_trans; [by eapply Hm | by eapply Hk].
  - inversion H; subst. by eapply Hm.
Qed.

Lemma ext_alloc (s : state) (o : obj) :
  ext s (mkState (heap s ++ [o]) (classes s) (db s)).
Proof.
  repeat split. intros l o' H. exists o'. split; [| apply same_kind_refl].
  cbn. by apply lookup_app_l_Some.
Qed.

Lemma ext_store (s : state) (l : loc) (o o' : obj) :
  heap s !! l = Some o -> same_kind o o' ->
  ext s (mkState (<[l := o']> (heap s)) (classes s) (db s)).
Proof.
  intros Hl Hk. repeat split. intros l0 o0 H0. cbn.
  destruct (decide (l0 = l)) as [-> |].
  - unfold loc in *. rewrite Hl in H0. injection H0 as <-. exists o'. split; [| done].
    apply list_lookup_insert_eq. by eapply lookup_lt_Some.
  - exists o0. split; [by rewrite list_lookup_insert_ne | apply same_kind_refl].
Qed.

Lemma keeps_alloc (o : obj) : keeps (alloc o).
Proof. intros s r s' H. inversion H. apply ext_alloc. Qed.

(** Takes a method apart that reads an object and writes it back. *)
Ltac keeps_crush H :=
  repeat first
    [ match goal with
      | H' : context [(_ ≫= _) _] |- _ => rewrite bind_unfold in H'
      end
    | progress unfold load_field, store_field, load_inst, check_hashable, get_state,
        load, store, raise, mret, M_ret in *
    | progress cbv beta iota in *
    | match goal with
      | H' : context [match ?x with _ => _ end] |- _ => destruct x eqn:?
      end
    | progress simplify_eq ];
  first [ apply ext_refl
        | eapply ext_store; [eassumption | cbn; try done] ].

Lemma keeps_py_setitem (c k v : value) : keeps (py_setitem c k v).
Proof. intros s r s' H. unfold py_setitem in H. keeps_crush H. Qed.

Lemma keeps_py_setdefault (c k v : value) : keeps (py_setdefault c k v).
Proof. intros s r s' H. unfold py_setdefault in H. keeps_crush H. Qed.

Lemma keeps_set_inst_attr (inst : value) (name : string) (v : value) :
  keeps (set_inst_attr inst name v).
Proof. intros s r s' H. unfold set_inst_attr in H. keeps_crush H. Qed.

Lemma keeps_set_field_value (self : loc) (v : value) : keeps (set_field_value self v).
Proof.
  intros s r s' H. unfold set_field_value in H. keeps_crush H.
Qed.

Lemma keeps_py_copy (v : value) : keeps (py_copy v).
Proof.
  intros s r s' H. unfold py_copy in H. destruct v; try (inversion H; apply ext_refl).
  revert H. apply keeps_bind; [apply reads_keeps, reads_load |].
  intros o. apply keeps_bind; [apply keeps_alloc |].
  intros l'. apply reads_keeps, reads_ret.
Qed.

Create HintDb keeps.
#[export] Hint Resolve keeps_alloc keeps_py_setitem keeps_py_setdefault
  keeps_set_inst_attr keeps_set_field_value keeps_py_copy : keeps.

Ltac keeps_step :=
  match goal with
  | |- keeps (_ ≫= _) => apply keeps_bind; [| intros ?]
  | |- keeps (match ?x with _ => _ end) => destruct x
  | |- keeps _ => solve [eauto with keeps]
  | |- keeps _ => solve [apply reads_keeps; reads_auto]
  end.
Ltac keeps_auto := repeat keeps_step.

Lemma keeps_for_each {A} (xs : list A) (body : A -> M unit) :
  (forall x, keeps (body x)) -> keeps (for_each xs body).
Proof. intros Hb. induction xs as [| x xs IH]; cbn [for_each]; keeps_auto. Qed.

Lemma keeps_BaseField_set (self : loc) (inst v : value) : keeps (BaseField_set self inst v).
Proof. unfold BaseField_set. keeps_auto. Qed.

Lemma keeps_SelfishField_set (self : loc) (inst v : value) :
  keeps (SelfishField_set self inst v).
Proof. unfold SelfishField_set. keeps_auto. Qed.

Lemma keeps_ListField_set (self : loc) (inst v : value) : keeps (ListField_set self inst v).
Proof.
  unfold ListField_set. keeps_auto.
  apply reads_keeps, reads_for_each. intros x. apply reads_BaseField_validate.
Qed.

Lemma keeps_SelfishField_get (self : loc) (inst : value) : keeps (SelfishField_get self inst).
Proof. unfold SelfishField_get. keeps_auto. Qed.
#[export] Hint Resolve keeps_BaseField_set keeps_SelfishField_set keeps_ListField_set
  keeps_SelfishField_get : keeps.

Lemma keeps_fill_default (self : value) (name : string) (fl : loc) :
  keeps (fill_default self name fl).
Proof. unfold fill_default. keeps_auto. Qed.
#[export] Hint Resolve keeps_fill_default : keeps.

(** ** Writing values that are not documents *)

Lemma plain_ext (s s' : state) (v : value) :
  ext s s' -> plain (heap s) v = true -> plain (heap s') v = true.
Proof.
  intros (_ & _ & Hh) Hp. destruct v; try done. unfold plain, loc in *.
  destruct (heap s !! l) as [o |] eqn:E; [| done].
  destruct (Hh l o E) as (o' & E' & Hk). rewrite E'.
  by destruct o, o'.
Qed.

Lemma load_inst_plain (s : state) (v : value) :
  plain (heap s) v = true -> load_inst v s = (Err AttributeError, s).
Proof.
  intros Hp. destruct v; try done. cbn in Hp. unfold load_inst, load. mred.
  destruct (heap s !! l) as [[| | |] |]; try done.
Qed.

(** [to_ref] of a value that is no document writes nothing: the value is a
    reference already, or it has no attribute [ref]. *)
Lemma to_ref_plain (rd : loc -> value -> M value) (self : loc) (v : value) (s s' : state)
      (r : res value) :
  plain (heap s) v = true ->
  BaseField_to_ref rd self v s = (r, s') ->
  s' = s.
Proof.
  intros Hp. unfold BaseField_to_ref. rewrite bind_unfold.
  destruct (isinstance v [TDBRef] s) as [[b | e] s0] eqn:E;
    apply reads_isinstance in E as ->; [| by inversion 1].
  destruct b; [by inversion 1 |].
  unfold value_ref. rewrite bind_unfold, (load_inst_plain _ _ Hp). by inversion 1.
Qed.

Lemma RefField_set_plain (rd : loc -> value -> M value) (self : loc) (inst v : value)
      (s s' : state) (r : res unit) :
  plain (heap s) v = true ->
  RefField_set rd self inst v s = (r, s') ->
  ext s s'.
Proof.
  intros Hp. unfold RefField_set. rewrite bind_unfold.
  destruct (BaseField_to_ref rd self v s) as [[x | e] s0] eqn:E;
    apply (to_ref_plain _ _ _ _ _ _ Hp) in E as ->.
  - assert (Hk : keeps (f ← load_field self; d ← get_data inst; py_setitem d (f_name f) x))
      by keeps_auto.
    intros H. exact (Hk _ _ _ H).
  - inversion 1. apply ext_refl.
Qed.

(** [to_dict] of a value that is no document returns the value or raises. *)
Lemma to_dict_plain_ok (rd : loc -> value -> M value) (self : loc) (v : value)
      (s s' : state) (r : res value) :
  plain (heap s) v = true ->
  BaseField_to_dict rd self v s = (r, s') ->
  s' = s /\ forall x, r = Ok x -> x = v.
Proof.
  intros Hp. unfold BaseField_to_dict. rewrite bind_unfold.
  destruct (isinstance v [TDict] s) as [[b | e] s0] eqn:E;
    apply reads_isinstance in E as ->; [| by inversion 1].
  destruct b; [intros [= <- <-]; split; [done | by intros x [= <-]] |].
  unfold get_attr. rewrite bind_unfold, (load_inst_plain _ _ Hp). by inversion 1.
Qed.

Lemma DictField_set_plain (rd : loc -> value -> M value) (self : loc) (inst v : value)
      (s s' : state) (r : res unit) :
  plain (heap s) v = true ->
  DictField_set rd self inst v s = (r, s') ->
  ext s s'.
Proof.
  intros Hp. unfold DictField_set. rewrite bind_unfold.
  destruct (BaseField_to_dict rd self v s) as [[x | e] s0] eqn:E;
    apply (to_dict_plain_ok _ _ _ _ _ _ Hp) in E as (-> & _).
  - assert (Hk : keeps (f ← load_field self; d ← get_data inst; py_setitem d (f_name f) x))
      by keeps_auto.
    intros H. exact (Hk _ _ _ H).
  - inversion 1. apply ext_refl.
Qed.

Lemma descr_set_plain (rd : loc -> value -> M value) (self : loc) (inst v : value)
      (s s' : state) (r : res unit) :
  plain (heap s) v = true ->
  descr_set rd self inst v s = (r, s') ->
  ext s s'.
Proof.
  intros Hp. unfold descr_set. rewrite bind_unfold.
  destruct (load_field self s) as [[f | e] s0] eqn:E;
    apply reads_load_field in E as ->; [| inversion 1; apply ext_refl].
  destruct (Fields.resolve Fields.m_set (f_class f)) as [[] |];
    try (inversion 1; apply ext_refl).
  - apply keeps_BaseField_set.
  - by apply RefField_set_plain.
  - apply keeps_SelfishField_set.
  - apply keeps_ListField_set.
  - by apply DictField_set_plain.
  - apply keeps_ListField_set.
Qed.

Lemma set_attr_plain (rd : loc -> value -> M value) (inst : value) (name : string)
      (v : value) (s s' : state) (r : res unit) :
  plain (heap s) v = true ->
  set_attr rd inst name v s = (r, s') ->
  ext s s'.
Proof.
  intros Hp. unfold set_attr, setattr_via. rewrite bind_unfold.
  destruct (load_inst inst s) as [[ca | e] s0] eqn:E;
    apply reads_load_inst in E as ->; [| inversion 1; apply ext_refl].
  rewrite bind_unfold.
  destruct (class_attr ca.1 name s) as [[bound | e] s0] eqn:E;
    apply reads_class_attr in E as ->; [| inversion 1; apply ext_refl].
  destruct bound as [[v0 | | |] |]; try apply keeps_set_inst_attr.
  - destruct v0; try apply keeps_set_inst_attr.
    rewrite bind_unfold.
    destruct (is_field (VLoc l) s) as [[b | e] s0] eqn:E;
      apply reads_is_field in E as ->; [| inversion 1; apply ext_refl].
    destruct b; [by apply descr_set_plain | apply keeps_set_inst_attr].
  - inversion 1. apply ext_refl.
Qed.

(** The loop over the keyword arguments, none of them a document. *)
Lemma set_attrs_plain (rd : loc -> value -> M value) (inst : value) (kw : attrs)
      (s s' : state) (r : res unit) :
  Forall (fun kv => plain (heap s) kv.2 = true) kw ->
  for_each kw (fun kv => set_attr rd inst kv.1 kv.2) s = (r, s') ->
  ext s s'.
Proof.
  revert s. induction kw as [| [n v] kw IH]; intros s Hp; cbn [for_each].
  - inversion 1. apply ext_refl.
  - rewrite bind_unfold. cbn [fst snd].
    inversion Hp as [| ? ? Hv Hkw]; subst. cbn in Hv.
    destruct (set_attr rd inst n v s) as [[[] | e] s1] eqn:E;
      apply (set_attr_plain _ _ _ _ _ _ _ Hv) in E.
    + intros H. eapply ext_trans; [exact E |]. eapply IH; [| exact H].
      eapply Forall_impl; [exact Hkw |]. intros kv. by apply plain_ext.
    + inversion 1; by subst.
Qed.

(** ** Construction *)

Lemma keeps_keeps_at {A} (m : M A) (s : state) : keeps m -> keeps_at m s.
Proof. intros H r s'. apply H. Qed.

Lemma keeps_at_bind {A B} (m : M A) (k : A -> M B) (s : state) :
  keeps_at m s ->
  (forall a s1, m s = (Ok a, s1) -> keeps_at (k a) s1) ->
  keeps_at (m ≫= k) s.
Proof.
  intros Hm Hk r s' H. rewrite bind_unfold in H.
  destruct (m s) as [[a | e] s1] eqn:E.
  - eapply ext_trans; [by eapply Hm | by eapply Hk].
  - inversion H; subst. by eapply Hm.
Qed.

Lemma state_eta (s : state) : mkState (heap s) (classes s) (db s) = s.
Proof. by destruct s. Qed.

(** The first statement of [__init__]. *)
Lemma init_registers (s s0 : state) (l : loc) (c : cid) (a : attrs) (kw : attrs)
      (r : res unit) :
  heap s !! l = Some (OInst c a) ->
  match assoc "_id" kw with
  | Some i =>
    cached ← in_cache c i;
    if cached : bool then mret tt else Document_cache (VLoc l) i
  | None => mret tt
  end s = (r, s0) ->
  s0 = mkState (heap s) (registered s l c kw) (db s).
Proof.
  intros Hl. unfold registered.
  destruct (assoc "_id" kw) as [i |]; [| inversion 1; by rewrite state_eta].
  unfold in_cache, Document_cache, set_cache, load_inst, load, get_class, check_hashable.
  mred.
  destruct (classes s !! c) as [k |] eqn:Hk; mred; [| inversion 1; by rewrite state_eta].
  destruct (hashable (heap s) i) eqn:Hh; mred; [| inversion 1; by rewrite state_eta].
  destruct (assoc_mem i (cls_cache k)); mred; [inversion 1; by rewrite state_eta |].
  mgo.
  by inversion 1.
Qed.

Lemma Forall_plain_ext (s s' : state) (kw : attrs) :
  ext s s' ->
  Forall (fun kv => plain (heap s) kv.2 = true) kw ->
  Forall (fun kv => plain (heap s') kv.2 = true) kw.
Proof.
  intros He H. eapply Forall_impl; [exact H |]. intros kv. by apply plain_ext.
Qed.

(** Built from values that are not documents, a document writes into its
    own store and registers itself; nothing else changes. *)
Lemma Document_init_plain (rd : loc -> value -> M value) (s s' : state) (l : loc)
      (c : cid) (a : attrs) (kw : attrs) (r : res unit) :
  heap s !! l = Some (OInst c a) ->
  Forall (fun kv => plain (heap s) kv.2 = true) kw ->
  Document_init rd (VLoc l) kw s = (r, s') ->
  ext (mkState (heap s) (registered s l c kw) (db s)) s'.
Proof.
  intros Hl Hp. unfold Document_init. rewrite bind_unfold.
  unfold load_inst at 1. unfold load at 1. mred. rewrite Hl. mred.
  cbn [fst].
  match goal with
  | |- context [match ?m s with _ => _ end] => destruct (m s) as [[[] | e] s0] eqn:E
  end; apply (init_registers _ _ _ _ _ _ _ Hl) in E; subst s0;
    [| inversion 1; apply ext_refl].
  set (s0 := mkState (heap s) (registered s l c kw) (db s)).
  assert (Hp0 : Forall (fun kv => plain (heap s0) kv.2 = true) kw) by done.
  revert r s'. change (keeps_at
    (d ← alloc (ODict []);
     set_inst_attr (VLoc l) "_data" (VLoc d) ;;
     for_each kw (fun kv => set_attr rd (VLoc l) kv.1 kv.2) ;;
     fields ← Document_fields (VLoc l);
     for_each fields (fun nf => fill_default (VLoc l) nf.1 nf.2)) s0).
  apply keeps_at_bind; [apply keeps_keeps_at, keeps_alloc |]. intros d s1 H1.
  apply keeps_alloc in H1.
  apply keeps_at_bind; [apply keeps_keeps_at, keeps_set_inst_attr |]. intros [] s2 H2.
  apply keeps_set_inst_attr in H2.
  apply keeps_at_bind.
  - intros r s'. apply set_attrs_plain.
    eapply Forall_plain_ext; [| exact Hp0]. by eapply ext_trans.
  - intros [] s3 _. apply keeps_keeps_at.
    apply keeps_bind; [apply reads_keeps, reads_Document_fields |].
    intros fields. apply keeps_for_each. intros nf. apply keeps_fill_default.
Qed.

(** A construction that returns has hashed its [_id] argument. *)
Lemma Document_init_ok_hashed (rd : loc -> value -> M value) (s s' : state) (l : loc)
      (c : cid) (a : attrs) (kw : attrs) (i : value) :
  heap s !! l = Some (OInst c a) ->
  assoc "_id" kw = Some i ->
  Document_init rd (VLoc l) kw s = (Ok tt, s') ->
  exists k, classes s !! c = Some k /\ hashable (heap s) i = true.
Proof.
  intros Hl Hi. unfold Document_init. rewrite bind_unfold.
  unfold load_inst at 1. unfold load at 1. mred. rewrite Hl, Hi. mred. cbn [fst].
  unfold in_cache at 1. unfold get_class at 1. mred.
  destruct (classes s !! c) as [k |]; mred; [| discriminate].
  unfold check_hashable at 1. mred.
  destruct (hashable (heap s) i); mred; [| discriminate].
  intros _. by exists k.
Qed.

Lemma Document_new_plain (rd : loc -> value -> M value) (s s' : state) (c : cid)
      (kw : attrs) (v : value) :
  Forall (fun kv => plain (heap s) kv.2 = true) kw ->
  Document_new rd c kw s = (Ok v, s') ->
  let l := length (heap s) in
  let sa := mkState (heap s ++ [OInst c []]) (classes s) (db s) in
  v = VLoc l /\
  ext (mkState (heap sa) (registered sa l c kw) (db sa)) s' /\
  (forall i, assoc "_id" kw = Some i ->
             exists k, classes s !! c = Some k /\ hashable (heap sa) i = true).
Proof.
  intros Hp. unfold Document_new. rewrite bind_unfold.
  destruct (get_class c s) as [[k | e] s0] eqn:Hk; [| discriminate].
  apply reads_get_class in Hk as ->. rewrite bind_unfold.
  unfold alloc at 1. cbv beta iota.
  set (l := length (heap s)).
  set (sa := mkState (heap s ++ [OInst c []]) (classes s) (db s)).
  assert (Hl : heap sa !! l = Some (OInst c [])).
  { cbn. rewrite lookup_app_r by done. by rewrite Nat.sub_diag. }
  assert (Hpa : Forall (fun kv => plain (heap sa) kv.2 = true) kw).
  { eapply Forall_plain_ext; [| exact Hp]. apply ext_alloc. }
  rewrite bind_unfold.
  destruct (Document_init rd (VLoc l) kw sa) as [[[] | e] s1] eqn:Hi; [| discriminate].
  inversion 1; subst. cbn zeta. split; [done |]. split.
  - eapply Document_init_plain; eauto.
  - intros i Hid.
    destruct (Document_init_ok_hashed rd sa s' l c [] kw i Hl Hid Hi) as (k' & Hk' & Hh).
    by exists k'.
Qed.

Lemma kwargs_of_dict (s : state) (d : loc) (dd : dict) (kw : attrs) (s' : state) :
  heap s !! d = Some (ODict dd) ->
  kwargs_of (VLoc d) s = (Ok kw, s') ->
  dd = map (fun kv => (VStr kv.1, kv.2)) kw.
Proof.
  intros Hd. unfold kwargs_of. rewrite bind_unfold. unfold load. rewrite Hd.
  cbv beta iota. clear Hd. revert kw s'.
  induction dd as [| [k v] dd IH]; intros kw s'.
  - by inversion 1.
  - destruct k; try discriminate. rewrite bind_unfold.
    match goal with
    | |- context [?f dd s] => destruct (f dd s) as [[kw0 | e] s1] eqn:E
    end; [| discriminate].
    inversion 1; subst. cbn. f_equal. by eapply IH.
Qed.

Lemma assoc_kwargs (kw : attrs) (name : string) :
  assoc (VStr name) (map (fun kv => (VStr kv.1, kv.2)) kw) = assoc name kw.
Proof.
  induction kw as [| [k v] kw IH]; [done |]. cbn.
  destruct (decide (k = name)) as [-> |].
  - by rewrite decide_True.
  - rewrite decide_False by congruence. apply IH.
Qed.

(** ** Materialising a fetched document *)

Lemma getitem_dict (s : state) (d : loc) (dd : dict) (name : string) (v : value) :
  heap s !! d = Some (ODict dd) ->
  assoc (VStr name) dd = Some v ->
  py_getitem (VLoc d) (VStr name) s = (Ok v, s).
Proof. intros Hd Hv. unfold py_getitem. mgo. reflexivity. Qed.

(** A hit: the cached instance comes back, whatever else the call does. *)
Lemma generate_object_cached (rd : loc -> value -> M value) (s s' : state) (c : cid)
      (k : class) (d l : loc) (dd : dict) (i r : value) :
  heap s !! d = Some (ODict dd) ->
  assoc (VStr "_id") dd = Some i ->
  classes s !! c = Some k ->
  assoc i (cls_cache k) = Some l ->
  generate_object rd c (VLoc d) s = (Ok r, s') ->
  r = VLoc l /\ ext s s'.
Proof.
  intros Hd Hi Hk Hc. unfold generate_object.
  rewrite bind_unfold, (getitem_dict _ _ _ _ _ Hd Hi). cbv beta iota.
  unfold in_cache, Document_get_cache, get_class, check_hashable, assoc_mem.
  mred. rewrite Hk. mred.
  destruct (hashable (heap s) i) eqn:Hh; mred; [| discriminate].
  rewrite Hc. mred. rewrite (getitem_dict _ _ _ _ _ Hd Hi). mred.
  rewrite Hk. mred. rewrite Hh. mred. rewrite Hc. mred.
  destruct (set_attr rd (VLoc l) "data" (VLoc d) s) as [[[] | e] s1] eqn:E; [| discriminate].
  inversion 1; subst. split; [done |].
  eapply set_attr_plain; [| exact E]. cbn. by rewrite Hd.
Qed.

(** A miss: a new instance of the requesting class, built from the raw
    fields. *)
Lemma generate_object_miss (rd : loc -> value -> M value) (s : state) (c : cid)
      (k : class) (d : loc) (dd : dict) (i : value) :
  heap s !! d = Some (ODict dd) ->
  assoc (VStr "_id") dd = Some i ->
  classes s !! c = Some k ->
  assoc i (cls_cache k) = None ->
  hashable (heap s) i = true ->
  generate_object rd c (VLoc d) s =
  (kw ← kwargs_of (VLoc d); Document_new rd c kw) s.
Proof.
  intros Hd Hi Hk Hc Hh. unfold generate_object.
  rewrite bind_unfold, (getitem_dict _ _ _ _ _ Hd Hi). cbv beta iota.
  unfold in_cache, get_class, check_hashable, assoc_mem.
  mred. rewrite Hk. mred. rewrite Hh. mred. rewrite Hc. reflexivity.
Qed.

Lemma registered_new (s : state) (l : loc) (c : cid) (k : class) (kw : attrs) (i : value) :
  assoc "_id" kw = Some i ->
  classes s !! c = Some k ->
  hashable (heap s) i = true ->
  assoc i (cls_cache k) = None ->
  exists k', registered s l c kw !! c = Some k' /\
             assoc i (cls_cache k') = Some l /\
             cls_mro k' = cls_mro k /\ cls_dict k' = cls_dict k /\ cls_name k' = cls_name k.
Proof.
  intros Hi Hk Hh Hc. unfold registered, assoc_mem. rewrite Hi, Hk, Hh, Hc.
  eexists. split; [apply list_lookup_insert_eq; by eapply lookup_lt_Some |].
  cbn. split; [apply assoc_set_eq | done].
Qed.

(** After a load that returned, the cache of the requesting class holds
    the returned instance under the identity of the document. *)
Lemma generate_object_caches (rd : loc -> value -> M value) (s s' : state) (c : cid)
      (d : loc) (dd : dict) (i r : value) :
  heap s !! d = Some (ODict dd) ->
  Forall (fun kv => plain (heap s) kv.2 = true) dd ->
  assoc (VStr "_id") dd = Some i ->
  generate_object rd c (VLoc d) s = (Ok r, s') ->
  exists l k', r = VLoc l /\ classes s' !! c = Some k' /\
               assoc i (cls_cache k') = Some l /\ db s' = db s.
Proof.
  intros Hd Hp Hi Hg.
  destruct (classes s !! c) as [k |] eqn:Hk.
  2: { revert Hg. unfold generate_object.
       rewrite bind_unfold, (getitem_dict _ _ _ _ _ Hd Hi). cbv beta iota.
       unfold in_cache, get_class. mred. rewrite Hk. discriminate. }
  destruct (assoc i (cls_cache k)) as [l |] eqn:Hc.
  - destruct (generate_object_cached _ _ _ _ _ _ _ _ _ _ Hd Hi Hk Hc Hg)
      as (-> & Hcs & Hdb & _).
    exists l, k. by rewrite Hcs.
  - destruct (hashable (heap s) i) eqn:Hh.
    2: { revert Hg. unfold generate_object.
         rewrite bind_unfold, (getitem_dict _ _ _ _ _ Hd Hi). cbv beta iota.
         unfold in_cache, get_class, check_hashable. mred. rewrite Hk. mred.
         rewrite Hh. discriminate. }
    rewrite (generate_object_miss _ _ _ _ _ _ _ Hd Hi Hk Hc Hh) in Hg.
    rewrite bind_unfold in Hg.
    destruct (kwargs_of (VLoc d) s) as [[kw | e] s0] eqn:Hkw; [| discriminate].
    pose proof (kwargs_of_dict _ _ _ _ _ Hd Hkw) as Hdd.
    apply reads_kwargs_of in Hkw as ->.
    assert (Hikw : assoc "_id" kw = Some i) by (by rewrite <- assoc_kwargs, <- Hdd).
    assert (Hpkw : Forall (fun kv => plain (heap s) kv.2 = true) kw).
    { rewrite Hdd in Hp. by apply Forall_fmap in Hp. }
    destruct (Document_new_plain _ _ _ _ _ _ Hpkw Hg) as (-> & Hext & Hhash).
    destruct (Hhash i Hikw) as (k0 & Hk0 & Hh').
    destruct (registered_new
                (mkState (heap s ++ [OInst c []]) (classes s) (db s))
                (length (heap s)) c k kw i Hikw Hk Hh' Hc) as (k' & Hk' & Hc' & _).
    destruct Hext as (Hcs & Hdb & _). cbn [classes db] in Hcs, Hdb.
    exists (length (heap s)), k'. by rewrite Hcs, Hdb.
Qed.

(** ** Fetched documents *)

Lemma decode_list_unfold (xs : list raw) :
  Storage.decode (RList xs) =
  (vs ← Storage.decode_list xs; l ← alloc (OList vs); mret (VLoc l)).
Proof. reflexivity. Qed.

Lemma decode_dict_unfold (d : list (string * raw)) :
  Storage.decode (RDict d) =
  (kvs ← Storage.decode_items d; l ← alloc (ODict kvs); mret (VLoc l)).
Proof. reflexivity. Qed.

Lemma plain_alloc (s : state) (o : obj) :
  (forall c a, o <> OInst c a) ->
  plain (heap s ++ [o]) (VLoc (length (heap s))) = true.
Proof.
  intros Ho. cbn. rewrite lookup_app_r by done. rewrite Nat.sub_diag. cbn.
  destruct o; try done. by destruct (Ho c a).
Qed.

(** Decoding returns, allocates, and yields no document. *)
Lemma decode_plain (r : raw) (s : state) :
  exists v s', Storage.decode r s = (Ok v, s') /\ ext s s' /\ plain (heap s') v = true.
Proof.
  revert r s. fix IH 1. intros [| z | x | o | c i | xs | d] s.
  - exists VNone, s. repeat split. apply ext_refl.
  - exists (VInt z), s. repeat split. apply ext_refl.
  - exists (VStr x), s. repeat split. apply ext_refl.
  - exists (VOid o), s. repeat split. apply ext_refl.
  - destruct (IH i s) as (v & s' & Hd & He & _).
    exists (VDBRef c v), s'. cbn [Storage.decode]. rewrite bind_unfold, Hd. done.
  - assert (Hl : forall s, exists vs s', Storage.decode_list xs s = (Ok vs, s') /\ ext s s').
    { induction xs as [| x xs IHxs]; intros s0.
      - exists [], s0. split; [done | apply ext_refl].
      - destruct (IH x s0) as (v & s1 & Hd & He & _).
        destruct (IHxs s1) as (vs & s2 & Hd2 & He2).
        exists (v :: vs), s2. cbn [Storage.decode_list].
        rewrite bind_unfold, Hd, bind_unfold, Hd2. split; [done | by eapply ext_trans]. }
    destruct (Hl s) as (vs & s1 & Hd & He).
    eexists _, _. rewrite decode_list_unfold, bind_unfold, Hd. cbv beta iota.
    split; [reflexivity |]. split.
    + eapply ext_trans; [exact He | apply ext_alloc].
    + by apply plain_alloc.
  - assert (Hl : forall s, exists kvs s', Storage.decode_items d s = (Ok kvs, s') /\ ext s s').
    { induction d as [| [k x] d IHd]; intros s0.
      - exists [], s0. split; [done | apply ext_refl].
      - destruct (IH x s0) as (v & s1 & Hd & He & _).
        destruct (IHd s1) as (kvs & s2 & Hd2 & He2).
        exists ((VStr k, v) :: kvs), s2. cbn [Storage.decode_items].
        rewrite bind_unfold, Hd, bind_unfold, Hd2. split; [done | by eapply ext_trans]. }
    destruct (Hl s) as (kvs & s1 & Hd & He).
    eexists _, _. rewrite decode_dict_unfold, bind_unfold, Hd. cbv beta iota.
    split; [reflexivity |]. split.
    + eapply ext_trans; [exact He | apply ext_alloc].
    + by apply plain_alloc.
Qed.

Lemma decode_items_plain (d : list (string * raw)) (s : state) :
  exists kvs s',
    Storage.decode_items d s = (Ok kvs, s') /\ ext s s' /\
    Forall (fun kv => plain (heap s') kv.2 = true) kvs /\
    (forall key r v, assoc key d = Some r -> scalar_value r = Some v ->
                     assoc (VStr key) kvs = Some v).
Proof.
  revert s. induction d as [| [k x] d IH]; intros s.
  - exists [], s. split; [done |]. split; [apply ext_refl |]. split; [constructor | done].
  - destruct (decode_plain x s) as (v & s1 & Hd & He & Hp).
    destruct (IH s1) as (kvs & s2 & Hd2 & He2 & Hp2 & Hid).
    exists ((VStr k, v) :: kvs), s2. cbn [Storage.decode_items].
    rewrite bind_unfold, Hd, bind_unfold, Hd2.
    split; [done |]. split; [| split].
    + by eapply ext_trans.
    + constructor; [by eapply plain_ext | done].
    + intros key r0 v0. cbn. destruct (decide (k = key)) as [-> |].
      * rewrite decide_True by done. intros [= ->] Hs.
        destruct r0; try discriminate; cbn in Hd, Hs; unfold mret, M_ret in Hd; congruence.
      * rewrite decide_False by congruence. apply Hid.
Qed.

(** What a fetch hands to the materialisation: a new dict of values that
    are not documents, with the stored identity under [_id]. *)
Lemma decode_doc_spec (d : rdoc) (s : state) :
  exists l kvs s',
    Storage.decode_doc d s = (Ok (VLoc l), s') /\ ext s s' /\
    heap s' !! l = Some (ODict kvs) /\
    Forall (fun kv => plain (heap s') kv.2 = true) kvs /\
    (forall key r v, assoc key d = Some r -> scalar_value r = Some v ->
                     assoc (VStr key) kvs = Some v).
Proof.
  destruct (decode_items_plain d s) as (kvs & s1 & Hd & He & Hp & Hid).
  exists (length (heap s1)), kvs, (mkState (heap s1 ++ [ODict kvs]) (classes s1) (db s1)).
  unfold Storage.decode_doc. rewrite decode_dict_unfold, bind_unfold, Hd.
  split; [done |]. split; [| split; [| split]].
  - eapply ext_trans; [exact He | apply ext_alloc].
  - cbn. rewrite lookup_app_r by done. by rewrite Nat.sub_diag.
  - eapply Forall_impl; [exact Hp |]. intros kv. apply plain_ext, ext_alloc.
  - exact Hid.
Qed.

(** [find_one] with decoding is a fetch followed by one turn of the loop of
    [generate_objects]. *)
Lemma find_one_generate (rd : loc -> value -> M value) (c : cid) (spec : attrs) :
  Document_find_one rd c true spec =
  (col ← Document_collection c;
   doc ← Storage.col_find_one col spec;
   generate_object rd c doc).
Proof. reflexivity. Qed.

(** A load of a stored document with identity [o] that returns: the
    instance returned is the one the cache of the class then holds. *)
Lemma find_one_caches (rd : loc -> value -> M value) (c : cid) (spec : attrs)
      (s s1 : state) (col : string) (q doc : rdoc) (o : N) (r : value) :
  Document_collection c s = (Ok col, s) ->
  Storage.encode_query spec s = (Ok q, s) ->
  Storage.db_find_one (db s) col q = Some doc ->
  assoc "_id" doc = Some (ROid o) ->
  Document_find_one rd c true spec s = (Ok r, s1) ->
  exists l k, r = VLoc l /\ classes s1 !! c = Some k /\
              assoc (VOid o) (cls_cache k) = Some l /\ db s1 = db s.
Proof.
  intros Hcol Hq Hdoc Hid. rewrite find_one_generate.
  unfold Storage.col_find_one. mred. rewrite Hcol. mred. rewrite Hq. mred. rewrite Hdoc.
  destruct (decode_doc_spec doc s) as (l & kvs & sd & Hd & He & Hl & Hp & Hi).
  rewrite Hd. intros Hg.
  destruct (generate_object_caches _ _ _ _ _ _ _ _ Hl Hp (Hi _ _ _ Hid eq_refl) Hg)
    as (l' & k' & -> & Hk & Hc & Hdb).
  exists l', k'. repeat split; try done. destruct He as (_ & Hdb' & _). congruence.
Qed.

(** ** Saving *)

Lemma Document_new_db (rd : loc -> value -> M value) (c : cid) (kw : attrs)
      (s : state) (r : res value) (s' : state) :
  Forall (fun kv => plain (heap s) kv.2 = true) kw ->
  Document_new rd c kw s = (r, s') ->
  db s' = db s.
Proof.
  intros Hp. unfold Document_new. rewrite bind_unfold.
  destruct (get_class c s) as [[k | e] s0] eqn:Hk;
    apply reads_get_class in Hk as ->; [| by inversion 1].
  rewrite bind_unfold. unfold alloc at 1. cbv beta iota.
  set (l := length (heap s)).
  set (sa := mkState (heap s ++ [OInst c []]) (classes s) (db s)).
  assert (Hl : heap sa !! l = Some (OInst c [])).
  { cbn. rewrite lookup_app_r by done. by rewrite Nat.sub_diag. }
  assert (Hpa : Forall (fun kv => plain (heap sa) kv.2 = true) kw).
  { eapply Forall_plain_ext; [| exact Hp]. apply ext_alloc. }
  rewrite bind_unfold.
  destruct (Document_init rd (VLoc l) kw sa) as [[[] | e] s1] eqn:Hi;
    apply (Document_init_plain rd sa s1 l c [] kw _ Hl Hpa) in Hi as (_ & Hdb & _);
    inversion 1; subst; exact Hdb.
Qed.

(** Takes the next call of a method off the goal when the call only reads. *)
Ltac reads_bind lem :=
  rewrite bind_unfold;
  lazymatch goal with
  | |- match ?m ?s with _ => _ end = _ -> _ =>
    let E := fresh "E" in
    let s0 := fresh "s0" in
    destruct (m s) as [[? | ?] s0] eqn:E;
    (assert (s0 = s) as -> by (eapply lem; exact E));
    [| by inversion 1]
  end.

(** Materialising a fetched document writes to no collection. *)
Lemma Document_dereference_db (rd : loc -> value -> M value) (c : cid) (dbref : value)
      (s : state) (r : res value) (s' : state) :
  Document_dereference rd c dbref s = (r, s') ->
  db s' = db s.
Proof.
  unfold Document_dereference. rewrite bind_unfold.
  assert (Hdoc : exists doc sd,
             Storage.dereference dbref s = (doc, sd) /\ db sd = db s /\
             forall v, doc = Ok v ->
                       v = VNone \/
                       exists ld kvs, v = VLoc ld /\ heap sd !! ld = Some (ODict kvs) /\
                                      Forall (fun kv => plain (heap sd) kv.2 = true) kvs).
  { unfold Storage.dereference.
    destruct dbref as [| | | | coll i | |];
      try (eexists _, _; split; [reflexivity |]; split; [done | discriminate]).
    rewrite bind_unfold.
    destruct (Storage.encode_value i s) as [[ri | e] s0] eqn:E;
      apply reads_encode_value in E as ->;
      [| eexists _, _; split; [reflexivity |]; split; [done | discriminate]].
    mred.
    destruct (Storage.db_dereference (db s) coll ri) as [dr |].
    - destruct (decode_doc_spec dr s) as (ld & kvs & sd & Hd & (_ & Hdb & _) & Hld & Hp & _).
      exists (Ok (VLoc ld)), sd. split; [done |]. split; [done |].
      intros v [= <-]. right. by exists ld, kvs.
    - eexists _, _. split; [reflexivity |]. split; [done |]. intros v [= <-]. by left. }
  destruct Hdoc as (rdc & sd & -> & Hdb & Hshape). rewrite <- Hdb. clear Hdb.
  destruct rdc as [doc | e]; [| by inversion 1].
  destruct (Hshape doc eq_refl) as [-> | (ld & kvs & -> & Hld & Hp)]; clear Hshape.
  { unfold py_getitem. mred. by inversion 1. }
  reads_bind reads_py_getitem.
  reads_bind reads_get_class.
  rewrite bind_unfold.
  match goal with
  | |- match ?m sd with _ => _ end = _ -> _ =>
    assert (Hdt : reads m); [| destruct (m sd) as [[doc_type | e] s0] eqn:Edt;
                                apply Hdt in Edt as ->; [| by inversion 1]]
  end.
  { destruct (decide _); [apply reads_ret |].
    apply reads_bind; [apply reads_rget_subclasses |]. intros subs.
    generalize c. induction subs as [| subc subs IH]; intros c0; cbn [pick_subclass];
      reads_auto. }
  clear Hdt. destruct dbref; try by inversion 1.
  reads_bind reads_in_cache.
  match goal with b : bool |- _ => destruct b end.
  - reads_bind reads_py_getitem. reads_bind reads_Document_get_cache.
    rewrite bind_unfold.
    match goal with
    | |- match set_attr rd ?x "data" (VLoc ld) sd with _ => _ end = _ -> _ =>
      destruct (set_attr rd x "data" (VLoc ld) sd) as [[[] | e] s0] eqn:Eset;
        apply set_attr_plain in Eset as (_ & Hdb & _);
        try (by cbn; unfold loc in *; rewrite Hld)
    end; inversion 1; by subst.
  - rewrite bind_unfold.
    destruct (kwargs_of (VLoc ld) sd) as [[kw | e] s0] eqn:Ekw.
    + pose proof (kwargs_of_dict _ _ _ _ _ Hld Ekw) as ->.
      apply reads_kwargs_of in Ekw as ->.
      apply Document_new_db. rewrite Forall_map in Hp. exact Hp.
    + apply reads_kwargs_of in Ekw as ->. by inversion 1.
Qed.

(** Reading an attribute through the readers of the program writes to no
    collection, unless the attribute is an embedded-document field. *)
Lemma get_attr_db (depth : nat) (s : state) (l : loc) (c : cid) (a : attrs) (k : class)
      (name : string) (r : res value) (s' : state) :
  heap s !! l = Some (OInst c a) ->
  classes s !! c = Some k ->
  (forall fn g, mro_lookup (classes s) name (cls_mro k) = Some (CVal (VLoc fn)) ->
                heap s !! fn = Some (OField g) ->
                Fields.resolve Fields.m_get (f_class g) <> Some DictField) ->
  get_attr (dereference_field depth) (VLoc l) name s = (r, s') ->
  db s' = db s.
Proof.
  intros Hl Hk Hnd. unfold get_attr, class_attr.
  rewrite bind_unfold. unfold load_inst at 1, load at 1. mred. rewrite Hl. mred.
  cbn [fst snd]. unfold get_class at 1. mred. rewrite Hk. mred.
  destruct (mro_lookup (classes s) name (cls_mro k)) as [[v | | |] |] eqn:Hm.
  - unfold is_field. mred.
    destruct v as [| | | | | fn |]; try (inversion 1; by subst).
    destruct (heap s !! fn) as [[| | | g] |] eqn:Hfn; try (inversion 1; by subst).
    specialize (Hnd fn g eq_refl Hfn).
    unfold descr_get. rewrite bind_unfold. unfold load_field at 1, load at 1. mred.
    rewrite Hfn. mred.
    destruct (Fields.resolve Fields.m_get (f_class g)) as [[] |] eqn:Hres;
      try (inversion 1; by subst); try done.
    + intros H. by apply reads_BaseField_get in H as ->.
    + destruct depth as [| depth]; [inversion 1; by subst |].
      cbn [dereference_field]. unfold read_field. rewrite bind_unfold.
      unfold load_field at 1, load at 1. mred. rewrite Hfn. mred. rewrite Hres.
      unfold RefField_get.
      reads_bind reads_load_field. reads_bind reads_get_data. reads_bind reads_py_getitem.
      match goal with v : value |- _ => destruct v; try by inversion 1 end.
      rewrite bind_unfold.
      match goal with
      | |- match ?m s with _ => _ end = _ -> _ =>
        assert (Hrt : reads m) by (unfold referent_type; reads_auto);
          destruct (m s) as [[dt | e] s0] eqn:Ert; apply Hrt in Ert as ->; [| by inversion 1]
      end.
      apply Document_dereference_db.
    + intros H. by apply keeps_SelfishField_get in H as (_ & Hdb & _).
  - intros H. by apply reads_get_data in H as ->.
  - inversion 1; by subst.
  - inversion 1; by subst.
  - destruct (assoc name a); inversion 1; by subst.
Qed.

(** Reading an attribute that no reference field, list field or
    embedded-document field stands behind writes nothing. *)
Lemma get_attr_reads (rd : loc -> value -> M value) (s : state) (l : loc) (c : cid)
      (a : attrs) (k : class) (name : string) (r : res value) (s' : state) :
  heap s !! l = Some (OInst c a) ->
  classes s !! c = Some k ->
  (forall fn g, mro_lookup (classes s) name (cls_mro k) = Some (CVal (VLoc fn)) ->
                heap s !! fn = Some (OField g) ->
                Fields.resolve Fields.m_get (f_class g) = Some BaseField) ->
  get_attr rd (VLoc l) name s = (r, s') ->
  s' = s.
Proof.
  intros Hl Hk Hb. unfold get_attr, class_attr.
  rewrite bind_unfold. unfold load_inst at 1, load at 1. mred. rewrite Hl. mred.
  cbn [fst snd]. unfold get_class at 1. mred. rewrite Hk. mred.
  destruct (mro_lookup (classes s) name (cls_mro k)) as [[v | | |] |] eqn:Hm.
  - unfold is_field. mred.
    destruct v as [| | | | | fn |]; try (inversion 1; by subst).
    destruct (heap s !! fn) as [[| | | g] |] eqn:Hfn; try (inversion 1; by subst).
    specialize (Hb fn g eq_refl Hfn).
    unfold descr_get. rewrite bind_unfold. unfold load_field at 1, load at 1. mred.
    rewrite Hfn. mred. rewrite Hb.
    intros H. by apply reads_BaseField_get in H.
  - intros H. by apply reads_get_data in H.
  - inversion 1; by subst.
  - inversion 1; by subst.
  - destruct (assoc name a); inversion 1; by subst.
Qed.



(** ** The class a dereference settles on *)

Lemma pick_subclass_fold (s : state) (d : loc) (dd : dict) (tag : value)
      (subs : list cid) (acc : cid) :
  heap s !! d = Some (ODict dd) ->
  assoc (VStr "_type") dd = Some tag ->
  Forall (fun subc => is_Some (classes s !! subc)) subs ->
  pick_subclass (VLoc d) subs acc s =
  (Ok (fold_left (fun acc subc =>
                    match classes s !! subc with
                    | Some k' => if decide (tag = VStr (cls_name k')) then subc else acc
                    | None => acc
                    end) subs acc), s).
Proof.
  intros Hd Ht Hv. revert acc. induction Hv as [| subc subs [k' Hk'] Hv IH]; intros acc.
  - reflexivity.
  - cbn [pick_subclass fold_left].
    rewrite bind_unfold, (getitem_dict _ _ _ _ _ Hd Ht). cbv beta iota.
    unfold get_class. mred. rewrite Hk'. mred.
    destruct (decide (tag = VStr (cls_name k'))); apply IH.
Qed.

Lemma subclasses_spec (cs : list class) (c subc : cid) :
  subc ∈ subclasses cs c <->
  subc <> c /\ exists k, cs !! subc = Some k /\ c ∈ cls_mro k.
Proof.
  unfold subclasses. rewrite list_elem_of_In, filter_In, <- list_elem_of_In.
  rewrite elem_of_seq, andb_true_iff, negb_true_iff, bool_decide_eq_false.
  split.
  - intros (_ & Hne & Hk). split; [done |].
    destruct (cs !! subc) as [k |]; [| done].
    exists k. split; [done |]. by apply bool_decide_eq_true in Hk.
  - intros (Hne & k & Hk & Hin). split; [| split; [done |]].
    + apply lookup_lt_Some in Hk. lia.
    + rewrite Hk. by apply bool_decide_eq_true.
Qed.

(** The last element of [subs] that carries the tag, or the start value. *)
Lemma fold_last_named (cs : list class) (tag : value) (subs : list cid) (acc : cid) :
  let pick := fold_left (fun acc subc =>
                           match cs !! subc with
                           | Some k' => if decide (tag = VStr (cls_name k')) then subc else acc
                           | None => acc
                           end) subs acc in
  (pick = acc /\
   Forall (fun subc => forall k', cs !! subc = Some k' -> tag <> VStr (cls_name k')) subs) \/
  (pick ∈ subs /\ exists k', cs !! pick = Some k' /\ tag = VStr (cls_name k')).
Proof.
  revert acc. induction subs as [| subc subs IH]; intros acc; cbn.
  - left. split; [done | constructor].
  - destruct (cs !! subc) as [k' |] eqn:Hk'.
    + destruct (decide (tag = VStr (cls_name k'))) as [Ht | Ht].
      * right. destruct (IH subc) as [[-> _] | [Hin Hex]].
        -- split; [apply list_elem_of_here | by exists k'].
        -- split; [by apply list_elem_of_further | done].
      * destruct (IH acc) as [[-> Hall] | [Hin Hex]].
        -- left. split; [done |]. constructor; [| done]. intros k0 Hk0. congruence.
        -- right. split; [by apply list_elem_of_further | done].
    + destruct (IH acc) as [[-> Hall] | [Hin Hex]].
      * left. split; [done |]. constructor; [| done]. intros k0 Hk0. congruence.
      * right. split; [by apply list_elem_of_further | done].
Qed.

Lemma resolve_type_fold (cs : list class) (c : cid) (k : class) (tag : value) :
  cs !! c = Some k ->
  tag <> VStr (cls_name k) ->
  resolve_type cs c tag =
  fold_left (fun acc subc =>
               match cs !! subc with
               | Some k' => if decide (tag = VStr (cls_name k')) then subc else acc
               | None => acc
               end) (subclasses cs c) c.
Proof. intros Hk Hne. unfold resolve_type. by rewrite Hk, decide_False. Qed.

(** [dereference], once the document is fetched: the rule of the loop of
    [generate_objects], for the resolved class. *)
Lemma dereference_unfold (rd : loc -> value -> M value) (c : cid) (coll : string)
      (i : value) (s sd : state) (d : loc) (dd : dict) (tag : value) (k : class) :
  Storage.dereference (VDBRef coll i) s = (Ok (VLoc d), sd) ->
  heap sd !! d = Some (ODict dd) ->
  assoc (VStr "_type") dd = Some tag ->
  assoc (VStr "_id") dd = Some i ->
  classes sd !! c = Some k ->
  Document_dereference rd c (VDBRef coll i) s =
  generate_object rd (resolve_type (classes sd) c tag) (VLoc d) sd.
Proof.
  intros Hf Hd Ht Hi Hk. unfold Document_dereference.
  rewrite bind_unfold, Hf. cbv beta iota.
  rewrite bind_unfold, (getitem_dict _ _ _ _ _ Hd Ht). cbv beta iota.
  rewrite bind_unfold. unfold get_class at 1. rewrite Hk. cbv beta iota.
  rewrite bind_unfold.
  assert (Hdt : (if decide (tag = VStr (cls_name k)) then mret c
                 else subs ← rget_subclasses c; pick_subclass (VLoc d) subs c) sd
                = (Ok (resolve_type (classes sd) c tag), sd)).
  { destruct (decide (tag = VStr (cls_name k))) as [Heq | Hne].
    - unfold resolve_type. by rewrite Hk, decide_True.
    - unfold rget_subclasses. mred.
      rewrite (pick_subclass_fold _ _ _ _ _ _ Hd Ht).
      + by rewrite (resolve_type_fold _ _ _ _ Hk Hne).
      + apply Forall_forall. intros subc Hin.
        apply subclasses_spec in Hin as (_ & k' & Hk' & _). by exists k'. }
  rewrite Hdt. cbv beta iota.
  unfold generate_object. rewrite (bind_unfold (py_getitem _ _)).
  rewrite (getitem_dict _ _ _ _ _ Hd Hi). reflexivity.
Qed.

(** ** One instance per identity *)

(** A hit, in full: the cached instance is returned and its [_data] is the
    fetched dict, nothing else is touched. *)
Lemma generate_object_hit_state (rd : loc -> value -> M value) (s : state) (c cl : cid)
      (k : class) (d l : loc) (dd : dict) (al : attrs) (i : value) :
  heap s !! d = Some (ODict dd) ->
  assoc (VStr "_id") dd = Some i ->
  classes s !! c = Some k ->
  hashable (heap s) i = true ->
  assoc i (cls_cache k) = Some l ->
  heap s !! l = Some (OInst cl al) ->
  binds s cl "data" CPropData ->
  generate_object rd c (VLoc d) s =
  (Ok (VLoc l),
   mkState (<[l := OInst cl (assoc_set "_data" (VLoc d) al)]> (heap s)) (classes s) (db s)).
Proof.
  intros Hd Hi Hk Hh Hc Hl (kl & Hkl & Hdata).
  unfold generate_object. rewrite bind_unfold, (getitem_dict _ _ _ _ _ Hd Hi).
  cbv beta iota.
  unfold in_cache, Document_get_cache, assoc_mem. mgo.
  rewrite (getitem_dict _ _ _ _ _ Hd Hi). mgo.
  unfold set_attr, setattr_via, class_attr, set_inst_attr. mgo. reflexivity.
Qed.

Lemma cache_at_classes (s s' : state) (c : cid) (i : value) :
  classes s' = classes s -> cache_at s' c i = cache_at s c i.
Proof. intros E. unfold cache_at. by rewrite E. Qed.

(** The cache of a class only grows when a document is registered. *)
Lemma registered_mono (s : state) (l : loc) (c c' : cid) (kw : attrs) (j : value) (lj : loc) :
  cache_at s c' j = Some lj ->
  cache_at (mkState (heap s) (registered s l c kw) (db s)) c' j = Some lj.
Proof.
  unfold cache_at, registered. cbn [classes]. intros Hj.
  destruct (assoc "_id" kw) as [i |]; [| done].
  destruct (classes s !! c) as [k |] eqn:Hk; [| done].
  destruct (hashable (heap s) i); [| done].
  destruct (assoc_mem i (cls_cache k)) eqn:Hm; [done |].
  destruct (decide (c' = c)) as [-> |].
  - rewrite list_lookup_insert_eq by (by eapply lookup_lt_Some). cbn.
    rewrite Hk in Hj. rewrite assoc_set_ne; [done |].
    intros ->. unfold assoc_mem in Hm. by rewrite Hj in Hm.
  - by rewrite list_lookup_insert_ne.
Qed.

(** One turn of the loop of [generate_objects] forgets no instance. *)
Lemma generate_object_mono (rd : loc -> value -> M value) (s s' : state) (c c' : cid)
      (d : loc) (dd : dict) (i r : value) (j : value) (lj : loc) :
  heap s !! d = Some (ODict dd) ->
  Forall (fun kv => plain (heap s) kv.2 = true) dd ->
  assoc (VStr "_id") dd = Some i ->
  generate_object rd c (VLoc d) s = (Ok r, s') ->
  cache_at s c' j = Some lj ->
  cache_at s' c' j = Some lj.
Proof.
  intros Hd Hp Hi Hg Hj.
  destruct (classes s !! c) as [k |] eqn:Hk.
  2: { revert Hg. unfold generate_object.
       rewrite bind_unfold, (getitem_dict _ _ _ _ _ Hd Hi). cbv beta iota.
       unfold in_cache, get_class. mred. rewrite Hk. discriminate. }
  destruct (assoc i (cls_cache k)) as [l |] eqn:Hc.
  - destruct (generate_object_cached _ _ _ _ _ _ _ _ _ _ Hd Hi Hk Hc Hg)
      as (-> & Hcs & _).
    by rewrite (cache_at_classes _ _ _ _ Hcs).
  - destruct (hashable (heap s) i) eqn:Hh.
    2: { revert Hg. unfold generate_object.
         rewrite bind_unfold, (getitem_dict _ _ _ _ _ Hd Hi). cbv beta iota.
         unfold in_cache, get_class, check_hashable. mred. rewrite Hk. mred.
         rewrite Hh. discriminate. }
    rewrite (generate_object_miss _ _ _ _ _ _ _ Hd Hi Hk Hc Hh) in Hg.
    rewrite bind_unfold in Hg.
    destruct (kwargs_of (VLoc d) s) as [[kw | e] s0] eqn:Hkw; [| discriminate].
    pose proof (kwargs_of_dict _ _ _ _ _ Hd Hkw) as Hdd.
    apply reads_kwargs_of in Hkw as ->.
    assert (Hpkw : Forall (fun kv => plain (heap s) kv.2 = true) kw).
    { rewrite Hdd in Hp. by apply Forall_fmap in Hp. }
    destruct (Document_new_plain _ _ _ _ _ _ Hpkw Hg) as (-> & (Hcs & _ & _) & _).
    rewrite (cache_at_classes _ _ _ _ Hcs).
    apply (registered_mono (mkState (heap s ++ [OInst c []]) (classes s) (db s))).
    exact Hj.
Qed.

(** One turn of the loop: the next document of the cursor is decoded and
    materialised. *)
Lemma turn_caches (rd : loc -> value -> M value) (c : cid) (raw : rdoc) (o : N)
      (s s' : state) (r : value) :
  assoc "_id" raw = Some (ROid o) ->
  (doc ← Storage.decode_doc raw; generate_object rd c doc) s = (Ok r, s') ->
  exists l, r = VLoc l /\ cache_at s' c (VOid o) = Some l /\ db s' = db s /\
            forall c' j lj, cache_at s c' j = Some lj -> cache_at s' c' j = Some lj.
Proof.
  intros Hid. rewrite bind_unfold.
  destruct (decode_doc_spec raw s) as (l & kvs & sd & Hd & He & Hl & Hp & Hi).
  rewrite Hd. intros Hg.
  destruct (generate_object_caches _ _ _ _ _ _ _ _ Hl Hp (Hi _ _ _ Hid eq_refl) Hg)
    as (l' & k' & -> & Hk & Hc & Hdb).
  destruct He as (Hcs & Hdb' & _).
  exists l'. split; [done |]. split; [| split].
  - unfold cache_at. by rewrite Hk.
  - congruence.
  - intros c' j lj Hj.
    eapply generate_object_mono; [exact Hl | exact Hp | exact (Hi _ _ _ Hid eq_refl) | exact Hg |].
    by rewrite (cache_at_classes _ _ _ _ Hcs).
Qed.

Lemma turn_cached (rd : loc -> value -> M value) (c : cid) (raw : rdoc) (o : N)
      (s s' : state) (r : value) (l : loc) :
  assoc "_id" raw = Some (ROid o) ->
  cache_at s c (VOid o) = Some l ->
  (doc ← Storage.decode_doc raw; generate_object rd c doc) s = (Ok r, s') ->
  r = VLoc l /\ classes s' = classes s.
Proof.
  intros Hid Hc. unfold cache_at in Hc.
  destruct (classes s !! c) as [k |] eqn:Hk; [| done].
  rewrite bind_unfold.
  destruct (decode_doc_spec raw s) as (ld & kvs & sd & Hd & He & Hl & Hp & Hi).
  rewrite Hd. intros Hg.
  destruct He as (Hcs & _ & _). rewrite <- Hcs in Hk.
  destruct (generate_object_cached _ _ _ _ _ _ _ _ _ _ Hl (Hi _ _ _ Hid eq_refl) Hk Hc Hg)
    as (-> & Hcs' & _).
  split; [done | congruence].
Qed.

Lemma generate_objects_cons (rd : loc -> value -> M value) (c : cid) (raw : rdoc)
      (cursor : list rdoc) :
  Document_generate_objects rd c (raw :: cursor) =
  (r ← (doc ← Storage.decode_doc raw; generate_object rd c doc);
   rs ← Document_generate_objects rd c cursor;
   mret (r :: rs)).
Proof. reflexivity. Qed.

(** The loop over a cursor whose documents all have the identity [o],
    through a class whose cache holds [l] under it. *)
Lemma generate_objects_cached (rd : loc -> value -> M value) (c : cid) (o : N)
      (cursor : list rdoc) :
  Forall (fun doc => assoc "_id" doc = Some (ROid o)) cursor ->
  forall s rs s' l,
    cache_at s c (VOid o) = Some l ->
    Document_generate_objects rd c cursor s = (Ok rs, s') ->
    Forall (fun r => r = VLoc l) rs /\ cache_at s' c (VOid o) = Some l.
Proof.
  induction 1 as [| raw cursor Hid Hall IH]; intros s rs s' l Hc.
  - inversion 1; subst. split; [constructor | done].
  - rewrite generate_objects_cons, bind_unfold.
    destruct ((doc ← Storage.decode_doc raw; generate_object rd c doc) s)
      as [[r | e] s1] eqn:E1; [| discriminate].
    destruct (turn_cached _ _ _ _ _ _ _ _ Hid Hc E1) as (-> & Hcs).
    rewrite bind_unfold.
    destruct (Document_generate_objects rd c cursor s1) as [[rs0 | e] s2] eqn:E2;
      [| discriminate].
    inversion 1; subst.
    destruct (IH s1 rs0 s' l) as (Hrs & Hc'); [by rewrite (cache_at_classes _ _ _ _ Hcs) | done |].
    split; [by constructor | done].
Qed.

(** The same loop, whatever the cache holds: the instances returned are
    one, and the cache holds it afterwards. *)
Lemma generate_objects_same (rd : loc -> value -> M value) (c : cid) (o : N)
      (cursor : list rdoc) (s : state) (rs : list value) (s' : state) :
  Forall (fun doc => assoc "_id" doc = Some (ROid o)) cursor ->
  Document_generate_objects rd c cursor s = (Ok rs, s') ->
  (cursor = [] /\ rs = [] /\ s' = s) \/
  exists l, Forall (fun r => r = VLoc l) rs /\ cache_at s' c (VOid o) = Some l.
Proof.
  intros Hall. destruct Hall as [| raw cursor Hid Hall].
  - inversion 1; subst. by left.
  - rewrite generate_objects_cons, bind_unfold.
    destruct ((doc ← Storage.decode_doc raw; generate_object rd c doc) s)
      as [[r | e] s1] eqn:E1; [| discriminate].
    destruct (turn_caches _ _ _ _ _ _ _ Hid E1) as (l & -> & Hc & _).
    rewrite bind_unfold.
    destruct (Document_generate_objects rd c cursor s1) as [[rs0 | e] s2] eqn:E2;
      [| discriminate].
    inversion 1; subst. right. exists l.
    destruct (generate_objects_cached _ _ _ _ Hall _ _ _ _ Hc E2) as (Hrs & Hc').
    split; [by constructor | done].
Qed.

(** Every instance [find] returns is the one the cache holds, after the
    call, under the identity of the document it was made from. *)
Lemma generate_objects_each (rd : loc -> value -> M value) (c : cid)
      (cursor : list rdoc) :
  forall s rs s',
    Forall (fun doc => exists o, assoc "_id" doc = Some (ROid o)) cursor ->
    Document_generate_objects rd c cursor s = (Ok rs, s') ->
    length rs = length cursor /\
    (forall c' j lj, cache_at s c' j = Some lj -> cache_at s' c' j = Some lj) /\
    forall n doc o, cursor !! n = Some doc -> assoc "_id" doc = Some (ROid o) ->
                    exists l, rs !! n = Some (VLoc l) /\ cache_at s' c (VOid o) = Some l.
Proof.
  induction cursor as [| raw cursor IH]; intros s rs s' Hall.
  - inversion 1; subst. split; [done |]. split; [done |]. intros n doc o Hn. done.
  - inversion Hall as [| ? ? (o0 & Hid) Hall']; subst.
    rewrite generate_objects_cons, bind_unfold.
    destruct ((doc ← Storage.decode_doc raw; generate_object rd c doc) s)
      as [[r | e] s1] eqn:E1; [| discriminate].
    destruct (turn_caches _ _ _ _ _ _ _ Hid E1) as (l & -> & Hc & _ & Hmono).
    rewrite bind_unfold.
    destruct (Document_generate_objects rd c cursor s1) as [[rs0 | e] s2] eqn:E2;
      [| discriminate].
    inversion 1; subst.
    destruct (IH _ _ _ Hall' E2) as (Hlen & Hmono' & Hrest).
    split; [cbn; by rewrite Hlen |]. split; [intros c' j lj Hj; by apply Hmono', Hmono |].
    intros [| n] doc o Hn Ho; cbn in Hn.
    + injection Hn as <-. assert (o = o0) as -> by congruence.
      exists l. split; [done | by apply Hmono'].
    + by apply (Hrest n doc o).
Qed.

Lemma find_generate (rd : loc -> value -> M value) (c : cid) (spec : attrs)
      (s : state) (col : string) (q : rdoc) :
  Document_collection c s = (Ok col, s) ->
  Storage.encode_query spec s = (Ok q, s) ->
  Document_find rd c true spec s =
  Document_generate_objects rd c (Storage.db_find (db s) col q) s.
Proof.
  intros Hcol Hq. unfold Document_find, Storage.col_find. mred.
  rewrite Hcol. mred. rewrite Hq. reflexivity.
Qed.

(** A load by [find_one], in terms of the cache. *)
Lemma find_one_turn (rd : loc -> value -> M value) (c : cid) (spec : attrs)
      (s : state) (col : string) (q doc : rdoc) :
  Document_collection c s = (Ok col, s) ->
  Storage.encode_query spec s = (Ok q, s) ->
  Storage.db_find_one (db s) col q = Some doc ->
  Document_find_one rd c true spec s =
  (doc ← Storage.decode_doc doc; generate_object rd c doc) s.
Proof.
  intros Hcol Hq Hdoc. rewrite find_one_generate.
  unfold Storage.col_find_one. mred. rewrite Hcol. mred. rewrite Hq. mred. by rewrite Hdoc.
Qed.

(** A load by [dereference] that settles on class [c]. *)
Lemma dereference_turn (rd : loc -> value -> M value) (c0 : cid) (coll tag : string)
      (doc : rdoc) (o : N) (s : state) (r : value) (s1 : state) :
  Storage.db_dereference (db s) coll (ROid o) = Some doc ->
  assoc "_id" doc = Some (ROid o) ->
  assoc "_type" doc = Some (RStr tag) ->
  Document_dereference rd c0 (VDBRef coll (VOid o)) s = (Ok r, s1) ->
  exists d dd sd,
    ext s sd /\ heap sd !! d = Some (ODict dd) /\
    Forall (fun kv => plain (heap sd) kv.2 = true) dd /\
    assoc (VStr "_id") dd = Some (VOid o) /\
    generate_object rd (resolve_type (classes s) c0 (VStr tag)) (VLoc d) sd = (Ok r, s1).
Proof.
  intros Hdb Hid Htag Hderef.
  destruct (decode_doc_spec doc s) as (d & dd & sd & Hd & He & Hl & Hp & Hi).
  assert (Hf : Storage.dereference (VDBRef coll (VOid o)) s = (Ok (VLoc d), sd)).
  { unfold Storage.dereference, Storage.encode_value. mred. cbn [Storage.encode]. mred.
    by rewrite Hdb. }
  pose proof (Hi _ _ _ Hid eq_refl) as Hid'. pose proof (Hi _ _ _ Htag eq_refl) as Htag'.
  cbn [scalar_value] in Hid', Htag'.
  destruct He as (Hcs & Hdb' & Hheap).
  destruct (classes sd !! c0) as [k |] eqn:Hk.
  - rewrite (dereference_unfold rd c0 coll (VOid o) s sd d dd (VStr tag) k Hf Hl Htag' Hid' Hk)
      in Hderef.
    exists d, dd, sd. rewrite <- Hcs. done.
  - revert Hderef. unfold Document_dereference.
    rewrite bind_unfold, Hf. cbv beta iota.
    rewrite bind_unfold, (getitem_dict _ _ _ _ _ Hl Htag'). cbv beta iota.
    rewrite bind_unfold. unfold get_class at 1. rewrite Hk. discriminate.
Qed.

Lemma loads_of_cached (rd : loc -> value -> M value) (c : cid) (o : N)
      (s s' : state) (rs : list value) :
  loads_of rd c o s rs s' ->
  forall l, cache_at s c (VOid o) = Some l -> Forall (fun r => r = VLoc l) rs.
Proof.
  induction 1 as [| s s1 s2 spec col q doc r rs Hcol Hq Hdoc Hid Hfind Hrest IH
                  | s s1 s2 spec col q found rs Hcol Hq Hall Hfind Hrest IH
                  | s s1 s2 c0 coll tag doc r rs Hdb Hid Htag Hres Hderef Hrest IH
                  | s s1 s2 rs Hkeep Hrest IH];
    intros l Hc.
  - constructor.
  - rewrite (find_one_turn _ _ _ _ _ _ _ Hcol Hq Hdoc) in Hfind.
    destruct (turn_cached _ _ _ _ _ _ _ _ Hid Hc Hfind) as (-> & Hcs).
    constructor; [done |]. apply IH. by rewrite (cache_at_classes _ _ _ _ Hcs).
  - rewrite (find_generate _ _ _ _ _ _ Hcol Hq) in Hfind.
    destruct (generate_objects_cached _ _ _ _ Hall _ _ _ _ Hc Hfind) as (Hrs & Hc').
    apply Forall_app. split; [done | by apply IH].
  - destruct (dereference_turn _ _ _ _ _ _ _ _ _ Hdb Hid Htag Hderef)
      as (d & dd & sd & (Hcs & _ & _) & Hd & Hp & Hi & Hg).
    rewrite Hres in Hg.
    rewrite <- (cache_at_classes _ _ _ _ Hcs) in Hc. unfold cache_at in Hc.
    destruct (classes sd !! c) as [k |] eqn:Hk; [| done].
    destruct (generate_object_cached _ _ _ _ _ _ _ _ _ _ Hd Hi Hk Hc Hg) as (-> & Hcs' & _).
    constructor; [done |]. apply IH. unfold cache_at. by rewrite Hcs', Hk.
  - by apply IH, Hkeep.
Qed.

Lemma loads_of_same (rd : loc -> value -> M value) (c : cid) (o : N)
      (s s' : state) (rs : list value) :
  loads_of rd c o s rs s' ->
  exists l, Forall (fun r => r = VLoc l) rs.
Proof.
  induction 1 as [| s s1 s2 spec col q doc r rs Hcol Hq Hdoc Hid Hfind Hrest IH
                  | s s1 s2 spec col q found rs Hcol Hq Hall Hfind Hrest IH
                  | s s1 s2 c0 coll tag doc r rs Hdb Hid Htag Hres Hderef Hrest IH
                  | s s1 s2 rs Hkeep Hrest IH].
  - exists 0. constructor.
  - rewrite (find_one_turn _ _ _ _ _ _ _ Hcol Hq Hdoc) in Hfind.
    destruct (turn_caches _ _ _ _ _ _ _ Hid Hfind) as (l & -> & Hc & _).
    exists l. constructor; [done |]. by eapply loads_of_cached.
  - rewrite (find_generate _ _ _ _ _ _ Hcol Hq) in Hfind.
    destruct (generate_objects_same _ _ _ _ _ _ _ Hall Hfind)
      as [(_ & -> & ->) | (l & Hrs & Hc)]; [exact IH |].
    exists l. apply Forall_app. split; [done | by eapply loads_of_cached].
  - destruct (dereference_turn _ _ _ _ _ _ _ _ _ Hdb Hid Htag Hderef)
      as (d & dd & sd & _ & Hd & Hp & Hi & Hg).
    rewrite Hres in Hg.
    destruct (generate_object_caches _ _ _ _ _ _ _ _ Hd Hp Hi Hg)
      as (l & k & -> & Hk & Hc & _).
    exists l. constructor; [done |]. eapply loads_of_cached; [done |].
    unfold cache_at. by rewrite Hk.
  - exact IH.
Qed.

(** *** What a construction from raw fields stores *)

Lemma document_at_store (st : state) (l : loc) (c : cid) (a : attrs) (dn : loc)
      (ddn dd' : dict) (cs : list class) (dbx : database) :
  document_at st l c a dn ddn ->
  document_at (mkState (<[dn := ODict dd']> (heap st)) cs dbx) l c a dn dd'.
Proof.
  intros (Hl & Ha & Hd).
  assert (Hne : dn <> l) by (eapply lookup_kind_ne; eauto; discriminate).
  repeat split; cbn [heap]; try done.
  - by rewrite list_lookup_insert_ne.
  - apply list_lookup_insert_eq. by eapply lookup_lt_Some.
Qed.

Lemma document_at_field (st : state) (l : loc) (c : cid) (a : attrs) (dn : loc)
      (ddn : dict) (fl : loc) (f g : field) (cs : list class) (dbx : database) :
  document_at st l c a dn ddn ->
  heap st !! fl = Some (OField f) ->
  document_at (mkState (<[fl := OField g]> (heap st)) cs dbx) l c a dn ddn.
Proof.
  intros (Hl & Ha & Hd) Hf.
  assert (Hne : fl <> l) by (eapply lookup_kind_ne; eauto; discriminate).
  assert (Hne' : fl <> dn) by (eapply lookup_kind_ne; eauto; discriminate).
  repeat split; cbn [heap]; try done; by rewrite list_lookup_insert_ne.
Qed.

(** [to_ref] of a value that is no document returns the value or raises. *)
Lemma to_ref_plain_ok (rd : loc -> value -> M value) (self : loc) (v x : value)
      (s s' : state) :
  plain (heap s) v = true ->
  BaseField_to_ref rd self v s = (Ok x, s') ->
  x = v /\ s' = s.
Proof.
  intros Hp. unfold BaseField_to_ref. rewrite bind_unfold.
  destruct (isinstance v [TDBRef] s) as [[b | e] s0] eqn:E;
    apply reads_isinstance in E as ->; [| discriminate].
  destruct b; [by inversion 1 |].
  unfold value_ref. rewrite bind_unfold, (load_inst_plain _ _ Hp). discriminate.
Qed.

Lemma set_field_value_spec (st : state) (fl : loc) (f : field) (v : value) :
  heap st !! fl = Some (OField f) ->
  set_field_value fl v st =
  (Ok tt, mkState (<[fl := OField (Fields.with_value v f)]> (heap st)) (classes st) (db st)).
Proof. intros Hf. unfold set_field_value. mgo. reflexivity. Qed.

(** A write of a value that is no document through a field of the class:
    where it returns, the value is in the store under the name of the
    field. *)
Lemma set_attr_field_stores (rd : loc -> value -> M value) (st : state) (l : loc)
      (c : cid) (a : attrs) (dn : loc) (ddn : dict) (name : string) (fl : loc)
      (f : field) (v : value) (st' : state) :
  document_at st l c a dn ddn ->
  bound_field st c name fl f ->
  plain (heap st) v = true ->
  set_attr rd (VLoc l) name v st = (Ok tt, st') ->
  document_at st' l c a dn (assoc_set (VStr name) v ddn).
Proof.
  intros Hdoc (k & Hk & Hmro & Hf & Hn) Hp.
  pose proof Hdoc as (Hl & Ha & Hd).
  pose proof (RefField_store st fl l dn f name c a ddn v Hf Hn Hdoc) as Hstore.
  assert (Hfin : forall st0,
             (Ok tt, mkState (<[dn := ODict (assoc_set (VStr name) v ddn)]> (heap st))
                             (classes st) (db st)) = (Ok tt, st0) ->
             document_at st0 l c a dn (assoc_set (VStr name) v ddn)).
  { intros st0 [= <-]. by eapply document_at_store. }
  set (g := Fields.with_value v f).
  set (st1 := mkState (<[fl := OField g]> (heap st)) (classes st) (db st)).
  assert (Hdoc1 : document_at st1 l c a dn ddn) by (by eapply document_at_field).
  assert (Hf1 : heap st1 !! fl = Some (OField g)).
  { cbn [heap st1]. apply list_lookup_insert_eq. by eapply lookup_lt_Some. }
  pose proof (RefField_store st1 fl l dn g name c a ddn v Hf1 Hn Hdoc1) as Hstore1.
  assert (Hfin1 : forall st0,
             (Ok tt, mkState (<[dn := ODict (assoc_set (VStr name) v ddn)]> (heap st1))
                             (classes st1) (db st1)) = (Ok tt, st0) ->
             document_at st0 l c a dn (assoc_set (VStr name) v ddn)).
  { intros st0 [= <-]. exact (document_at_store st1 l c a dn ddn _ _ _ Hdoc1). }
  pose proof (set_field_value_spec st fl f v Hf) as Hsfv. fold g in Hsfv.
  subst st1.
  unfold set_attr, setattr_via, class_attr, is_field.
  rewrite bind_unfold. unfold load_inst at 1, load at 1. mred. rewrite Hl. mred.
  cbn [fst]. unfold get_class at 1. mred. rewrite Hk. mred. rewrite Hmro. mred.
  unfold loc in *. rewrite Hf. mred.
  unfold descr_set. rewrite bind_unfold. unfold load_field at 1, load at 1. mred.
  unfold loc in *. rewrite Hf. mred.
  destruct (Fields.resolve Fields.m_set (f_class f)) as [[] |]; try discriminate.
  - unfold BaseField_set. rewrite bind_unfold.
    destruct (BaseField_validate fl v st) as [[[] | e] s0] eqn:E;
      apply reads_BaseField_validate in E as ->; [| discriminate].
    rewrite Hstore. apply Hfin.
  - unfold RefField_set. rewrite bind_unfold.
    destruct (BaseField_to_ref rd fl v st) as [[x | e] s0] eqn:E; [| discriminate].
    apply (to_ref_plain_ok _ _ _ _ _ _ Hp) in E as (-> & ->).
    rewrite Hstore. apply Hfin.
  - unfold SelfishField_set. rewrite bind_unfold, Hsfv. cbv beta iota.
    rewrite Hstore1. apply Hfin1.
  - unfold ListField_set. rewrite bind_unfold.
    destruct (isinstance v [TList] st) as [[b | e] s0] eqn:E;
      apply reads_isinstance in E as ->; [| discriminate].
    destruct b; [| discriminate].
    rewrite bind_unfold.
    destruct (list_items v st) as [[items | e] s0] eqn:E;
      apply reads_list_items in E as ->; [| discriminate].
    rewrite bind_unfold.
    destruct (for_each items (BaseField_validate fl) st) as [[[] | e] s0] eqn:E;
      apply reads_for_each in E as ->;
      try discriminate; try (intros ?; apply reads_BaseField_validate).
    rewrite bind_unfold, Hsfv. cbv beta iota.
    rewrite Hstore1. apply Hfin1.
  - unfold DictField_set. rewrite bind_unfold.
    destruct (BaseField_to_dict rd fl v st) as [[x | e] s0] eqn:E; [| discriminate].
    apply (to_dict_plain_ok _ _ _ _ _ _ Hp) in E as (-> & Hx).
    rewrite (Hx x eq_refl).
    rewrite Hstore. apply Hfin.
  - unfold ListField_set. rewrite bind_unfold.
    destruct (isinstance v [TList] st) as [[b | e] s0] eqn:E;
      apply reads_isinstance in E as ->; [| discriminate].
    destruct b; [| discriminate].
    rewrite bind_unfold.
    destruct (list_items v st) as [[items | e] s0] eqn:E;
      apply reads_list_items in E as ->; [| discriminate].
    rewrite bind_unfold.
    destruct (for_each items (BaseField_validate fl) st) as [[[] | e] s0] eqn:E;
      apply reads_for_each in E as ->;
      try discriminate; try (intros ?; apply reads_BaseField_validate).
    rewrite bind_unfold, Hsfv. cbv beta iota.
    rewrite Hstore1. apply Hfin1.
Qed.

Lemma bound_field_ext (s s' : state) (c : cid) (name : string) (fl : loc) (f : field) :
  ext s s' -> bound_field s c name fl f -> exists f', bound_field s' c name fl f'.
Proof.
  intros (Hcs & _ & Hh) (k & Hk & Hmro & Hf & Hn).
  destruct (Hh fl _ Hf) as ([| | | f'] & Hf' & Hkind); try done.
  exists f', k. rewrite Hcs. repeat split; try done.
  cbn in Hkind. rewrite Hkind. by destruct f'.
Qed.

(** The loop of [__init__] over keyword arguments that are fields of the
    class and no documents: where it returns, the store holds them all. *)
Lemma set_attrs_store (rd : loc -> value -> M value) (l : loc) (c : cid) (a : attrs)
      (dn : loc) (kw : attrs) :
  NoDup (map fst kw) ->
  forall st ddn st',
    document_at st l c a dn ddn ->
    Forall (fun kv => plain (heap st) kv.2 = true) kw ->
    Forall (fun kv => exists fl f, bound_field st c kv.1 fl f) kw ->
    for_each kw (fun kv => set_attr rd (VLoc l) kv.1 kv.2) st = (Ok tt, st') ->
    exists ddn',
      document_at st' l c a dn ddn' /\ ext st st' /\
      (forall name v, (name, v) ∈ kw -> assoc (VStr name) ddn' = Some v) /\
      (forall key, (forall name, key = VStr name -> name ∉ map fst kw) ->
                   assoc key ddn' = assoc key ddn).
Proof.
  induction kw as [| [n v] kw IH]; intros Hnd st ddn st' Hdoc Hp Hb; cbn [for_each].
  - intros [= <-]. exists ddn. split; [done |]. split; [apply ext_refl |].
    split; [| done]. intros name v Hin. by apply elem_of_nil in Hin.
  - cbn [map fst] in Hnd. apply NoDup_cons in Hnd as (Hn & Hnd).
    inversion Hp as [| ? ? Hpv Hp']; subst.
    inversion Hb as [| ? ? (fl & f & Hbf) Hb']; subst.
    cbn [fst snd] in *. rewrite bind_unfold.
    destruct (set_attr rd (VLoc l) n v st) as [[[] | e] st1] eqn:E; [| discriminate].
    pose proof (set_attr_plain _ _ _ _ _ _ _ Hpv E) as Hext.
    pose proof (set_attr_field_stores _ _ _ _ _ _ _ _ _ _ _ _ Hdoc Hbf Hpv E) as Hdoc1.
    intros Hrest.
    destruct (IH Hnd st1 _ st' Hdoc1) as (ddn' & Hdoc' & Hext' & Hin' & Hout'); try done.
    + by eapply Forall_plain_ext.
    + eapply Forall_impl; [exact Hb' |]. intros kv (fl' & f' & Hbf').
      destruct (bound_field_ext _ _ _ _ _ _ Hext Hbf') as (f'' & Hbf'').
      by exists fl', f''.
    + exists ddn'. split; [done |]. split; [by eapply ext_trans |]. split.
      * intros name v0 Hin. apply elem_of_cons in Hin as [[= -> ->] | Hin].
        -- rewrite Hout'; [apply assoc_set_eq |]. by intros name [= <-].
        -- by apply Hin'.
      * intros key Hkey. rewrite Hout'.
        -- apply assoc_set_ne. intros <-. apply (Hkey n eq_refl). cbn. apply list_elem_of_here.
        -- intros name Hname Hin. apply (Hkey name Hname). cbn.
           by apply list_elem_of_further.
Qed.

Lemma assoc_set_keeps_present {K V} `{EqDecision K} (k key : K) (x v : V)
      (d : list (K * V)) :
  assoc k d = None -> assoc key d = Some v -> assoc key (assoc_set k x d) = Some v.
Proof.
  intros Hk Hkey. rewrite assoc_set_ne; [done |]. intros ->. congruence.
Qed.

(** Filling in a default keeps what the store holds. *)
Lemma fill_default_keeps (st : state) (l : loc) (c : cid) (a : attrs) (dn : loc)
      (ddn : dict) (name : string) (fl : loc) (st' : state) :
  document_at st l c a dn ddn ->
  fill_default (VLoc l) name fl st = (Ok tt, st') ->
  exists ddn', document_at st' l c a dn ddn' /\
               forall key v, assoc key ddn = Some v -> assoc key ddn' = Some v.
Proof.
  intros Hdoc. pose proof Hdoc as (Hl & Ha & Hd).
  assert (Hset : forall st1 x,
             document_at st1 l c a dn ddn ->
             (data ← get_data (VLoc l); py_setdefault data (VStr name) x) st1 = (Ok tt, st') ->
             exists ddn', document_at st' l c a dn ddn' /\
                          forall key v, assoc key ddn = Some v -> assoc key ddn' = Some v).
  { intros st1 x Hdoc1. pose proof Hdoc1 as (Hl1 & _ & Hd1).
    unfold py_setdefault. mgo. unfold assoc_mem.
    destruct (assoc (VStr name) ddn) as [old |] eqn:Hold; mgo.
    - intros [= <-]. by exists ddn.
    - intros [= <-]. eexists. split; [by eapply document_at_store |].
      intros key v Hkey. by apply assoc_set_keeps_present. }
  assert (Halloc : forall o, document_at (mkState (heap st ++ [o]) (classes st) (db st))
                                         l c a dn ddn).
  { intros o. repeat split; cbn [heap]; try done; by apply lookup_app_l_Some. }
  unfold fill_default. rewrite bind_unfold.
  destruct (load_field fl st) as [[f | e] s0] eqn:E;
    apply reads_load_field in E as ->; [| discriminate].
  destruct (f_default f) as [| v | p].
  - intros [= <-]. by exists ddn.
  - destruct v as [| | | | | lv |]; try (by apply Hset); [intros [= <-]; by exists ddn |].
    rewrite bind_unfold. unfold py_copy. rewrite bind_unfold. unfold load at 1.
    destruct (heap st !! lv) as [o |]; [| discriminate].
    mred. unfold alloc. mred. by apply Hset.
  - rewrite bind_unfold. unfold alloc at 1. mred. by apply Hset.
Qed.

Lemma fill_defaults_keep (l : loc) (c : cid) (a : attrs) (dn : loc)
      (fields : list (string * loc)) :
  forall st ddn st',
    document_at st l c a dn ddn ->
    for_each fields (fun nf => fill_default (VLoc l) nf.1 nf.2) st = (Ok tt, st') ->
    exists ddn', document_at st' l c a dn ddn' /\
                 forall key v, assoc key ddn = Some v -> assoc key ddn' = Some v.
Proof.
  induction fields as [| [n fl] fields IH]; intros st ddn st' Hdoc; cbn [for_each].
  - intros [= <-]. by exists ddn.
  - rewrite bind_unfold. cbn [fst snd].
    destruct (fill_default (VLoc l) n fl st) as [[[] | e] st1] eqn:E; [| discriminate].
    destruct (fill_default_keeps _ _ _ _ _ _ _ _ _ Hdoc E) as (ddn1 & Hdoc1 & Hkeep1).
    intros Hrest. destruct (IH _ _ _ Hdoc1 Hrest) as (ddn' & Hdoc' & Hkeep').
    exists ddn'. split; [done |]. intros key v Hkey. by apply Hkeep', Hkeep1.
Qed.

Lemma bound_field_registered (s : state) (l : loc) (c c' : cid) (kw : attrs)
      (name : string) (fl : loc) (f : field) (h : list obj) :
  h !! fl = Some (OField f) ->
  bound_field s c' name fl f ->
  bound_field (mkState h (registered s l c kw) (db s)) c' name fl f.
Proof.
  intros Hh (k & Hk & Hmro & Hf & Hn). unfold registered.
  destruct (assoc "_id" kw) as [i |]; [| by exists k].
  destruct (classes s !! c) as [k0 |] eqn:Hk0; [| by exists k].
  destruct (hashable (heap s) i); [| by exists k].
  destruct (assoc_mem i (cls_cache k0)); [by exists k |].
  set (k1 := mkClass _ _ _ _ _).
  assert (Hm : forall mro, mro_lookup (<[c := k1]> (classes s)) name mro
                           = mro_lookup (classes s) name mro).
  { intros mro. by apply mro_lookup_same_dicts with (k := k0). }
  destruct (decide (c' = c)) as [-> |].
  - exists k1. cbn [classes heap]. split; [| split; [| done]].
    + apply list_lookup_insert_eq. by eapply lookup_lt_Some.
    + rewrite Hm. assert (k0 = k) as -> by congruence. done.
  - exists k. cbn [classes heap]. split; [| split; [| done]].
    + by rewrite list_lookup_insert_ne.
    + by rewrite Hm.
Qed.

(** A class called with raw fields that are fields of the class and no
    documents: where the call returns, the new instance is of the class
    and its store holds every raw field. *)
Lemma Document_new_builds (rd : loc -> value -> M value) (c : cid) (kw : attrs)
      (s : state) (r : value) (s' : state) :
  NoDup (map fst kw) ->
  Forall (fun kv => plain (heap s) kv.2 = true) kw ->
  Forall (fun kv => exists fl f, bound_field s c kv.1 fl f) kw ->
  Document_new rd c kw s = (Ok r, s') ->
  r = VLoc (length (heap s)) /\
  exists a dn ddn,
    document_at s' (length (heap s)) c a dn ddn /\
    forall name v, (name, v) ∈ kw -> assoc (VStr name) ddn = Some v.
Proof.
  intros Hnd Hp Hb. unfold Document_new. rewrite bind_unfold.
  destruct (get_class c s) as [[k | e] s0] eqn:Hk; [| discriminate].
  apply reads_get_class in Hk as ->. rewrite bind_unfold.
  unfold alloc at 1. cbv beta iota.
  set (l := length (heap s)).
  set (sa := mkState (heap s ++ [OInst c []]) (classes s) (db s)).
  assert (Hl : heap sa !! l = Some (OInst c [])).
  { cbn. rewrite lookup_app_r by done. by rewrite Nat.sub_diag. }
  rewrite bind_unfold.
  destruct (Document_init rd (VLoc l) kw sa) as [[[] | e] s1] eqn:Hi; [| discriminate].
  intros [= <- <-]. split; [done |].
  revert Hi. unfold Document_init. rewrite bind_unfold.
  unfold load_inst at 1. unfold load at 1. mred. unfold loc in *. rewrite Hl. mred.
  cbn [fst].
  match goal with
  | |- context [match ?m sa with _ => _ end] => destruct (m sa) as [[[] | e] s0] eqn:E
  end; [| discriminate].
  apply (init_registers _ _ _ _ _ _ _ Hl) in E. subst s0.
  rewrite bind_unfold. unfold alloc at 1. cbv beta iota. cbn [heap classes db].
  set (dn := length (heap sa)).
  assert (Hl2 : (heap sa ++ [ODict []])%list !! l = Some (OInst c []))
    by (by apply lookup_app_l_Some).
  assert (Hlt : l < dn) by (by eapply lookup_lt_Some).
  rewrite bind_unfold. unfold set_inst_attr, load_inst, load. mred. cbn [heap].
  unfold loc in *. rewrite Hl2. mred. unfold store. mred.
  cbn [fst snd assoc_set heap classes db]. fold dn.
  set (s2 := mkState _ _ _).
  assert (Hdoc2 : document_at s2 l c [("_data", VLoc dn)] dn []).
  { repeat split; cbn [heap s2].
    - apply list_lookup_insert_eq. by eapply lookup_lt_Some.
    - rewrite list_lookup_insert_ne by lia.
      unfold dn. rewrite lookup_app_r by done. by rewrite Nat.sub_diag. }
  assert (Hold : forall x o, heap s !! x = Some o -> heap s2 !! x = Some o).
  { intros x o Hx. cbn [heap s2].
    assert (x < l) by (by eapply lookup_lt_Some).
    rewrite list_lookup_insert_ne by lia.
    apply lookup_app_l_Some. unfold sa. cbn [heap]. by apply lookup_app_l_Some. }
  assert (Hp2 : Forall (fun kv => plain (heap s2) kv.2 = true) kw).
  { eapply Forall_impl; [exact Hp |]. intros [n v]. cbn [snd].
    destruct v as [| | | | | x |]; try done. unfold plain. unfold loc in *.
    destruct (heap s !! x) as [o |] eqn:Hx; [| done].
    pose proof (Hold _ _ Hx) as Hx2. unfold loc in *. by rewrite Hx2. }
  assert (Hb2 : Forall (fun kv => exists fl f, bound_field s2 c kv.1 fl f) kw).
  { eapply Forall_impl; [exact Hb |]. intros [n v] (fl & f & Hbf). cbn [fst] in *.
    exists fl, f.
    assert (Hfl : heap s !! fl = Some (OField f)) by (by destruct Hbf as (? & _ & _ & ? & _)).
    pose proof (bound_field_registered sa l c c kw n fl f (heap s2) (Hold _ _ Hfl)) as Hreg.
    apply Hreg. destruct Hbf as (k0 & Hk0 & Hmro & _ & Hn). exists k0.
    repeat split; try done. cbn [heap sa]. by apply lookup_app_l_Some. }
  destruct (for_each kw (fun kv => set_attr rd (VLoc l) kv.1 kv.2) s2)
    as [[[] | e] s3] eqn:Eset; [| discriminate].
  destruct (set_attrs_store rd l c _ dn kw Hnd s2 [] s3 Hdoc2 Hp2 Hb2 Eset)
    as (dd3 & Hdoc3 & _ & Hin & _).
  rewrite bind_unfold.
  destruct (Document_fields (VLoc l) s3) as [[fields | e] s0] eqn:Ef;
    apply reads_Document_fields in Ef as ->; [| discriminate].
  intros Hfill.
  destruct (fill_defaults_keep _ _ _ _ _ _ _ _ Hdoc3 Hfill) as (dd4 & Hdoc4 & Hkeep).
  exists [("_data", VLoc dn)], dn, dd4. split; [done |].
  intros name v Hnv. by apply Hkeep, Hin.
Qed.

(** C1.  Materialisation through [find_one] is a fetch followed by one
    turn of the loop of [generate_objects], which [find] runs for every
    document of its cursor, in order; every instance [find] returns is
    the one the cache of the requesting class then holds under the
    identity of its document.  In a turn, when the identity of the
    fetched document is a key of the cache of the requesting class, the
    cached instance is returned with its [_data] rebound to the fetched
    dict, nothing else being touched, so every reference to the instance
    sees the new store; otherwise the class is called with the raw fields
    and the new instance, of the requesting class, holds every raw field
    in its store.  Hence the loads of a sequence of loads through the
    cache of one class, of documents with one stored identity, all return
    the same location, whatever the program does in between that leaves
    the entry of the cache alone. *)
Theorem loads_share_one_instance :
  forall (rd : loc -> value -> M value) (c : cid),
    (forall spec,
        Document_find_one rd c true spec =
        (col ← Document_collection c;
         doc ← Storage.col_find_one col spec;
         generate_object rd c doc)) /\
    (forall spec,
        Document_find rd c true spec =
        (col ← Document_collection c;
         cursor ← Storage.col_find col spec;
         map_each cursor (fun raw => doc ← Storage.decode_doc raw; generate_object rd c doc))) /\
    (forall spec s col q found s',
        Document_collection c s = (Ok col, s) ->
        Storage.encode_query spec s = (Ok q, s) ->
        Forall (fun doc => exists o, assoc "_id" doc = Some (ROid o))
               (Storage.db_find (db s) col q) ->
        Document_find rd c true spec s = (Ok found, s') ->
        length found = length (Storage.db_find (db s) col q) /\
        forall n doc o,
          Storage.db_find (db s) col q !! n = Some doc ->
          assoc "_id" doc = Some (ROid o) ->
          exists l, found !! n = Some (VLoc l) /\ cache_at s' c (VOid o) = Some l) /\
    (forall s d dd i k,
        heap s !! d = Some (ODict dd) ->
        assoc (VStr "_id") dd = Some i ->
        classes s !! c = Some k ->
        hashable (heap s) i = true ->
        (forall l cl al,
            assoc i (cls_cache k) = Some l ->
            heap s !! l = Some (OInst cl al) ->
            binds s cl "data" CPropData ->
            generate_object rd c (VLoc d) s =
            (Ok (VLoc l),
             mkState (<[l := OInst cl (assoc_set "_data" (VLoc d) al)]> (heap s))
                     (classes s) (db s))) /\
        (assoc i (cls_cache k) = None ->
         generate_object rd c (VLoc d) s =
           (kw ← kwargs_of (VLoc d); Document_new rd c kw) s /\
         (forall r s',
             Forall (fun kv => plain (heap s) kv.2 = true) dd ->
             generate_object rd c (VLoc d) s = (Ok r, s') ->
             r = VLoc (length (heap s)) /\
             exists a, heap s' !! length (heap s) = Some (OInst c a)) /\
         (forall r s',
             Forall (fun kv => plain (heap s) kv.2 = true) dd ->
             NoDup (map fst dd) ->
             (forall name v, (VStr name, v) ∈ dd -> exists fl f, bound_field s c name fl f) ->
             generate_object rd c (VLoc d) s = (Ok r, s') ->
             exists a dn ddn,
               document_at s' (length (heap s)) c a dn ddn /\
               forall key v, (key, v) ∈ dd -> assoc key ddn = Some v))) /\
    (forall o s rs s',
        loads_of rd c o s rs s' ->
        forall r r', r ∈ rs -> r' ∈ rs -> r = r').
Proof.
  intros rd c. split; [reflexivity |]. split; [reflexivity |]. split; [| split].
  - intros spec s col q found s' Hcol Hq Hall. rewrite (find_generate _ _ _ _ _ _ Hcol Hq).
    intros Hfind.
    destruct (generate_objects_each _ _ _ _ _ _ Hall Hfind) as (Hlen & _ & Heach).
    by split.
  - intros s d dd i k Hd Hi Hk Hh. split.
    + intros l cl al Hc Hl Hdata. by eapply generate_object_hit_state.
    + intros Hc. split; [by eapply generate_object_miss |]. split.
      * intros r s' Hp. rewrite (generate_object_miss _ _ _ _ _ _ _ Hd Hi Hk Hc Hh).
        rewrite bind_unfold.
        destruct (kwargs_of (VLoc d) s) as [[kw | e] s0] eqn:Hkw; [| discriminate].
        pose proof (kwargs_of_dict _ _ _ _ _ Hd Hkw) as Hdd.
        apply reads_kwargs_of in Hkw as ->. intros Hnew.
        assert (Hpkw : Forall (fun kv => plain (heap s) kv.2 = true) kw).
        { rewrite Hdd in Hp. by apply Forall_fmap in Hp. }
        destruct (Document_new_plain _ _ _ _ _ _ Hpkw Hnew) as (-> & (_ & _ & Hheap) & _).
        split; [done |].
        destruct (Hheap (length (heap s)) (OInst c [])) as ([| | c' a |] & Hl' & Hkind);
          try done.
        -- cbn. rewrite lookup_app_r by done. by rewrite Nat.sub_diag.
        -- cbn in Hkind. subst c'. by exists a.
      * intros r s' Hp Hnd Hb. rewrite (generate_object_miss _ _ _ _ _ _ _ Hd Hi Hk Hc Hh).
        rewrite bind_unfold.
        destruct (kwargs_of (VLoc d) s) as [[kw | e] s0] eqn:Hkw; [| discriminate].
        pose proof (kwargs_of_dict _ _ _ _ _ Hd Hkw) as Hdd.
        apply reads_kwargs_of in Hkw as ->. intros Hnew. subst dd.
        assert (Hpkw : Forall (fun kv => plain (heap s) kv.2 = true) kw)
          by (by apply Forall_fmap in Hp).
        assert (Hndkw : NoDup (map fst kw)).
        { rewrite map_map in Hnd. cbn [fst] in Hnd.
          rewrite <- (map_map fst VStr) in Hnd.
          apply (NoDup_fmap_1 VStr). exact Hnd. }
        assert (Hbkw : Forall (fun kv => exists fl f, bound_field s c kv.1 fl f) kw).
        { apply Forall_forall. intros [n v] Hin. apply (Hb n v).
          apply list_elem_of_fmap. by exists (n, v). }
        destruct (Document_new_builds _ _ _ _ _ _ Hndkw Hpkw Hbkw Hnew)
          as (_ & a & dn & ddn & Hdoc & Hall).
        exists a, dn, ddn. split; [done |].
        intros key v Hin. apply list_elem_of_fmap in Hin as ([n v0] & [= -> ->] & Hin).
        by apply Hall.
  - intros o s rs s' Hloads r r' Hr Hr'.
    destruct (loads_of_same _ _ _ _ _ _ Hloads) as (l & Hall).
    rewrite Forall_forall in Hall. by rewrite (Hall r Hr), (Hall r' Hr').
Qed.

Lemma loads_share_one_instance_witness :
  exists s rs s2,
    Examples.stored_user empty_state = (Ok 1, s) /\
    loads_of Examples.read 1 7 s rs s2 /\
    rs = [VLoc 8; VLoc 8; VLoc 8] /\
    forall r r', r ∈ rs -> r' ∈ rs -> r = r'.
Proof.
  pose (s := snd (Examples.stored_user empty_state)).
  assert (Hloads : exists rs s2,
             loads_of Examples.read 1 7 s rs s2 /\ rs = [VLoc 8; VLoc 8; VLoc 8]).
  { eexists _, _. split.
    - eapply (loads_find_one _ _ _ s _ _ [("name", VStr "alice")] "User").
      + vm_compute; reflexivity.
      + vm_compute; reflexivity.
      + vm_compute; reflexivity.
      + vm_compute; reflexivity.
      + vm_compute; reflexivity.
      + eapply loads_other; [intros l Hl; exact Hl |].
        eapply (loads_find _ _ _ _ _ _ [("_id", VOid 7)] "User").
        * vm_compute; reflexivity.
        * vm_compute; reflexivity.
        * match goal with
          | |- Forall _ ?docs => let docs' := eval vm_compute in docs in change docs with docs'
          end.
          repeat constructor.
        * vm_compute; reflexivity.
        * eapply (loads_dereference _ _ _ _ _ _ 1 "User" "User").
          -- vm_compute; reflexivity.
          -- vm_compute; reflexivity.
          -- vm_compute; reflexivity.
          -- vm_compute; reflexivity.
          -- vm_compute; reflexivity.
          -- apply loads_nil.
    - reflexivity. }
  destruct Hloads as (rs & s2 & Hloads & Hrs).
  exists s, rs, s2. split; [vm_compute; reflexivity |]. split; [exact Hloads |].
  split; [exact Hrs |].
  destruct (loads_share_one_instance Examples.read 1) as (_ & _ & _ & _ & Hsame).
  exact (Hsame 7%N s rs s2 Hloads).
Defined.

(** C1 as the claim has it, for loads through any class: the caches are
    kept by class, so two classes that read one collection each build an
    instance of their own for one stored document.  [Animal.find_one] and
    [Dog.find_one] both fetch the stored dog, and the two instances they
    return are both registered, each in the cache of its class. *)
Lemma loads_through_two_classes_differ :
  exists s s1 s2 doc,
    Examples.kennel empty_state = (Ok (1, 2), s) /\
    Storage.db_find_one (db s) "animals" [("_id", ROid 3)] = Some doc /\
    Storage.db_find_one (db s1) "animals" [("_id", ROid 3)] = Some doc /\
    assoc "_id" doc = Some (ROid 3) /\
    Document_find_one Examples.read 1 true [("_id", VOid 3)] s = (Ok (VLoc 7), s1) /\
    Document_find_one Examples.read 2 true [("_id", VOid 3)] s1 = (Ok (VLoc 10), s2) /\
    VLoc 7 <> VLoc 10 /\
    cache_at s2 1 (VOid 3) = Some 7 /\
    cache_at s2 2 (VOid 3) = Some 10.
Proof.
  destruct (Examples.kennel empty_state) as [r0 s] eqn:Es.
  vm_compute in Es. injection Es as <- <-.
  match goal with
  | |- exists _ _ _ _, (_, ?st) = _ /\ _ =>
    exists st;
    destruct (Document_find_one Examples.read 1 true [("_id", VOid 3)] st)
      as [r1 s1] eqn:E1
  end.
  vm_compute in E1. injection E1 as <- <-.
  match goal with
  | |- exists _ _ _, _ /\ _ /\ _ /\ _ /\ (_, ?st1) = _ /\ _ =>
    exists st1;
    destruct (Document_find_one Examples.read 2 true [("_id", VOid 3)] st1)
      as [r2 s2] eqn:E2
  end.
  vm_compute in E2. injection E2 as <- <-.
  eexists _, [("_type", RStr "Dog"); ("_id", ROid 3)].
  repeat split; try (vm_compute; reflexivity). discriminate.
Qed.

Lemma generate_object_new_instance (rd : loc -> value -> M value) (s s' : state)
      (c : cid) (k : class) (d : loc) (dd : dict) (i r : value) :
  heap s !! d = Some (ODict dd) ->
  Forall (fun kv => plain (heap s) kv.2 = true) dd ->
  assoc (VStr "_id") dd = Some i ->
  classes s !! c = Some k ->
  assoc i (cls_cache k) = None ->
  generate_object rd c (VLoc d) s = (Ok r, s') ->
  r = VLoc (length (heap s)) /\
  exists a, heap s' !! length (heap s) = Some (OInst c a).
Proof.
  intros Hd Hp Hi Hk Hc Hg.
  destruct (hashable (heap s) i) eqn:Hh.
  2: { revert Hg. unfold generate_object.
       rewrite bind_unfold, (getitem_dict _ _ _ _ _ Hd Hi). cbv beta iota.
       unfold in_cache, get_class, check_hashable. mred. rewrite Hk. mred.
       rewrite Hh. discriminate. }
  rewrite (generate_object_miss _ _ _ _ _ _ _ Hd Hi Hk Hc Hh) in Hg.
  rewrite bind_unfold in Hg.
  destruct (kwargs_of (VLoc d) s) as [[kw | e] s0] eqn:Hkw; [| discriminate].
  pose proof (kwargs_of_dict _ _ _ _ _ Hd Hkw) as Hdd.
  apply reads_kwargs_of in Hkw as ->.
  assert (Hpkw : Forall (fun kv => plain (heap s) kv.2 = true) kw).
  { rewrite Hdd in Hp. by apply Forall_fmap in Hp. }
  destruct (Document_new_plain _ _ _ _ _ _ Hpkw Hg) as (-> & (_ & _ & Hheap) & _).
  split; [done |].
  destruct (Hheap (length (heap s)) (OInst c [])) as ([| | c' a |] & Hl' & Hkind);
    try done.
  - cbn. rewrite lookup_app_r by done. by rewrite Nat.sub_diag.
  - cbn in Hkind. subst c'. by exists a.
Qed.

(** ** Polymorphic dereference *)

(** C2.  [Document.dereference] through a requesting class, of a
    reference to a stored document: the class it settles on is the
    requesting class when the type tag of the document is the name of the
    requesting class; otherwise it is a subclass of the requesting class,
    at any depth, whose name is the tag, and the requesting class when no
    subclass has that name.  The fetched document then goes through one
    turn of the loop of [generate_objects] for that class: when the cache
    of that class holds the identity, the cached instance is returned,
    with its store rebound to the fetched fields (its class leaving the
    [data] property in place); otherwise the result is a new instance of
    that class, a subclass named by the tag and not the requesting class,
    and the cache of that class holds it afterwards. *)
Theorem dereference_dispatches_on_the_type_tag :
  forall (rd : loc -> value -> M value) (c : cid) (coll tag : string) (o : N)
         (doc : rdoc) (s : state) (k : class),
    Storage.db_dereference (db s) coll (ROid o) = Some doc ->
    assoc "_id" doc = Some (ROid o) ->
    assoc "_type" doc = Some (RStr tag) ->
    classes s !! c = Some k ->
    let dt := resolve_type (classes s) c (VStr tag) in
    (tag = cls_name k -> dt = c) /\
    (tag <> cls_name k ->
     (dt = c /\
      forall subc k', subc ∈ subclasses (classes s) c ->
                      classes s !! subc = Some k' -> cls_name k' <> tag) \/
     (dt ∈ subclasses (classes s) c /\
      exists k', classes s !! dt = Some k' /\ cls_name k' = tag /\ c ∈ cls_mro k')) /\
    (exists d dd sd,
        Storage.dereference (VDBRef coll (VOid o)) s = (Ok (VLoc d), sd) /\
        heap sd !! d = Some (ODict dd) /\
        Document_dereference rd c (VDBRef coll (VOid o)) s
        = generate_object rd dt (VLoc d) sd) /\
    (forall r s',
        Document_dereference rd c (VDBRef coll (VOid o)) s = (Ok r, s') ->
        exists l, r = VLoc l /\ cache_at s' dt (VOid o) = Some l /\
                  (forall l0, cache_at s dt (VOid o) = Some l0 -> l = l0) /\
                  (cache_at s dt (VOid o) = None ->
                   heap s !! l = None /\ exists a, heap s' !! l = Some (OInst dt a))) /\
    (forall l0 cl al,
        cache_at s dt (VOid o) = Some l0 ->
        heap s !! l0 = Some (OInst cl al) ->
        binds s cl "data" CPropData ->
        exists s' al' d dd,
          Document_dereference rd c (VDBRef coll (VOid o)) s = (Ok (VLoc l0), s') /\
          heap s' !! l0 = Some (OInst cl (assoc_set "_data" (VLoc d) al')) /\
          heap s' !! d = Some (ODict dd) /\
          forall key r v, assoc key doc = Some r -> scalar_value r = Some v ->
                          assoc (VStr key) dd = Some v).
Proof.
  intros rd c coll tag o doc s k Hdb Hid Htag Hk dt.
  destruct (decode_doc_spec doc s) as (d & dd & sd & Hd & He & Hl & Hp & Hi).
  assert (Hf : Storage.dereference (VDBRef coll (VOid o)) s = (Ok (VLoc d), sd)).
  { unfold Storage.dereference, Storage.encode_value. mred. cbn [Storage.encode]. mred.
    by rewrite Hdb. }
  pose proof (Hi _ _ _ Hid eq_refl) as Hid'. pose proof (Hi _ _ _ Htag eq_refl) as Htag'.
  cbn [scalar_value] in Hid', Htag'.
  pose proof He as (Hcs & _ & Hheap).
  assert (Hk' : classes sd !! c = Some k) by (by rewrite Hcs).
  pose proof (dereference_unfold rd c coll (VOid o) s sd d dd (VStr tag) k
                Hf Hl Htag' Hid' Hk') as Hu.
  rewrite Hcs in Hu. fold dt in Hu.
  split; [| split; [| split; [| split]]].
  - intros ->. unfold dt, resolve_type. rewrite Hk. by rewrite decide_True.
  - intros Hne. assert (Hne' : VStr tag <> VStr (cls_name k)) by congruence.
    unfold dt. rewrite (resolve_type_fold _ _ _ _ Hk Hne').
    destruct (fold_last_named (classes s) (VStr tag) (subclasses (classes s) c) c)
      as [[Hp0 Hall] | [Hin (k' & Hk0 & Hn)]].
    + left. split; [exact Hp0 |]. intros subc k' Hs Hk0 Heq.
      rewrite Forall_forall in Hall. apply (Hall subc Hs k' Hk0). by rewrite Heq.
    + right. split; [exact Hin |]. exists k'. split; [exact Hk0 |].
      split; [by injection Hn |].
      apply subclasses_spec in Hin as (_ & k1 & Hk1 & Hm).
      unfold cid in *. rewrite Hk0 in Hk1. by injection Hk1 as <-.
  - by exists d, dd, sd.
  - intros r s' Hr. rewrite Hu in Hr.
    destruct (generate_object_caches _ _ _ _ _ _ _ _ Hl Hp Hid' Hr)
      as (l & k2 & -> & Hk2 & Hc2 & _).
    exists l. split; [done |]. split; [unfold cache_at; by rewrite Hk2 |].
    unfold cache_at. rewrite <- Hcs.
    destruct (classes sd !! dt) as [kt |] eqn:Hkt.
    2: { revert Hr. unfold generate_object.
         rewrite bind_unfold, (getitem_dict _ _ _ _ _ Hl Hid'). cbv beta iota.
         unfold in_cache, get_class. mred. rewrite Hkt. discriminate. }
    split.
    + intros l0 Hc0.
      destruct (generate_object_cached _ _ _ _ _ _ _ _ _ _ Hl Hid' Hkt Hc0 Hr) as (Heq & _).
      by injection Heq.
    + intros Hnone.
      destruct (generate_object_new_instance _ _ _ _ _ _ _ _ _ Hl Hp Hid' Hkt Hnone Hr)
        as (Heq & a & Ha).
      injection Heq as ->. split; [| by exists a].
      destruct (heap s !! length (heap sd)) as [x |] eqn:Hx; [| done].
      destruct (Hheap _ _ Hx) as (x' & Hx' & _).
      apply lookup_lt_Some in Hx'. lia.
  - intros l0 cl al Hc0 Hl0 (kl & Hkl & Hdata).
    unfold cache_at in Hc0. rewrite <- Hcs in Hc0.
    destruct (classes sd !! dt) as [kt |] eqn:Hkt; [| done].
    destruct (Hheap _ _ Hl0) as ([| | cl' al' |] & Hl0' & Hkind); try done.
    cbn in Hkind. subst cl'.
    assert (Hb : binds sd cl "data" CPropData) by (exists kl; by rewrite Hcs).
    pose proof (generate_object_hit_state rd sd dt cl kt d l0 dd al' (VOid o)
                  Hl Hid' Hkt eq_refl Hc0 Hl0' Hb) as Hg.
    eexists _, al', d, dd. split; [by rewrite Hu |]. cbn [heap].
    split; [apply list_lookup_insert_eq; by eapply lookup_lt_Some |].
    split; [| exact Hi].
    rewrite list_lookup_insert_ne; [exact Hl |].
    intros <-. unfold loc in *. rewrite Hl in Hl0'. discriminate.
Qed.

Lemma dereference_dispatches_on_the_type_tag_witness :
  exists s r s' l a,
    Examples.stored_dog empty_state = (Ok (1, 2), s) /\
    Document_dereference Examples.read 1 (VDBRef "Animal" (VOid 3)) s = (Ok r, s') /\
    r = VLoc l /\ heap s' !! l = Some (OInst 2 a) /\ cache_at s' 2 (VOid 3) = Some l.
Proof.
  destruct (Examples.stored_dog empty_state) as [r0 s] eqn:Es.
  vm_compute in Es. injection Es as <- <-.
  match goal with
  | |- exists _ _ _ _ _, (_, ?st) = _ /\ _ =>
    assert (Er : exists r s', Document_dereference Examples.read 1
                                (VDBRef "Animal" (VOid 3)) st = (Ok r, s'))
      by (eexists _, _; vm_compute; reflexivity);
    destruct Er as (r & s' & Er);
    pose proof (dereference_dispatches_on_the_type_tag Examples.read 1 "Animal" "Dog" 3
                  [("_type", RStr "Dog"); ("_id", ROid 3)] st
                  (mkClass "Animal" [1; 0]
                     [("_type", CVal (VLoc 2)); ("_id", CVal (VLoc 3));
                      ("__init__", CMethod)] None [])) as H
  end.
  do 4 (lapply H; [clear H; intros H | vm_compute; reflexivity]).
  cbv zeta in H. destruct H as (_ & _ & _ & Hres & _).
  destruct (Hres r s' Er) as (l & Hr & Hc & _ & Hnew).
  lapply Hnew; [clear Hnew; intros (_ & a & Ha) | vm_compute; reflexivity].
  eexists _, r, s', l, a. split; [reflexivity |]. split; [exact Er |].
  split; [exact Hr |]. split.
  - revert Ha. vm_compute. exact (fun x => x).
  - revert Hc. vm_compute. exact (fun x => x).
Defined.

(** X1.  [Document.dereference] fetches the document of the reference and
    settles on a class by its type tag: the requesting class when the tag
    is its name; otherwise a subclass of the requesting class that carries
    the tag as its name, or the requesting class when no subclass does.
    It then materialises the fetched document through that class the way
    [generate_objects] does: the instance cached under the identity when
    there is one, a new instance of that class otherwise. *)
Theorem dereference_resolves_concrete_type :
  forall (rd : loc -> value -> M value) (c : cid) (coll : string) (i : value)
         (s sd : state) (d : loc) (dd : dict) (tag : value) (k : class),
    Storage.dereference (VDBRef coll i) s = (Ok (VLoc d), sd) ->
    heap sd !! d = Some (ODict dd) ->
    assoc (VStr "_type") dd = Some tag ->
    assoc (VStr "_id") dd = Some i ->
    classes sd !! c = Some k ->
    let dt := resolve_type (classes sd) c tag in
    Document_dereference rd c (VDBRef coll i) s = generate_object rd dt (VLoc d) sd /\
    (tag = VStr (cls_name k) -> dt = c) /\
    (tag <> VStr (cls_name k) ->
     (dt = c /\
      forall subc k', subc ∈ subclasses (classes sd) c ->
                      classes sd !! subc = Some k' -> tag <> VStr (cls_name k')) \/
     (dt <> c /\
      exists k', classes sd !! dt = Some k' /\ tag = VStr (cls_name k') /\
                 c ∈ cls_mro k')) /\
    (forall kt l r s',
        classes sd !! dt = Some kt ->
        assoc i (cls_cache kt) = Some l ->
        Document_dereference rd c (VDBRef coll i) s = (Ok r, s') ->
        r = VLoc l) /\
    (forall kt r s',
        classes sd !! dt = Some kt ->
        assoc i (cls_cache kt) = None ->
        Forall (fun kv => plain (heap sd) kv.2 = true) dd ->
        Document_dereference rd c (VDBRef coll i) s = (Ok r, s') ->
        r = VLoc (length (heap sd)) /\
        exists a, heap s' !! length (heap sd) = Some (OInst dt a)).
Proof.
  intros rd c coll i s sd d dd tag k Hf Hd Ht Hi Hk dt.
  pose proof (dereference_unfold rd c coll i s sd d dd tag k Hf Hd Ht Hi Hk) as Hu.
  fold dt in Hu. split; [exact Hu |]. split; [| split; [| split]].
  - intros ->. unfold dt, resolve_type. rewrite Hk. by rewrite decide_True.
  - intros Hne. unfold dt. rewrite (resolve_type_fold _ _ _ _ Hk Hne).
    destruct (fold_last_named (classes sd) tag (subclasses (classes sd) c) c)
      as [[Hp Hall] | [Hin (k' & Hk' & Hn)]].
    + left. split; [exact Hp |]. intros subc k' Hs Hk'.
      rewrite Forall_forall in Hall. by apply (Hall subc Hs).
    + right. apply subclasses_spec in Hin as (Hnc & k0 & Hk0 & Hm).
      split; [exact Hnc |]. exists k'. split; [exact Hk' |]. split; [exact Hn |].
      unfold cid in *. rewrite Hk' in Hk0. by injection Hk0 as <-.
  - intros kt l r s' Hkt Hc Hr. rewrite Hu in Hr.
    by destruct (generate_object_cached rd sd s' dt kt d l dd i r Hd Hi Hkt Hc Hr).
  - intros kt r s' Hkt Hc Hp Hr. rewrite Hu in Hr.
    exact (generate_object_new_instance rd sd s' dt kt d dd i r Hd Hp Hi Hkt Hc Hr).
Qed.

Lemma dereference_resolves_concrete_type_witness :
  exists s r s' a,
    Examples.stored_dog empty_state = (Ok (1, 2), s) /\
    Document_dereference Examples.read 1 (VDBRef "Animal" (VOid 3)) s = (Ok r, s') /\
    r = VLoc 7 /\ heap s' !! 7 = Some (OInst 2 a).
Proof.
  destruct (Examples.stored_dog empty_state) as [r0 s] eqn:Es.
  vm_compute in Es. injection Es as <- <-.
  match goal with
  | |- exists _ _ _ _, (_, ?st) = _ /\ _ =>
    assert (Ed : exists sd, Storage.dereference (VDBRef "Animal" (VOid 3)) st
                            = (Ok (VLoc 6), sd) /\
                            heap sd !! 6 = Some (ODict [(VStr "_type", VStr "Dog");
                                                        (VStr "_id", VOid 3)]) /\
                            length (heap sd) = 7 /\ classes sd = classes st)
      by (eexists; split; [vm_compute; reflexivity | repeat split]);
    assert (Er : exists r s', Document_dereference Examples.read 1
                                (VDBRef "Animal" (VOid 3)) st = (Ok r, s'))
      by (eexists _, _; vm_compute; reflexivity);
    destruct Ed as (sd & Ed & Hd & Hlen & Hcs); destruct Er as (r & s' & Er);
    pose proof (dereference_resolves_concrete_type Examples.read 1 "Animal" (VOid 3)
                  st sd 6 [(VStr "_type", VStr "Dog"); (VStr "_id", VOid 3)]
                  (VStr "Dog")
                  (mkClass "Animal" [1; 0]
                     [("_type", CVal (VLoc 2)); ("_id", CVal (VLoc 3));
                      ("__init__", CMethod)] None []) Ed Hd) as H
  end.
  do 2 (lapply H; [clear H; intros H | vm_compute; reflexivity]).
  lapply H; [clear H; intros H | rewrite Hcs; vm_compute; reflexivity].
  cbv zeta in H. destruct H as (_ & _ & _ & _ & Hnew).
  specialize (Hnew (mkClass "Dog" [2; 1; 0]
                     [("_type", CVal (VLoc 4)); ("_id", CVal (VLoc 5));
                      ("__init__", CMethod)] None []) r s').
  rewrite Hcs, Hlen in Hnew.
  lapply Hnew; [clear Hnew; intros Hnew | vm_compute; reflexivity].
  lapply Hnew; [clear Hnew; intros Hnew | vm_compute; reflexivity].
  lapply Hnew; [clear Hnew; intros Hnew | repeat constructor].
  specialize (Hnew Er). destruct Hnew as (Hr & a & Ha).
  eexists _, r, s', a. split; [reflexivity |]. split; [exact Er |].
  split; [exact Hr |]. revert Ha. vm_compute. exact (fun x => x).
Defined.

(** ** Registration at construction *)

Lemma passive_plain (h : list obj) (v : value) :
  passive h v = true -> plain h v = true.
Proof.
  destruct v; try done. unfold passive, plain.
  by destruct (h !! l) as [[| | |] |].
Qed.

(** C4.  Calling a document class with an [_id] argument (the arguments
    being values that are not documents) returns a new object, and the
    cache of the class holds the new object under that identity afterwards
    only when the identity was not yet a key of the cache.  When the cache
    already holds an instance under the identity, it holds that same
    instance afterwards, which is not the new object: the new object is
    not registered.  The other entries of the cache are as they were. *)
Theorem construction_registers_absent_identities_only :
  forall (rd : loc -> value -> M value) (s s' : state) (c : cid) (kw : attrs)
         (i r : value),
    Forall (fun kv => plain (heap s) kv.2 = true) kw ->
    assoc "_id" kw = Some i ->
    Document_new rd c kw s = (Ok r, s') ->
    r = VLoc (length (heap s)) /\
    (cache_at s c i = None -> cache_at s' c i = Some (length (heap s))) /\
    (forall l, cache_at s c i = Some l -> cache_at s' c i = Some l) /\
    (forall l x, cache_at s c i = Some l -> heap s !! l = Some x -> r <> VLoc l) /\
    (forall j, j <> i -> cache_at s' c j = cache_at s c j).
Proof.
  intros rd s s' c kw i r Hp Hi Hn.
  destruct (Document_new_plain rd s s' c kw r Hp Hn) as (Hv & (Hcs & _ & _) & Hh).
  destruct (Hh i Hi) as (k & Hk & Hhash).
  cbn [heap classes db] in *. unfold registered in Hcs. cbn [heap classes db] in Hcs.
  rewrite Hi, Hk, Hhash in Hcs. unfold assoc_mem in Hcs.
  unfold cache_at. rewrite Hcs, Hk.
  split; [exact Hv |]. split; [| split; [| split]].
  - intros Hnone. rewrite Hnone.
    rewrite list_lookup_insert_eq by (by eapply lookup_lt_Some).
    cbn. apply assoc_set_eq.
  - intros l Hl. rewrite Hl. by rewrite Hk.
  - intros l x _ Hx Heq. rewrite Hv in Heq. injection Heq as <-.
    apply lookup_lt_Some in Hx. lia.
  - intros j Hj. destruct (assoc i (cls_cache k)); [by rewrite Hk |].
    rewrite list_lookup_insert_eq by (by eapply lookup_lt_Some).
    cbn. by apply assoc_set_ne.
Qed.

Lemma construction_registers_absent_identities_only_witness :
  exists s a s' b,
    Examples.ann empty_state = (Ok (1, VLoc a), s) /\
    cache_at s 1 (VOid 7) = Some a /\
    Document_new Examples.read 1 [("name", VStr "bob"); ("_id", VOid 7)] s
    = (Ok (VLoc b), s') /\
    cache_at s' 1 (VOid 7) = Some a /\ VLoc b <> VLoc a.
Proof.
  destruct (Examples.ann empty_state) as [r0 s] eqn:Es.
  vm_compute in Es. injection Es as <- <-.
  match goal with
  | |- exists _ _ _ _, (_, ?st) = _ /\ _ =>
    assert (En : exists b s', Document_new Examples.read 1
                                [("name", VStr "bob"); ("_id", VOid 7)] st
                              = (Ok (VLoc b), s'))
      by (eexists _, _; vm_compute; reflexivity);
    destruct En as (b & s' & En);
    pose proof (construction_registers_absent_identities_only Examples.read st s' 1
                  [("name", VStr "bob"); ("_id", VOid 7)] (VOid 7) (VLoc b)) as H
  end.
  lapply H; [clear H; intros H | repeat constructor].
  lapply H; [clear H; intros H | vm_compute; reflexivity].
  specialize (H En). destruct H as (_ & _ & Hkeep & Hnot & _).
  eexists _, 6, s', b. split; [reflexivity |].
  split; [vm_compute; reflexivity |]. split; [exact En |]. split.
  - apply Hkeep. vm_compute. reflexivity.
  - eapply Hnot; vm_compute; reflexivity.
Defined.

(** The instance the claim has registered is not: of two users
    constructed under one identity, the cache holds the first. *)
Lemma second_instance_is_not_registered :
  exists s a b,
    Examples.twins empty_state = (Ok (VLoc a, VLoc b), s) /\
    a <> b /\
    cache_at s 1 (VOid 7) = Some a /\
    Document_get_cache 1 (VOid 7) s = (Ok (VLoc a), s).
Proof.
  destruct (Examples.twins empty_state) as [r0 s] eqn:Es.
  vm_compute in Es. injection Es as <- <-.
  eexists _, _, _. split; [reflexivity |]. split; [discriminate |].
  split; vm_compute; reflexivity.
Qed.

(** X2.  Calling a document class with an [_id] keyword (the arguments
    being scalars, references, lists and dicts) returns a new object, and
    it is registered in the
    identity cache of the class only when that identity is not yet a key
    of the cache; an identity the cache already holds keeps its entry.
    The caches of the other classes and the collections are untouched. *)
Theorem init_registers_only_new_identities :
  forall (rd : loc -> value -> M value) (s s' : state) (c : cid) (k : class)
         (kw : attrs) (i v : value),
    Forall (fun kv => passive (heap s) kv.2 = true) kw ->
    assoc "_id" kw = Some i ->
    classes s !! c = Some k ->
    Document_new rd c kw s = (Ok v, s') ->
    v = VLoc (length (heap s)) /\
    (exists k', classes s' !! c = Some k' /\
                cls_cache k' = (if assoc_mem i (cls_cache k) then cls_cache k
                                else assoc_set i (length (heap s)) (cls_cache k))) /\
    (forall c', c' <> c -> classes s' !! c' = classes s !! c') /\
    db s' = db s.
Proof.
  intros rd s s' c k kw i v Hpas Hi Hk Hn.
  assert (Hp : Forall (fun kv => plain (heap s) kv.2 = true) kw).
  { eapply Forall_impl; [exact Hpas |]. intros kv. apply passive_plain. }
  destruct (Document_new_plain rd s s' c kw v Hp Hn) as (Hv & (Hcs & Hdb & _) & Hh).
  destruct (Hh i Hi) as (k0 & Hk0 & Hhash).
  cbn [heap classes db] in *. unfold registered in Hcs. cbn [heap classes db] in Hcs.
  rewrite Hi, Hk, Hhash in Hcs.
  split; [exact Hv |]. split; [| split; [| exact Hdb]].
  - destruct (assoc_mem i (cls_cache k)).
    + exists k. by rewrite Hcs.
    + eexists. rewrite Hcs.
      split; [apply list_lookup_insert_eq; by eapply lookup_lt_Some | reflexivity].
  - intros c' Hc'. rewrite Hcs. destruct (assoc_mem i (cls_cache k)); [done |].
    by apply list_lookup_insert_ne.
Qed.

Lemma init_registers_only_new_identities_witness :
  exists s s' k',
    Examples.stored_user empty_state = (Ok 1, s) /\
    Document_new Examples.read 1 [("name", VStr "ann"); ("_id", VOid 7)] s
    = (Ok (VLoc 6), s') /\
    classes s' !! 1 = Some k' /\ cls_cache k' = [(VOid 7, 6)].
Proof.
  destruct (Examples.stored_user empty_state) as [r0 s] eqn:Es.
  vm_compute in Es. injection Es as <- <-.
  match goal with
  | |- exists _ _ _, (_, ?st) = _ /\ _ =>
    assert (En : exists s', Document_new Examples.read 1
                              [("name", VStr "ann"); ("_id", VOid 7)] st
                            = (Ok (VLoc 6), s'))
      by (eexists; vm_compute; reflexivity);
    destruct En as (s' & En);
    pose proof (init_registers_only_new_identities Examples.read st s' 1
                  (mkClass "User" [1; 0]
                     [("name", CVal (VLoc 2)); ("tags", CVal (VLoc 3));
                      ("_type", CVal (VLoc 4)); ("_id", CVal (VLoc 5));
                      ("__init__", CMethod)] None [])
                  [("name", VStr "ann"); ("_id", VOid 7)] (VOid 7) (VLoc 6)) as H
  end.
  lapply H; [clear H; intros H | repeat constructor].
  do 2 (lapply H; [clear H; intros H | vm_compute; reflexivity]).
  specialize (H En). destruct H as (_ & (k' & Hk' & Hc) & _).
  eexists _, s', k'. split; [reflexivity |]. split; [exact En |].
  split; [exact Hk' | exact Hc].
Defined.

(** ** Defaults *)




(** X3.  A default that is a value held in an object (a list, a dict) is
    copied with [copy.copy]: the document gets one new object whose items
    are the items of the default itself, so whatever the default nests is
    shared by every document built from it.  [setdefault] then binds the
    copy under the name unless the name is already a key of the data. *)
Theorem value_defaults_are_copied_one_level_deep :
  forall (s : state) (l d fl l0 : loc) (c : cid) (a : attrs) (dd : dict)
         (f : field) (nm : string) (o : obj),
    document_at s l c a d dd ->
    heap s !! fl = Some (OField f) ->
    f_default f = DValue (VLoc l0) ->
    heap s !! l0 = Some o ->
    let l1 := length (heap s) in
    l1 <> l0 /\
    fill_default (VLoc l) nm fl s =
    (Ok tt,
     mkState (if assoc_mem (VStr nm) dd then (heap s ++ [o])%list
              else <[d := ODict (assoc_set (VStr nm) (VLoc l1) dd)]> (heap s ++ [o])%list)
             (classes s) (db s)).
Proof.
  intros s l d fl l0 c a dd f nm o (Hl & Ha & Hd) Hf Hdef Ho l1.
  split.
  { apply lookup_lt_Some in Ho. unfold l1. lia. }
  unfold fill_default, py_copy, py_setdefault. mgo.
  assert (Hl' : (heap s ++ [o])%list !! l = Some (OInst c a)) by (by apply lookup_app_l_Some).
  assert (Hd' : (heap s ++ [o])%list !! d = Some (ODict dd)) by (by apply lookup_app_l_Some).
  mgo. by destruct (assoc_mem (VStr nm) dd).
Qed.

Lemma value_defaults_are_copied_one_level_deep_witness :
  exists s s',
    Examples.grid_under_construction empty_state = (Ok (4, 7, 8), s) /\
    fill_default (VLoc 7) "rows" 4 s = (Ok tt, s') /\
    heap s' !! 8 = Some (ODict [(VStr "rows", VLoc 9)]) /\
    heap s' !! 9 = Some (OList [VLoc 2]) /\
    heap s' !! 3 = Some (OList [VLoc 2]).
Proof.
  destruct (Examples.grid_under_construction empty_state) as [r0 s] eqn:Es.
  vm_compute in Es. injection Es as <- <-.
  match goal with
  | |- exists _ _, (_, ?st) = _ /\ _ =>
    pose proof (value_defaults_are_copied_one_level_deep st 7 8 4 3 1 [("_data", VLoc 8)] []
                  (mkField Field (VStr "rows") [TList] (DValue (VLoc 3)) false [] VNone)
                  "rows" (OList [VLoc 2])) as H
  end.
  lapply H; [clear H; intros H | repeat split; vm_compute; reflexivity].
  do 3 (lapply H; [clear H; intros H | vm_compute; reflexivity]).
  cbv zeta in H. destruct H as (_ & H).
  eexists _, _. split; [reflexivity |]. split; [exact H |].
  repeat split; vm_compute; reflexivity.
Defined.

(** X4.  A default that is a callable is called once per document: the
    document gets a new empty container, bound under the name unless the
    name is already a key of the data (the container is made all the
    same). *)
Theorem producer_defaults_are_called_per_document :
  forall (s : state) (l d fl : loc) (c : cid) (a : attrs) (dd : dict)
         (f : field) (nm : string) (p : producer),
    document_at s l c a d dd ->
    heap s !! fl = Some (OField f) ->
    f_default f = DCall p ->
    let l1 := length (heap s) in
    let fresh := match p with PList => OList [] | PDict => ODict [] end in
    fill_default (VLoc l) nm fl s =
    (Ok tt,
     mkState (if assoc_mem (VStr nm) dd then (heap s ++ [fresh])%list
              else <[d := ODict (assoc_set (VStr nm) (VLoc l1) dd)]> (heap s ++ [fresh])%list)
             (classes s) (db s)).
Proof.
  intros s l d fl c a dd f nm p (Hl & Ha & Hd) Hf Hdef l1 fresh.
  unfold fill_default, py_setdefault. mgo.
  fold fresh.
  assert (Hl' : (heap s ++ [fresh])%list !! l = Some (OInst c a))
    by (by apply lookup_app_l_Some).
  assert (Hd' : (heap s ++ [fresh])%list !! d = Some (ODict dd))
    by (by apply lookup_app_l_Some).
  mgo. by destruct (assoc_mem (VStr nm) dd).
Qed.

Lemma producer_defaults_are_called_per_document_witness :
  exists s s',
    Examples.bag_under_construction empty_state = (Ok (2, 5, 6), s) /\
    fill_default (VLoc 5) "items" 2 s = (Ok tt, s') /\
    heap s' !! 6 = Some (ODict [(VStr "items", VLoc 7)]) /\
    heap s' !! 7 = Some (OList []).
Proof.
  destruct (Examples.bag_under_construction empty_state) as [r0 s] eqn:Es.
  vm_compute in Es. injection Es as <- <-.
  match goal with
  | |- exists _ _, (_, ?st) = _ /\ _ =>
    pose proof (producer_defaults_are_called_per_document st 5 6 2 1 [("_data", VLoc 6)] []
                  (mkField ListField (VStr "items") [TInt] (DCall PList) false [] VNone)
                  "items" PList) as H
  end.
  lapply H; [clear H; intros H | repeat split; vm_compute; reflexivity].
  do 2 (lapply H; [clear H; intros H | vm_compute; reflexivity]).
  cbv zeta in H.
  eexists _, _. split; [reflexivity |]. split; [exact H |].
  repeat split; vm_compute; reflexivity.
Defined.

(** ** Reading and writing fields *)

Lemma validate_spec (s : state) (fl : loc) (f : field) (v : value) :
  heap s !! fl = Some (OField f) ->
  BaseField_validate fl v s =
  (if existsb (isinstance1 s v) (f_types f) then Ok tt
   else Err (ValidationError (NotOfTypes (f_name f) (f_types f))), s).
Proof.
  intros Hf. unfold BaseField_validate. mgo.
  by destruct (existsb (isinstance1 s v) (f_types f)).
Qed.

Lemma validate_items_spec (s : state) (fl : loc) (f : field) (xs : list value) :
  heap s !! fl = Some (OField f) ->
  for_each xs (BaseField_validate fl) s =
  (if forallb (fun x => existsb (isinstance1 s x) (f_types f)) xs then Ok tt
   else Err (ValidationError (NotOfTypes (f_name f) (f_types f))), s).
Proof.
  intros Hf. induction xs as [| x xs IH]; [reflexivity |].
  cbn [for_each forallb]. rewrite bind_unfold, (validate_spec _ _ _ _ Hf).
  destruct (existsb (isinstance1 s x) (f_types f)); [| reflexivity].
  cbn [andb]. exact IH.
Qed.

(** X5.  Writing a plain field validates first: a value that is an
    instance of none of the field's types raises ValidationError with the
    field's name and types and writes nothing; an accepted value is bound
    under the field's name in the data of the document, and reading the
    field back returns it.  Reading a field whose name is not a key of the
    data raises KeyError. *)
Theorem field_write_validates_then_stores :
  forall (s : state) (fl l d : loc) (f : field) (nm : string) (c : cid)
         (a : attrs) (dd : dict) (v : value),
    heap s !! fl = Some (OField f) ->
    f_name f = VStr nm ->
    document_at s l c a d dd ->
    let s1 := mkState (<[d := ODict (assoc_set (VStr nm) v dd)]> (heap s))
                      (classes s) (db s) in
    (existsb (isinstance1 s v) (f_types f) = false ->
     BaseField_set fl (VLoc l) v s =
     (Err (ValidationError (NotOfTypes (VStr nm) (f_types f))), s)) /\
    (existsb (isinstance1 s v) (f_types f) = true ->
     BaseField_set fl (VLoc l) v s = (Ok tt, s1) /\
     BaseField_get fl (VLoc l) s1 = (Ok v, s1)) /\
    (assoc (VStr nm) dd = None ->
     BaseField_get fl (VLoc l) s = (Err KeyError, s)).
Proof.
  intros s fl l d f nm c a dd v Hf Hn (Hl & Ha & Hd) s1.
  assert (Hdl : d <> l) by (eapply lookup_kind_ne; eauto; discriminate).
  assert (Hdf : d <> fl) by (eapply lookup_kind_ne; eauto; discriminate).
  split; [| split].
  - intros Hv. unfold BaseField_set.
    rewrite bind_unfold, (validate_spec _ _ _ _ Hf), Hv, Hn. reflexivity.
  - intros Hv. split.
    + unfold BaseField_set.
      rewrite bind_unfold, (validate_spec _ _ _ _ Hf), Hv. cbv beta iota.
      unfold py_setitem. mgo. reflexivity.
    + assert (Hf1 : heap s1 !! fl = Some (OField f))
        by (cbn; by rewrite list_lookup_insert_ne).
      assert (Hl1 : heap s1 !! l = Some (OInst c a))
        by (cbn; by rewrite list_lookup_insert_ne).
      assert (Hd1 : heap s1 !! d = Some (ODict (assoc_set (VStr nm) v dd))).
      { cbn. apply list_lookup_insert_eq. by eapply lookup_lt_Some. }
      assert (Hv1 : assoc (VStr nm) (assoc_set (VStr nm) v dd) = Some v)
        by apply assoc_set_eq.
      clearbody s1. unfold BaseField_get, py_getitem. mgo. reflexivity.
  - intros Hv. unfold BaseField_get, py_getitem. mgo. reflexivity.
Qed.

Lemma field_write_validates_then_stores_witness :
  exists s s',
    Examples.two_users empty_state = (Ok (VLoc 8, VLoc 11), s) /\
    BaseField_set 2 (VLoc 8) (VInt 5) s
    = (Err (ValidationError (NotOfTypes (VStr "name") [TStr])), s) /\
    BaseField_set 2 (VLoc 8) (VStr "zoe") s = (Ok tt, s') /\
    BaseField_get 2 (VLoc 8) s' = (Ok (VStr "zoe"), s').
Proof.
  destruct (Examples.two_users empty_state) as [r0 s] eqn:Es.
  vm_compute in Es. injection Es as <- <-.
  match goal with
  | |- exists _ _, (_, ?st) = _ /\ _ =>
    epose proof (fun v => field_write_validates_then_stores st 2 8 9
                  (mkField Field (VStr "name") [TStr] DNone true [] VNone)
                  "name" 1 [("_data", VLoc 9)] _ v) as H
  end.
  pose proof (H (VInt 5)) as H5. pose proof (H (VStr "zoe")) as Hz. clear H.
  do 2 (lapply H5; [clear H5; intros H5 | vm_compute; reflexivity]).
  lapply H5; [clear H5; intros H5 | repeat split; vm_compute; reflexivity].
  do 2 (lapply Hz; [clear Hz; intros Hz | vm_compute; reflexivity]).
  lapply Hz; [clear Hz; intros Hz | repeat split; vm_compute; reflexivity].
  cbv zeta in H5, Hz.
  destruct H5 as (H5 & _). destruct Hz as (_ & Hz & _).
  destruct (Hz eq_refl) as (Hset & Hget).
  eexists _, _. split; [reflexivity |]. split; [exact (H5 eq_refl) |].
  split; [exact Hset | exact Hget].
Defined.

(** X6.  Assigning to a list field: a value that is not a list raises
    ValidationError; a list with an item that is an instance of none of
    the field's types raises ValidationError as well, and in both cases
    nothing is written.  A list whose items all pass is bound, as the
    same object and without a copy, both to [_value] of the descriptor
    and under the field's name in the data of the document. *)
Theorem list_write_validates_every_item :
  forall (s : state) (fl l d : loc) (f : field) (nm : string) (c : cid)
         (a : attrs) (dd : dict),
    heap s !! fl = Some (OField f) ->
    f_name f = VStr nm ->
    document_at s l c a d dd ->
    (forall v, isinstance1 s v TList = false ->
               ListField_set fl (VLoc l) v s = (Err (ValidationError MustBeList), s)) /\
    (forall lv xs,
        heap s !! lv = Some (OList xs) ->
        ListField_set fl (VLoc l) (VLoc lv) s =
        if forallb (fun x => existsb (isinstance1 s x) (f_types f)) xs then
          (Ok tt,
           mkState (<[d := ODict (assoc_set (VStr nm) (VLoc lv) dd)]>
                      (<[fl := OField (Fields.with_value (VLoc lv) f)]> (heap s)))
                   (classes s) (db s))
        else (Err (ValidationError (NotOfTypes (VStr nm) (f_types f))), s)).
Proof.
  intros s fl l d f nm c a dd Hf Hn (Hl & Ha & Hd).
  assert (Hfl : fl <> l) by (eapply lookup_kind_ne; eauto; discriminate).
  assert (Hfd : fl <> d) by (eapply lookup_kind_ne; eauto; discriminate).
  split.
  - intros v Hv. unfold ListField_set, isinstance. mred.
    cbn [existsb]. rewrite Hv. reflexivity.
  - intros lv xs Hlv. unfold ListField_set, isinstance. mred.
    cbn [existsb isinstance1]. rewrite Hlv. cbn [orb]. mred.
    unfold list_items, load. mred. rewrite Hlv. mred.
    rewrite (validate_items_spec _ _ _ _ Hf), Hn.
    destruct (forallb _ xs); [| reflexivity]. mred.
    set (h1 := <[fl := OField (Fields.with_value (VLoc lv) f)]> (heap s)).
    assert (Hf1 : h1 !! fl = Some (OField (Fields.with_value (VLoc lv) f))).
    { apply list_lookup_insert_eq. by eapply lookup_lt_Some. }
    assert (Hl1 : h1 !! l = Some (OInst c a)) by (unfold h1; by rewrite list_lookup_insert_ne).
    assert (Hd1 : h1 !! d = Some (ODict dd)) by (unfold h1; by rewrite list_lookup_insert_ne).
    unfold set_field_value. mgo. fold h1. unfold py_setitem. mgo.
    cbn [Fields.with_value f_name]. mgo. reflexivity.
Qed.

Lemma list_write_validates_every_item_witness :
  exists s s',
    Examples.two_users empty_state = (Ok (VLoc 8, VLoc 11), s) /\
    ListField_set 3 (VLoc 8) (VStr "x") s = (Err (ValidationError MustBeList), s) /\
    ListField_set 3 (VLoc 8) (VLoc 7) s = (Ok tt, s') /\
    heap s' !! 3 = Some (OField (mkField ListField (VStr "tags") [TStr] (DCall PList)
                                         false [] (VLoc 7))) /\
    heap s' !! 9 = Some (ODict [(VStr "name", VStr "ann"); (VStr "tags", VLoc 7);
                                (VStr "_type", VStr "User")]).
Proof.
  destruct (Examples.two_users empty_state) as [r0 s] eqn:Es.
  vm_compute in Es. injection Es as <- <-.
  match goal with
  | |- exists _ _, (_, ?st) = _ /\ _ =>
    epose proof (list_write_validates_every_item st 3 8 9 _ "tags" 1
                   [("_data", VLoc 9)] _) as H
  end.
  do 2 (lapply H; [clear H; intros H | vm_compute; reflexivity]).
  lapply H; [clear H; intros H | repeat split; vm_compute; reflexivity].
  destruct H as (Hno & Hlist).
  specialize (Hno (VStr "x") eq_refl).
  specialize (Hlist 7 [VStr "q"] eq_refl). cbn [forallb existsb isinstance1 orb andb] in Hlist.
  eexists _, _. split; [reflexivity |]. split; [exact Hno |]. split; [exact Hlist |].
  split; vm_compute; reflexivity.
Defined.

(** X7.  Writing an item through the list proxy checks the value before
    the list: a value of none of the field's types raises ValidationError
    and the list is untouched.  With an accepted value, a proxy whose
    [_value] is still [None] (no read through a document yet) raises
    TypeError on a write as on a read; an index outside the list raises
    IndexError and writes nothing; an index inside replaces that item in
    place and returns the list itself. *)
Theorem list_item_write_checks_value_then_index :
  forall (s : state) (fl : loc) (f : field) (key v : value),
    heap s !! fl = Some (OField f) ->
    (existsb (isinstance1 s v) (f_types f) = false ->
     ListField_setitem fl key v s =
     (Err (ValidationError (NotOfTypes (f_name f) (f_types f))), s)) /\
    (f_value f = VNone ->
     ListField_getitem fl key s = (Err TypeError, s) /\
     (existsb (isinstance1 s v) (f_types f) = true ->
      ListField_setitem fl key v s = (Err TypeError, s))) /\
    (forall lv xs i,
        existsb (isinstance1 s v) (f_types f) = true ->
        f_value f = VLoc lv ->
        heap s !! lv = Some (OList xs) ->
        ListField_setitem fl (VInt i) v s =
        match list_index (length xs) i with
        | Some n => (Ok (VLoc lv),
                     mkState (<[lv := OList (<[n := v]> xs)]> (heap s)) (classes s) (db s))
        | None => (Err IndexError, s)
        end).
Proof.
  intros s fl f key v Hf. split; [| split].
  - intros Hv. unfold ListField_setitem.
    rewrite bind_unfold, (validate_spec _ _ _ _ Hf), Hv. reflexivity.
  - intros Hnone. split.
    + unfold ListField_getitem. mgo. reflexivity.
    + intros Hv. unfold ListField_setitem.
      rewrite bind_unfold, (validate_spec _ _ _ _ Hf), Hv. mgo. reflexivity.
  - intros lv xs i Hv Hval Hlv. unfold ListField_setitem.
    rewrite bind_unfold, (validate_spec _ _ _ _ Hf), Hv. cbv beta iota.
    unfold py_setitem. mgo.
    destruct (list_index (length xs) i); mgo; reflexivity.
Qed.

Lemma list_item_write_checks_value_then_index_witness :
  exists s,
    Examples.two_users empty_state = (Ok (VLoc 8, VLoc 11), s) /\
    ListField_setitem 3 (VInt 0) (VInt 5) s
    = (Err (ValidationError (NotOfTypes (VStr "tags") [TStr])), s) /\
    ListField_setitem 3 (VInt 1) (VStr "r") s = (Err IndexError, s) /\
    fst (ListField_setitem 3 (VInt (-1)) (VStr "r") s) = Ok (VLoc 7).
Proof.
  destruct (Examples.two_users empty_state) as [r0 s] eqn:Es.
  vm_compute in Es. injection Es as <- <-.
  match goal with
  | |- exists _, (_, ?st) = _ /\ _ =>
    epose proof (fun key v => list_item_write_checks_value_then_index st 3 _ key v eq_refl)
      as H
  end.
  destruct (H (VInt 0) (VInt 5)) as (Hbad & _).
  destruct (H (VInt 1) (VStr "r")) as (_ & _ & Hout).
  destruct (H (VInt (-1)%Z) (VStr "r")) as (_ & _ & Hin).
  specialize (Hout 7 [VStr "q"] 1%Z eq_refl eq_refl eq_refl).
  specialize (Hin 7 [VStr "q"] (-1)%Z eq_refl eq_refl eq_refl).
  eexists. split; [reflexivity |]. split; [exact (Hbad eq_refl) |].
  split; [exact Hout |]. rewrite Hin. reflexivity.
Defined.

(** ** Validation of a document *)

Lemma missing_fields_spec (rd : loc -> value -> M value) (s : state) (l d : loc)
      (c : cid) (a : attrs) (dd : dict) (fields : list (string * loc))
      (acc : list value) :
  document_at s l c a d dd ->
  binds s c "data" CPropData ->
  Forall (fun nf => exists f nm, heap s !! nf.2 = Some (OField f) /\ f_name f = VStr nm)
         fields ->
  missing_fields rd (VLoc l) (map (fun nf => VLoc nf.2) fields) acc s =
  (Ok (acc ++ required_missing (heap s) dd fields)%list, s).
Proof.
  intros (Hl & Ha & Hd) Hdata. revert acc.
  pose proof (get_attr_data rd s l c a Hl Hdata) as Hgd.
  induction fields as [| [n fl] fields IH]; intros acc Hall.
  - cbn. by rewrite app_nil_r.
  - inversion Hall as [| ? ? (f & nm & Hf & Hn) Hrest]; subst. cbn [snd] in Hf.
    cbn [map missing_fields required_missing omap list_omap snd item_field].
    fold (required_missing (heap s) dd fields).
    unfold py_contains, load_field, load.
    mred. unfold loc in *. rewrite Hf. mred.
    destruct (f_required f); cbn [andb]; mred.
    + rewrite Hgd. unfold get_data, load_inst, load. mred.
      unfold loc in *. rewrite Hl. mred. cbn [snd]. rewrite Ha. mred. rewrite Hd. mred.
      unfold check_hashable. mred. rewrite Hn, hashable_VStr. mred.
      destruct (assoc_mem (VStr nm) dd); cbn [negb].
      * by apply IH.
      * rewrite (IH _ Hrest). by rewrite <- app_assoc.
    + by apply IH.
Qed.

(** X8.  For a document whose class leaves [data] and [fields] to
    [Document], [validate] goes through every field of the class and
    collects the name of each required field that is not a key of the
    data of the document, in the order of the fields and without stopping
    at the first; a key bound to [None] counts as present.  With nothing
    collected it returns and leaves the state as it was; otherwise it
    evaluates [self.name] and, when that attribute is there, raises one
    ValidationError that carries the whole list. *)
Theorem validate_collects_every_missing_required_field :
  forall (rd : loc -> value -> M value) (s : state) (l d : loc) (c : cid)
         (a : attrs) (dd : dict) (fields : list (string * loc)),
    document_at s l c a d dd ->
    binds s c "data" CPropData ->
    binds s c "fields" CPropRO ->
    Document_fields (VLoc l) s = (Ok fields, s) ->
    Forall (fun nf => exists f nm, heap s !! nf.2 = Some (OField f) /\ f_name f = VStr nm)
           fields ->
    let missing := required_missing (heap s) dd fields in
    missing_fields rd (VLoc l) (map (fun nf => VLoc nf.2) fields) [] s = (Ok missing, s) /\
    (missing = [] -> Document_validate rd (VLoc l) s = (Ok tt, s)) /\
    (missing <> [] ->
     Document_validate rd (VLoc l) s =
     match get_attr rd (VLoc l) "name" s with
     | (Ok who, s') => (Err (ValidationError (MissingFields who missing)), s')
     | (Err e, s') => (Err e, s')
     end).
Proof.
  intros rd s l d c a dd fields Hdoc Hdata Hprop Hfields Hall missing.
  pose proof (missing_fields_spec rd s l d c a dd fields [] Hdoc Hdata Hall) as Hm.
  cbn [app] in Hm. fold missing in Hm.
  pose proof Hdoc as (Hl & _ & _).
  pose proof (validate_unfold rd s l c a fields missing Hl Hprop Hfields Hm) as Hv.
  split; [exact Hm |]. split.
  - intros E. rewrite Hv, E. reflexivity.
  - intros E. rewrite Hv. destruct missing; [done | reflexivity].
Qed.

Lemma validate_collects_every_missing_required_field_witness :
  exists s,
    Examples.validate_empty_post empty_state = (Err AttributeError, s) /\
    missing_fields Examples.read (VLoc 6) [VLoc 4; VLoc 5; VLoc 2; VLoc 3] [] s
    = (Ok [VStr "title"; VStr "body"], s).
Proof.
  destruct (Examples.validate_empty_post empty_state) as [r0 s] eqn:Es.
  vm_compute in Es. injection Es as <- <-.
  match goal with
  | |- exists _, (_, ?st) = _ /\ _ =>
    epose proof (validate_collects_every_missing_required_field Examples.read st 6 7 1
                   [("_data", VLoc 7)] [(VStr "_type", VStr "Post")]
                   [("_type", 4); ("_id", 5); ("title", 2); ("body", 3)]) as H
  end.
  lapply H; [clear H; intros H | repeat split; vm_compute; reflexivity].
  do 2 (lapply H; [clear H; intros H | eexists; split; vm_compute; reflexivity]).
  lapply H; [clear H; intros H | vm_compute; reflexivity].
  lapply H; [clear H; intros H
            | repeat constructor; eexists _, _; split; vm_compute; reflexivity].
  cbv zeta in H. destruct H as (Hm & _).
  eexists. split; [reflexivity |]. exact Hm.
Defined.

(** ** Queries *)

(** X9.  Dereferencing a reference whose document is not in the
    collection the reference names: [db.dereference] returns [None], the
    method subscripts it for the type tag, and the call ends in TypeError
    with nothing written. *)
Theorem dereference_of_a_missing_document_raises_TypeError :
  forall (rd : loc -> value -> M value) (c : cid) (coll : string) (i : value)
         (ri : raw) (s : state),
    Storage.encode_value i s = (Ok ri, s) ->
    Storage.db_dereference (db s) coll ri = None ->
    Document_dereference rd c (VDBRef coll i) s = (Err TypeError, s).
Proof.
  intros rd c coll i ri s He Hd.
  unfold Document_dereference, Storage.dereference. mgo. reflexivity.
Qed.

Lemma dereference_of_a_missing_document_raises_TypeError_witness :
  exists s,
    Examples.stored_dog empty_state = (Ok (1, 2), s) /\
    Document_dereference Examples.read 1 (VDBRef "Animal" (VOid 9)) s = (Err TypeError, s).
Proof.
  destruct (Examples.stored_dog empty_state) as [r0 s] eqn:Es.
  vm_compute in Es. injection Es as <- <-.
  eexists. split; [reflexivity |].
  apply (dereference_of_a_missing_document_raises_TypeError _ _ _ _ (ROid 9));
    vm_compute; reflexivity.
Defined.

Lemma decode_docs_plain (docs : list rdoc) (s : state) :
  exists vs s',
    Storage.read_cursor docs s = (Ok vs, s') /\ ext s s' /\
    Forall (fun v => plain (heap s') v = true) vs /\
    length vs = length docs.
Proof.
  unfold Storage.read_cursor.
  revert s. induction docs as [| d docs IH]; intros s.
  - exists [], s. split; [done |]. split; [apply ext_refl |]. split; [constructor | done].
  - destruct (decode_doc_spec d s) as (l & kvs & s1 & Hd & He & Hl & _).
    destruct (IH s1) as (vs & s2 & Hm & He2 & Hp & Hlen).
    exists (VLoc l :: vs), s2. cbn [map_each].
    rewrite bind_unfold, Hd, bind_unfold, Hm.
    split; [done |]. split; [by eapply ext_trans |]. split; [| cbn; by rewrite Hlen].
    constructor; [| done]. eapply plain_ext; [exact He2 |].
    unfold plain, loc in *. by rewrite Hl.
Qed.



(** X11.  After [find_one] has returned an object for a stored document,
    [get_cache] of the class at the identity of that document returns the
    same object. *)
Theorem a_loaded_document_is_in_the_cache :
  forall (rd : loc -> value -> M value) (c : cid) (spec : attrs) (s s1 : state)
         (col : string) (q doc : rdoc) (o : N) (r : value),
    Document_collection c s = (Ok col, s) ->
    Storage.encode_query spec s = (Ok q, s) ->
    Storage.db_find_one (db s) col q = Some doc ->
    assoc "_id" doc = Some (ROid o) ->
    Document_find_one rd c true spec s = (Ok r, s1) ->
    Document_get_cache c (VOid o) s1 = (Ok r, s1).
Proof.
  intros rd c spec s s1 col q doc o r Hc Hq Hf Hi Hr.
  destruct (find_one_caches rd c spec s s1 col q doc o r Hc Hq Hf Hi Hr)
    as (l & k & -> & Hk & Hl & _).
  unfold Document_get_cache. mgo. reflexivity.
Qed.

Lemma a_loaded_document_is_in_the_cache_witness :
  exists s r s1,
    Examples.stored_user empty_state = (Ok 1, s) /\
    Document_find_one Examples.read 1 true [("name", VStr "alice")] s = (Ok r, s1) /\
    Document_get_cache 1 (VOid 7) s1 = (Ok r, s1).
Proof.
  destruct (Examples.stored_user empty_state) as [r0 s] eqn:Es.
  vm_compute in Es. injection Es as <- <-.
  match goal with
  | |- exists _ _ _, (_, ?st) = _ /\ _ =>
    assert (Er : exists r s1, Document_find_one Examples.read 1 true
                                [("name", VStr "alice")] st = (Ok r, s1))
      by (eexists _, _; vm_compute; reflexivity);
    destruct Er as (r & s1 & Er);
    epose proof (a_loaded_document_is_in_the_cache Examples.read 1
                   [("name", VStr "alice")] st s1 "User" _ _ 7 r) as H
  end.
  do 4 (lapply H; [clear H; intros H | vm_compute; reflexivity]).
  specialize (H Er).
  eexists _, r, s1. split; [reflexivity |]. split; [exact Er | exact H].
Defined.

(** ** After a save *)



(** ** Removal *)

Lemma find_filter_negb {A} (p : A -> bool) (l : list A) :
  List.find p (List.filter (fun x => negb (p x)) l) = None.
Proof.
  induction l as [| x l IH]; [reflexivity |]. cbn.
  destruct (p x) eqn:E; cbn; [exact IH |]. by rewrite E.
Qed.

Lemma dereference_remove (d : database) (coll : string) (i : raw) :
  Storage.db_dereference (Storage.db_remove d coll i) coll i = None.
Proof.
  unfold Storage.db_dereference, Storage.db_remove, Storage.docs_of. cbn [db_colls].
  rewrite assoc_set_eq. cbn [default]. apply find_filter_negb.
Qed.



(** ** Appending through the list proxies *)

(** X14.  [append] of a list of references looks up the list behind the
    proxy first: with [_value] still [None] it raises AttributeError
    before the argument is looked at.  With a list behind it, a reference
    is appended as it is, in place, with no check against the field's
    types or referents; a scalar, a list or a dict raises AttributeError
    and the list is untouched.  [__add__]
    appends in the same way and returns the list itself, not a new
    list. *)
Theorem reference_list_append_converts_and_appends_in_place :
  forall (rd : loc -> value -> M value) (s : state) (fl : loc) (f : field),
    heap s !! fl = Some (OField f) ->
    (f_value f = VNone ->
     forall v, ListRefField_append rd fl v s = (Err AttributeError, s)) /\
    (forall lv xs,
        f_value f = VLoc lv ->
        heap s !! lv = Some (OList xs) ->
        (forall coll i,
            let s1 := mkState (<[lv := OList (xs ++ [VDBRef coll i])%list]> (heap s))
                              (classes s) (db s) in
            ListRefField_append rd fl (VDBRef coll i) s = (Ok tt, s1) /\
            ListRefField_add rd fl (VDBRef coll i) s = (Ok (VLoc lv), s1)) /\
        (forall v, passive (heap s) v = true ->
                   isinstance1 s v TDBRef = false ->
                   ListRefField_append rd fl v s = (Err AttributeError, s))).
Proof.
  intros rd s fl f Hf. split.
  - intros Hnone v. unfold ListRefField_append, has_append. mgo. reflexivity.
  - intros lv xs Hval Hlv.
    assert (Hne : lv <> fl) by (eapply lookup_kind_ne; eauto; discriminate).
    split.
    + intros coll i s1.
      assert (Ha : ListRefField_append rd fl (VDBRef coll i) s = (Ok tt, s1)).
      { unfold ListRefField_append, has_append, BaseField_to_ref, isinstance, py_append.
        mgo. cbn [existsb isinstance1 orb]. mgo. reflexivity. }
      split; [exact Ha |]. unfold ListRefField_add. rewrite bind_unfold, Ha.
      assert (Hf1 : heap s1 !! fl = Some (OField f)).
      { unfold s1. cbn [heap]. by rewrite list_lookup_insert_ne. }
      clearbody s1. mgo. reflexivity.
    + intros v Hp%passive_plain Hv.
      unfold ListRefField_append, has_append, BaseField_to_ref, isinstance,
        load_field, load. mred.
      rewrite Hf. mred. rewrite Hval. mred. rewrite Hlv. mred.
      cbn [existsb]. rewrite Hv. cbn [orb]. mred.
      unfold value_ref. rewrite bind_unfold, (load_inst_plain _ _ Hp). reflexivity.
Qed.

Lemma reference_list_append_converts_and_appends_in_place_witness :
  exists s s',
    Examples.shelf empty_state = (Ok (4, VLoc 7), s) /\
    ListRefField_add Examples.read 4 (VDBRef "Author" (VOid 1)) s = (Ok (VLoc 9), s') /\
    heap s' !! 9 = Some (OList [VDBRef "Author" (VOid 1)]) /\
    heap s' !! 8 = Some (ODict [(VStr "_type", VStr "Shelf"); (VStr "authors", VLoc 9)]).
Proof.
  destruct (Examples.shelf empty_state) as [r0 s] eqn:Es.
  vm_compute in Es. injection Es as <- <-.
  match goal with
  | |- exists _ _, (_, ?st) = _ /\ _ =>
    epose proof (reference_list_append_converts_and_appends_in_place
                   Examples.read st 4 _ eq_refl) as H
  end.
  destruct H as (_ & H).
  destruct (H 9 [] eq_refl eq_refl) as (H' & _).
  destruct (H' "Author" (VOid 1)) as (_ & Hadd). cbv zeta in Hadd.
  eexists _, _. split; [reflexivity |]. split; [exact Hadd |].
  split; vm_compute; reflexivity.
Defined.

(** X15.  A list field defines no [append]: [doc.tags.append(v)] reaches
    [SelfishField.__getattr__] and so the [append] of the list behind the
    proxy, which takes any value.  A value that assignment by index
    rejects with ValidationError is appended all the same. *)
Theorem proxy_append_bypasses_validation :
  forall (s : state) (fl lv : loc) (f : field) (xs : list value) (v key : value),
    heap s !! fl = Some (OField f) ->
    f_class f = ListField ->
    f_value f = VLoc lv ->
    heap s !! lv = Some (OList xs) ->
    SelfishField_getattr_append fl v s =
    (Ok tt, mkState (<[lv := OList (xs ++ [v])%list]> (heap s)) (classes s) (db s)) /\
    (existsb (isinstance1 s v) (f_types f) = false ->
     ListField_setitem fl key v s =
     (Err (ValidationError (NotOfTypes (f_name f) (f_types f))), s)).
Proof.
  intros s fl lv f xs v key Hf _ Hval Hlv. split.
  - unfold SelfishField_getattr_append, py_append. mgo. reflexivity.
  - intros Hv. unfold ListField_setitem.
    rewrite bind_unfold, (validate_spec _ _ _ _ Hf), Hv. reflexivity.
Qed.

Lemma proxy_append_bypasses_validation_witness :
  exists s s',
    Examples.two_users empty_state = (Ok (VLoc 8, VLoc 11), s) /\
    SelfishField_getattr_append 3 (VInt 5) s = (Ok tt, s') /\
    heap s' !! 7 = Some (OList [VStr "q"; VInt 5]) /\
    ListField_setitem 3 (VInt 0) (VInt 5) s
    = (Err (ValidationError (NotOfTypes (VStr "tags") [TStr])), s).
Proof.
  destruct (Examples.two_users empty_state) as [r0 s] eqn:Es.
  vm_compute in Es. injection Es as <- <-.
  match goal with
  | |- exists _ _, (_, ?st) = _ /\ _ =>
    epose proof (proxy_append_bypasses_validation st 3 7 _ [VStr "q"] (VInt 5) (VInt 0)
                   eq_refl eq_refl eq_refl eq_refl) as H
  end.
  destruct H as (Happ & Hset).
  eexists _, _. split; [reflexivity |]. split; [exact Happ |].
  split; [vm_compute; reflexivity | exact (Hset eq_refl)].
Defined.

(** ** What the field constructors keep of their arguments *)

(** X16.  The constructors that do return: [Field] keeps its types and
    keywords; [ListField] keeps its types and replaces whatever
    [default] it was given by [list]; [ObjectIdField] ignores its
    positional types and validates against [ObjectId]; [RefField] and
    [ListRefField] keep the positional types as the table of referents by
    name and validate against [DBRef].  Every proxy starts with [_value]
    bound to [None]. *)
Theorem field_constructors_fix_types_and_defaults :
  forall (type_name : ptype -> string) (types : list ptype) (kw : Fields.kwargs),
    let name := Fields.kw_name kw in
    let required := Fields.kw_required kw in
    let referents := map (fun t => (type_name t, t)) types in
    Fields.construct type_name Field types kw =
      Ok (mkField Field name types (Fields.kw_default kw) required [] VNone) /\
    Fields.construct type_name SelfishField types kw =
      Ok (mkField SelfishField name types (Fields.kw_default kw) required [] VNone) /\
    Fields.construct type_name ListField types kw =
      Ok (mkField ListField name types (DCall PList) required [] VNone) /\
    Fields.construct type_name ObjectIdField types kw =
      Ok (mkField ObjectIdField name [TObjectId] (Fields.kw_default kw) required [] VNone) /\
    Fields.construct type_name RefField types kw =
      Ok (mkField RefField name [TDBRef] (Fields.kw_default kw) required referents VNone) /\
    Fields.construct type_name ListRefField types kw =
      Ok (mkField ListRefField name [TDBRef] (DCall PList) required referents VNone).
Proof. intros type_name types kw. repeat split; reflexivity. Qed.

(** ** Class creation *)

Lemma name_fields_spec (attrs : list (string * cattr)) (s : state) :
  name_fields attrs s = (Ok tt, mkState (named (heap s) attrs) (classes s) (db s)).
Proof.
  unfold name_fields. revert s.
  induction attrs as [| [k ca] attrs IH]; intros s; [by destruct s |].
  cbn [for_each named fold_left fst snd]. rewrite bind_unfold.
  destruct ca as [v | | |]; mred; try (rewrite IH; reflexivity).
  unfold is_field. mred. destruct v; mred; try (rewrite IH; reflexivity).
  unfold load_field, store_field, load, store. 
  destruct (heap s !! l) as [[| | | f] |] eqn:E; mred; try (rewrite IH; reflexivity).
  rewrite E. mred. rewrite IH. reflexivity.
Qed.

Lemma with_name_twice (n : value) (f : field) :
  Fields.with_name n (Fields.with_name n f) = Fields.with_name n f.
Proof. reflexivity. Qed.

Lemma named_at (attrs : list (string * cattr)) (h : list obj) (p : loc) (nm : string)
      (g : field) :
  h !! p = Some (OField g) ->
  (forall k, (k, CVal (VLoc p)) ∈ attrs -> k = nm) ->
  exists g', named h attrs !! p = Some (OField g') /\
             (g' = g \/ g' = Fields.with_name (VStr nm) g) /\
             ((nm, CVal (VLoc p)) ∈ attrs -> g' = Fields.with_name (VStr nm) g).
Proof.
  revert h g. induction attrs as [| [k ca] attrs IH]; intros h g Hp Hkeys.
  - exists g. split; [done |]. split; [by left |]. by intros H%elem_of_nil.
  - cbn [named fold_left fst snd].
    assert (Hrest : forall k0, (k0, CVal (VLoc p)) ∈ attrs -> k0 = nm).
    { intros k0 Hin. apply Hkeys. by apply list_elem_of_further. }
    set (step := match ca with
                 | CVal (VLoc l) =>
                   match h !! l with
                   | Some (OField f) => <[l := OField (Fields.with_name (VStr k) f)]> h
                   | _ => h
                   end
                 | _ => h
                 end).
    fold (named step attrs).
    assert (Hcase : ca = CVal (VLoc p) \/ (ca <> CVal (VLoc p) /\ step !! p = Some (OField g))).
    { unfold step. destruct ca as [[| | | | | l |] | | |]; try (by right).
      destruct (decide (l = p)) as [-> | Hl]; [by left | right].
      split; [congruence |].
      destruct (h !! l) as [[| | | f] |]; try done.
      by rewrite list_lookup_insert_ne. }
    destruct Hcase as [-> | [Hca Hs]].
    + assert (k = nm) as -> by (apply Hkeys; apply list_elem_of_here).
      assert (Hs : step !! p = Some (OField (Fields.with_name (VStr nm) g))).
      { unfold step. unfold loc in *. rewrite Hp.
        apply list_lookup_insert_eq. by eapply lookup_lt_Some. }
      destruct (IH _ _ Hs Hrest) as (g' & Hg' & Hor & _).
      exists g'. split; [exact Hg' |].
      assert (g' = Fields.with_name (VStr nm) g) as ->
        by (destruct Hor as [-> | ->]; reflexivity).
      split; [by right | done].
    + destruct (IH _ _ Hs Hrest) as (g' & Hg' & Hor & Hin).
      exists g'. split; [exact Hg' |]. split; [exact Hor |].
      intros H. apply elem_of_cons in H as [Heq | H]; [| by apply Hin].
      injection Heq as _ Heq. congruence.
Qed.

Lemma elem_of_assoc_set {V} (k : string) (v : V) (l : list (string * V)) (x : string * V) :
  x ∈ assoc_set k v l -> x = (k, v) \/ x ∈ l.
Proof.
  induction l as [| [k' v'] l IH]; cbn.
  - intros H. apply list_elem_of_singleton in H. by left.
  - destruct (decide (k' = k)) as [-> |].
    + intros H. apply elem_of_cons in H as [-> | H]; [by left |].
      right. by apply list_elem_of_further.
    + intros H. apply elem_of_cons in H as [-> | H].
      * right. apply list_elem_of_here.
      * destruct (IH H) as [-> | H']; [by left |].
        right. by apply list_elem_of_further.
Qed.

Lemma assoc_set_elem {V} (k : string) (v : V) (l : list (string * V)) :
  (k, v) ∈ assoc_set k v l.
Proof.
  induction l as [| [k' v'] l IH]; cbn.
  - apply list_elem_of_here.
  - destruct (decide (k' = k)); [apply list_elem_of_here | by apply list_elem_of_further].
Qed.

Lemma assoc_set_keeps {V} (k k' : string) (v v' : V) (l : list (string * V)) :
  k <> k' -> (k', v') ∈ l -> (k', v') ∈ assoc_set k v l.
Proof.
  intros Hne. induction l as [| [k0 v0] l IH]; cbn; [by intros H%elem_of_nil |].
  intros H. apply elem_of_cons in H as [[= <- <-] | H].
  - rewrite decide_False by congruence. apply list_elem_of_here.
  - destruct (decide (k0 = k)); apply list_elem_of_further; [done | by apply IH].
Qed.

(** X17.  Creating a document class always succeeds (given an existing
    base) and binds, in the new class, [_type] to a new scalar field that
    validates against strings and defaults to the class name, and [_id] to
    a new identity field, each named after its attribute; what the class
    body itself bound to these two names is replaced.  The class starts
    with an empty identity cache of its own, and the classes that were
    there are unchanged. *)
Theorem metaclass_installs_type_and_identity_fields :
  forall (clsname : string) (base : option cid) (collection : option string)
         (body : list (string * cattr)) (s : state),
    (forall b, base = Some b -> is_Some (classes s !! b)) ->
    Forall (fun kv => forall l, kv.2 = CVal (VLoc l) -> l < length (heap s)) body ->
    let n := length (heap s) in
    let c := length (classes s) in
    exists s',
      MetaDocument_new clsname base collection body s = (Ok c, s') /\
      bound_field s' c "_type" n
        (mkField Field (VStr "_type") [TStr] (DValue (VStr clsname)) false [] VNone) /\
      bound_field s' c "_id" (S n)
        (mkField ObjectIdField (VStr "_id") [TObjectId] DNone false [] VNone) /\
      (exists k, classes s' !! c = Some k /\ cls_name k = clsname /\
                 cls_cache k = [] /\ cls_collection k = collection) /\
      (forall c', c' < c -> classes s' !! c' = classes s !! c') /\
      db s' = db s.
Proof.
  intros clsname base collection body s Hbase Hbody n c.
  set (f_t := mkField Field VNone [TStr] (DValue (VStr clsname)) false [] VNone).
  set (f_i := mkField ObjectIdField VNone [TObjectId] DNone false [] VNone).
  set (attrs := assoc_set "_id" (CVal (VLoc (S n)))
                          (assoc_set "_type" (CVal (VLoc n)) body)).
  set (h2 := ((heap s ++ [OField f_t]) ++ [OField f_i])%list).
  set (s2 := mkState h2 (classes s) (db s)).
  assert (Hrun : exists base_mro,
             MetaDocument_new clsname base collection body s =
             (Ok c, mkState (named h2 attrs)
                            (classes s ++ [mkClass clsname (c :: base_mro)
                                             (assoc_set "__init__" CMethod attrs)
                                             collection []])
                            (db s))).
  { unfold MetaDocument_new, field_new. mred.
    change (Fields.construct (type_name (classes s)) Field [TStr]
              (Fields.mkKwargs VNone (DValue (VStr clsname)) false)) with (Ok f_t).
    mred. unfold alloc. mred. cbn [heap classes db].
    change (Fields.construct (type_name (classes s)) ObjectIdField [] Fields.no_kwargs)
      with (Ok f_i).
    mred. cbn [heap classes db].
    replace (length (heap s ++ [OField f_t])) with (S n)
      by (rewrite length_app; cbn [length]; unfold n; lia).
    fold n attrs h2. rewrite name_fields_spec. cbn [heap classes db].
    destruct base as [b |].
    - destruct (Hbase b eq_refl) as (kb & Hkb).
      exists (cls_mro kb). unfold get_class, set_classes. mred.
      cbn [heap classes db]. unfold cid in *. rewrite Hkb. mred. reflexivity.
    - exists []. unfold set_classes. mred. reflexivity. }
  destruct Hrun as (base_mro & Hrun).
  set (k := mkClass clsname (c :: base_mro) (assoc_set "__init__" CMethod attrs)
                    collection []) in *.
  set (s' := mkState (named h2 attrs) (classes s ++ [k]) (db s)) in *.
  assert (Hk : classes s' !! c = Some k) by (cbn; by apply list_lookup_middle).
  assert (Hlookup : forall name v,
             name <> "__init__" -> assoc name attrs = Some v ->
             mro_lookup (classes s') name (cls_mro k) = Some v).
  { intros name v Hne Hv. change (cls_mro k) with (c :: base_mro).
    cbn [mro_lookup]. unfold cid in *. rewrite Hk.
    change (cls_dict k) with (assoc_set "__init__" CMethod attrs).
    rewrite assoc_set_ne by done. by rewrite Hv. }
  assert (Hlt : forall kk l, (kk, CVal (VLoc l)) ∈ body -> l < n).
  { intros kk l Hin. rewrite Forall_forall in Hbody. exact (Hbody _ Hin l eq_refl). }
  assert (Ht2 : h2 !! n = Some (OField f_t)).
  { unfold h2. rewrite lookup_app_l by (rewrite length_app; cbn; unfold n; lia).
    by apply list_lookup_middle. }
  assert (Hi2 : h2 !! S n = Some (OField f_i)).
  { unfold h2. apply list_lookup_middle. rewrite length_app. cbn. unfold n. lia. }
  exists s'. split; [exact Hrun |]. split; [| split; [| split; [| split]]].
  - exists k. split; [exact Hk |]. split.
    { apply Hlookup; [done |]. unfold attrs.
      rewrite assoc_set_ne by done. apply assoc_set_eq. }
    destruct (named_at attrs h2 n "_type" f_t Ht2) as (g' & Hg' & _ & Hin).
    { intros kk Hkk. unfold attrs in Hkk.
      apply elem_of_assoc_set in Hkk as [[= _ E] | Hkk]; [lia |].
      apply elem_of_assoc_set in Hkk as [[= -> ] | Hkk]; [done |].
      apply Hlt in Hkk. lia. }
    rewrite Hin in Hg'; [by split |].
    unfold attrs. apply assoc_set_keeps; [done | apply assoc_set_elem].
  - exists k. split; [exact Hk |]. split.
    { apply Hlookup; [done |]. unfold attrs. apply assoc_set_eq. }
    destruct (named_at attrs h2 (S n) "_id" f_i Hi2) as (g' & Hg' & _ & Hin).
    { intros kk Hkk. unfold attrs in Hkk.
      apply elem_of_assoc_set in Hkk as [[= -> ] | Hkk]; [done |].
      apply elem_of_assoc_set in Hkk as [[= _ E] | Hkk]; [lia |].
      apply Hlt in Hkk. lia. }
    rewrite Hin in Hg'; [by split |].
    unfold attrs. apply assoc_set_elem.
  - by exists k.
  - intros c' Hc'. cbn. by apply lookup_app_l.
  - reflexivity.
Qed.

Lemma metaclass_installs_type_and_identity_fields_witness :
  exists s s',
    (boot ;; field_new Field [TStr] Examples.required) empty_state = (Ok (VLoc 2), s) /\
    MetaDocument_new "Post" (Some Document) None [("title", CVal (VLoc 2))] s
    = (Ok 1, s') /\
    heap s' !! 3 = Some (OField (mkField Field (VStr "_type") [TStr]
                                         (DValue (VStr "Post")) false [] VNone)) /\
    heap s' !! 4 = Some (OField (mkField ObjectIdField (VStr "_id") [TObjectId]
                                         DNone false [] VNone)).
Proof.
  destruct ((boot ;; field_new Field [TStr] Examples.required) empty_state)
    as [r0 s] eqn:Es.
  vm_compute in Es. injection Es as <- <-.
  match goal with
  | |- exists _ _, (_, ?st) = _ /\ _ =>
    pose proof (metaclass_installs_type_and_identity_fields "Post" (Some Document) None
                  [("title", CVal (VLoc 2))] st) as H
  end.
  lapply H; [clear H; intros H | intros b [= <-]; eexists; vm_compute; reflexivity].
  lapply H; [clear H; intros H
            | constructor; [intros l Hl; cbn in Hl; injection Hl as <-; cbn; lia
                           | constructor]].
  cbv zeta in H. destruct H as (s' & Hnew & (_ & _ & _ & Ht & _) & (_ & _ & _ & Hi & _) & _).
  eexists _, s'. split; [reflexivity |]. split; [exact Hnew |].
  split; [exact Ht | exact Hi].
Defined.

(** ** The fields of a document *)

Lemma assoc_None_keys {V} (name : string) (l : list (string * V)) :
  assoc name l = None <-> name ∉ map fst l.
Proof.
  induction l as [| [k v] l IH]; cbn.
  - split; [intros _; apply not_elem_of_nil | done].
  - destruct (decide (k = name)) as [-> |].
    + split; [done |]. intros H. exfalso. apply H. apply list_elem_of_here.
    + rewrite IH. rewrite not_elem_of_cons.
      split; [intros H; split; [congruence | done] | by intros [_ H]].
Qed.

Lemma assoc_assoc_set {V} (k name : string) (v : V) (l : list (string * V)) :
  assoc name (assoc_set k v l) = if decide (k = name) then Some v else assoc name l.
Proof.
  destruct (decide (k = name)) as [-> |]; [apply assoc_set_eq | by apply assoc_set_ne].
Qed.

Lemma assoc_set_keys {V} (k : string) (v : V) (l : list (string * V)) (x : string) :
  x ∈ map fst (assoc_set k v l) <-> x = k \/ x ∈ map fst l.
Proof.
  induction l as [| [k' v'] l IH]; cbn.
  - rewrite list_elem_of_singleton, elem_of_nil. tauto.
  - destruct (decide (k' = k)) as [-> |]; cbn; rewrite !elem_of_cons; [tauto |].
    rewrite IH. tauto.
Qed.

Lemma assoc_set_NoDup {V} (k : string) (v : V) (l : list (string * V)) :
  NoDup (map fst l) -> NoDup (map fst (assoc_set k v l)).
Proof.
  induction l as [| [k' v'] l IH]; cbn; intros Hnd.
  - apply NoDup_singleton.
  - apply NoDup_cons in Hnd as [Hk' Hnd].
    destruct (decide (k' = k)) as [-> |]; cbn; apply NoDup_cons; split; try done.
    + rewrite assoc_set_keys. intros [-> | H]; done.
    + by apply IH.
Qed.

Lemma assoc_update_NoDup {V} (acc other : list (string * V)) :
  NoDup (map fst acc) -> NoDup (map fst (assoc_update acc other)).
Proof.
  unfold assoc_update. revert acc.
  induction other as [| [k v] other IH]; intros acc Hnd; [done |].
  cbn. apply IH. by apply assoc_set_NoDup.
Qed.

Lemma assoc_assoc_update {V} (name : string) (acc other : list (string * V)) :
  NoDup (map fst other) ->
  assoc name (assoc_update acc other) =
  match assoc name other with
  | Some v => Some v
  | None => assoc name acc
  end.
Proof.
  unfold assoc_update. revert acc.
  induction other as [| [k v] other IH]; intros acc Hnd; [done |].
  cbn [map fst] in Hnd. apply NoDup_cons in Hnd as [Hk Hnd]. cbn [fold_left fst snd].
  rewrite (IH _ Hnd), assoc_assoc_set. cbn [assoc].
  destruct (decide (k = name)) as [-> |]; [| done].
  apply assoc_None_keys in Hk. by rewrite Hk.
Qed.

Lemma assoc_omap {V W} (g : V -> option W) (name : string) (l : list (string * V)) :
  NoDup (map fst l) ->
  assoc name (omap (fun kv => pair kv.1 <$> g kv.2) l) = assoc name l ≫= g.
Proof.
  induction l as [| [k v] l IH]; intros Hnd; [done |].
  cbn [map fst] in Hnd. apply NoDup_cons in Hnd as [Hk Hnd].
  cbn [omap list_omap fst snd assoc].
  destruct (decide (k = name)) as [-> |].
  - destruct (g v) as [w |] eqn:E; cbn.
    + by rewrite decide_True.
    + fold (omap (fun kv : string * V => pair kv.1 <$> g kv.2) l).
      rewrite (IH Hnd). apply assoc_None_keys in Hk. by rewrite Hk.
  - destruct (g v) as [w |] eqn:E; cbn.
    + rewrite decide_False by done. by apply IH.
    + by apply IH.
Qed.

Lemma omap_pointwise {A B} (f g : A -> option B) (l : list A) :
  (forall x, f x = g x) -> omap f l = omap g l.
Proof.
  intros H. induction l as [| x l IH]; [done |].
  change (omap f (x :: l)) with (match f x with Some y => y :: omap f l | None => omap f l end).
  change (omap g (x :: l)) with (match g x with Some y => y :: omap g l | None => omap g l end).
  by rewrite H, IH.
Qed.

Lemma merged_dicts_spec (cs : list class) (mro : list cid) :
  Forall (fun c' => forall k', cs !! c' = Some k' -> NoDup (map fst (cls_dict k'))) mro ->
  let merged := fold_left (fun acc c => match cs !! c with
                                        | Some k' => assoc_update acc (cls_dict k')
                                        | None => acc
                                        end) (rev mro) [] in
  NoDup (map fst merged) /\
  forall name, assoc name merged = mro_lookup cs name mro.
Proof.
  induction mro as [| c mro IH]; intros Hnd; cbn zeta.
  - split; [apply NoDup_nil_2 | done].
  - inversion Hnd as [| ? ? Hc Hrest]; subst.
    destruct (IH Hrest) as (Hm & Hl). cbn zeta in Hm, Hl.
    cbn [rev]. rewrite fold_left_app. cbn [fold_left mro_lookup].
    destruct (cs !! c) as [k' |] eqn:E; [| by split].
    split; [by apply assoc_update_NoDup |].
    intros name. rewrite (assoc_assoc_update _ _ _ (Hc k' eq_refl)), Hl.
    by destruct (assoc name (cls_dict k')).
Qed.

(** X18.  The [fields] of a document are what attribute lookup on its
    class finds: a name is among them, bound to a descriptor, exactly when
    the first class of the MRO that binds the name binds it to that
    descriptor.  A field of a base class is inherited, a subclass that
    binds the name again overrides it, and a subclass that binds the name
    to something that is no field hides it. *)
Theorem fields_are_what_attribute_lookup_finds :
  forall (s : state) (l : loc) (c : cid) (a : attrs) (k : class),
    heap s !! l = Some (OInst c a) ->
    classes s !! c = Some k ->
    Forall (fun c' => forall k', classes s !! c' = Some k' ->
                                 NoDup (map fst (cls_dict k'))) (cls_mro k) ->
    exists fields,
      Document_fields (VLoc l) s = (Ok fields, s) /\
      forall name fl,
        assoc name fields = Some fl <->
        mro_lookup (classes s) name (cls_mro k) = Some (CVal (VLoc fl)) /\
        exists f, heap s !! fl = Some (OField f).
Proof.
  intros s l c a k Hl Hk Hnd.
  destruct (merged_dicts_spec (classes s) (cls_mro k) Hnd) as (Hm & Hlook).
  cbn zeta in Hm, Hlook.
  set (merged := fold_left _ (rev (cls_mro k)) []) in *.
  set (g := fun ca : cattr =>
              match ca with
              | CVal (VLoc fl) => match heap s !! fl with
                                  | Some (OField _) => Some fl
                                  | _ => None
                                  end
              | _ => None
              end).
  exists (omap (fun kv => pair kv.1 <$> g kv.2) merged). split.
  - unfold Document_fields. mgo. fold merged. do 2 f_equal.
    apply omap_pointwise. intros [n ca]. cbn [fst snd].
    destruct ca as [[| | | | | fl |] | | |]; try done.
    cbn [g]. by destruct (heap s !! fl) as [[| | |] |].
  - intros name fl. rewrite (assoc_omap g name merged Hm), Hlook.
    destruct (mro_lookup (classes s) name (cls_mro k)) as [ca |]; cbn.
    + split.
      * intros Hg. destruct ca as [[| | | | | fl' |] | | |]; try done.
        cbn [g] in Hg. destruct (heap s !! fl') as [[| | | f] |] eqn:E; try done.
        injection Hg as <-. split; [done | by exists f].
      * intros ([= ->] & f & Hf). cbn [g]. unfold loc in *. by rewrite Hf.
    + split; [done | by intros [? _]].
Qed.

Lemma fields_are_what_attribute_lookup_finds_witness :
  exists s fields,
    Examples.two_users empty_state = (Ok (VLoc 8, VLoc 11), s) /\
    Document_fields (VLoc 8) s = (Ok fields, s) /\
    assoc "tags" fields = Some 3 /\ assoc "_id" fields = Some 5 /\
    assoc "save" fields = None.
Proof.
  destruct (Examples.two_users empty_state) as [r0 s] eqn:Es.
  vm_compute in Es. injection Es as <- <-.
  match goal with
  | |- exists _ _, (_, ?st) = _ /\ _ =>
    epose proof (fields_are_what_attribute_lookup_finds st 8 1 _ _ eq_refl eq_refl) as H
  end.
  lapply H; [clear H; intros H |].
  - destruct H as (fields & Hf & Hiff).
    eexists _, fields. split; [reflexivity |]. split; [exact Hf |].
    split; [| split].
    + apply Hiff. split; [vm_compute; reflexivity | eexists; vm_compute; reflexivity].
    + apply Hiff. split; [vm_compute; reflexivity | eexists; vm_compute; reflexivity].
    + destruct (assoc "save" fields) as [fl |] eqn:E; [| reflexivity].
      apply Hiff in E as (E & _). vm_compute in E. discriminate.
  - repeat constructor; intros k' [= <-]; cbn [cls_dict map fst];
      apply (bool_decide_unpack _); vm_compute; exact I.
Defined.

(** ** Reading references *)

(** X19.  Reading a reference, through a reference field of a document or
    by index through a list of references, looks the collection name of
    the stored reference up in the field's own table of referents and
    dereferences through the class found there; nothing is kept in the
    field, so every read dereferences again.  A stored scalar, list or
    dict raises AttributeError. *)
Theorem reference_reads_dereference_through_the_referent_table :
  forall (rd : loc -> value -> M value) (s : state) (fl : loc) (f : field),
    heap s !! fl = Some (OField f) ->
    (forall l c a d dd nm ref,
        f_name f = VStr nm ->
        document_at s l c a d dd ->
        assoc (VStr nm) dd = Some ref ->
        match ref with
        | VDBRef coll i =>
          forall dt, assoc coll (f_doc_types f) = Some (TDoc dt) ->
                     RefField_get rd fl (VLoc l) s =
                     Document_dereference rd dt (VDBRef coll i) s
        | _ => passive (heap s) ref = true ->
               RefField_get rd fl (VLoc l) s = (Err AttributeError, s)
        end) /\
    (forall lv xs i n ref,
        f_value f = VLoc lv ->
        heap s !! lv = Some (OList xs) ->
        list_index (length xs) i = Some n ->
        xs !! n = Some ref ->
        match ref with
        | VDBRef coll j =>
          forall dt, assoc coll (f_doc_types f) = Some (TDoc dt) ->
                     ListRefField_getitem rd fl (VInt i) s =
                     Document_dereference rd dt (VDBRef coll j) s
        | _ => passive (heap s) ref = true ->
               ListRefField_getitem rd fl (VInt i) s = (Err AttributeError, s)
        end).
Proof.
  intros rd s fl f Hf. split.
  - intros l c a d dd nm ref Hn (Hl & Ha & Hd) Hr.
    destruct ref; try (intros _; unfold RefField_get, py_getitem; mgo; reflexivity).
    intros dt Hdt. unfold RefField_get, py_getitem, referent_type. mgo. reflexivity.
  - intros lv xs i n ref Hv Hlv Hi Hn.
    destruct ref;
      try (intros _; unfold ListRefField_getitem, py_getitem; mgo; reflexivity).
    intros dt Hdt. unfold ListRefField_getitem, py_getitem, referent_type. mgo.
    reflexivity.
Qed.

Lemma reference_reads_dereference_through_the_referent_table_witness :
  exists s s',
    Examples.shelf empty_state = (Ok (4, VLoc 7), s) /\
    ListRefField_add Examples.read 4 (VDBRef "Author" (VOid 1)) s = (Ok (VLoc 9), s') /\
    ListRefField_getitem Examples.read 4 (VInt 0) s' =
    Document_dereference Examples.read 1 (VDBRef "Author" (VOid 1)) s'.
Proof.
  destruct (Examples.shelf empty_state) as [r0 s] eqn:Es.
  vm_compute in Es. injection Es as <- <-.
  match goal with
  | |- exists _ _, (_, ?st) = _ /\ _ =>
    exists st;
    destruct (ListRefField_add Examples.read 4 (VDBRef "Author" (VOid 1)) st)
      as [r1 s1] eqn:E1
  end.
  vm_compute in E1. injection E1 as <- <-.
  match goal with
  | |- exists _, _ /\ (_, ?st1) = _ /\ _ =>
    exists st1;
    epose proof (reference_reads_dereference_through_the_referent_table
                   Examples.read st1 4 _ eq_refl) as H
  end.
  destruct H as (_ & H).
  specialize (H 9 [VDBRef "Author" (VOid 1)] 0%Z 0 (VDBRef "Author" (VOid 1))
                eq_refl eq_refl eq_refl eq_refl 1 eq_refl).
  split; [reflexivity |]. split; [reflexivity | exact H].
Defined.

(** ** Writes that are not validated *)

(** X20.  Assigning through a bare [SelfishField] validates nothing: any
    value at all is bound to [_value] of the descriptor and under the
    field's name in the data of the document, and a read through the
    document then returns the descriptor with that value behind it. *)
Theorem selfish_field_write_is_not_validated :
  forall (rd : loc -> value -> M value) (s : state) (fl l d : loc) (f : field)
         (nm : string) (c : cid) (a : attrs) (dd : dict) (v : value),
    heap s !! fl = Some (OField f) ->
    f_class f = SelfishField ->
    f_name f = VStr nm ->
    document_at s l c a d dd ->
    let s1 := mkState (<[d := ODict (assoc_set (VStr nm) v dd)]>
                         (<[fl := OField (Fields.with_value v f)]> (heap s)))
                      (classes s) (db s) in
    descr_set rd fl (VLoc l) v s = (Ok tt, s1) /\
    SelfishField_get fl (VLoc l) s1 = (Ok (VLoc fl), s1) /\
    heap s1 !! fl = Some (OField (Fields.with_value v f)).
Proof.
  intros rd s fl l d f nm c a dd v Hf Hc Hn (Hl & Ha & Hd) s1.
  assert (Hfl : fl <> l) by (eapply lookup_kind_ne; eauto; discriminate).
  assert (Hfd : fl <> d) by (eapply lookup_kind_ne; eauto; discriminate).
  assert (Hdl : d <> l) by (eapply lookup_kind_ne; eauto; discriminate).
  set (f1 := Fields.with_value v f).
  set (h1 := <[fl := OField f1]> (heap s)).
  assert (Hf1 : h1 !! fl = Some (OField f1)).
  { apply list_lookup_insert_eq. by eapply lookup_lt_Some. }
  assert (Hl1 : h1 !! l = Some (OInst c a)) by (unfold h1; by rewrite list_lookup_insert_ne).
  assert (Hd1 : h1 !! d = Some (ODict dd)) by (unfold h1; by rewrite list_lookup_insert_ne).
  assert (Hn1 : f_name f1 = VStr nm) by exact Hn.
  assert (Hset : SelfishField_set fl (VLoc l) v s = (Ok tt, s1)).
  { unfold SelfishField_set, set_field_value. mgo. fold f1 h1.
    unfold py_setitem. mgo. reflexivity. }
  split.
  { rewrite <- Hset. unfold descr_set. rewrite bind_unfold.
    unfold load_field, load. mred. rewrite Hf. mred. rewrite Hc. reflexivity. }
  assert (Hf2 : heap s1 !! fl = Some (OField f1)).
  { unfold s1. cbn [heap]. fold f1 h1. by rewrite list_lookup_insert_ne. }
  assert (Hl2 : heap s1 !! l = Some (OInst c a)).
  { unfold s1. cbn [heap]. fold f1 h1. by rewrite list_lookup_insert_ne. }
  assert (Hd2 : heap s1 !! d = Some (ODict (assoc_set (VStr nm) v dd))).
  { unfold s1. cbn [heap]. fold f1 h1. apply list_lookup_insert_eq.
    by eapply lookup_lt_Some. }
  assert (Hv2 : assoc (VStr nm) (assoc_set (VStr nm) v dd) = Some v) by apply assoc_set_eq.
  assert (Hsame : <[fl := OField (Fields.with_value v f1)]> (heap s1) = heap s1).
  { apply list_insert_id. exact Hf2. }
  split.
  - clearbody s1. unfold SelfishField_get, py_getitem, set_field_value. mgo.
    by rewrite state_eta.
  - exact Hf2.
Qed.

Lemma selfish_field_write_is_not_validated_witness :
  exists s s',
    Examples.note empty_state = (Ok (2, VLoc 5), s) /\
    descr_set Examples.read 2 (VLoc 5) (VInt 5) s = (Ok tt, s') /\
    heap s' !! 6 = Some (ODict [(VStr "_type", VStr "Note"); (VStr "body", VInt 5)]).
Proof.
  destruct (Examples.note empty_state) as [r0 s] eqn:Es.
  vm_compute in Es. injection Es as <- <-.
  match goal with
  | |- exists _ _, (_, ?st) = _ /\ _ =>
    epose proof (selfish_field_write_is_not_validated Examples.read st 2 5 6 _ "body" 1
                   [("_data", VLoc 6)] _ (VInt 5) eq_refl eq_refl eq_refl) as H
  end.
  lapply H; [clear H; intros H | repeat split; vm_compute; reflexivity].
  cbv zeta in H. destruct H as (Hset & _).
  eexists _, _. split; [reflexivity |]. split; [exact Hset |].
  vm_compute. reflexivity.
Defined.

(** X21.  Assigning an item through a list of references converts the
    value first and then goes the way of every list field: a reference is
    stored at the index, in place, and the call returns [None], the list
    that [ListField.__setitem__] returns being dropped; an index outside
    the list raises IndexError; a scalar, a list or a dict raises
    AttributeError before the list is looked at. *)
Theorem reference_list_item_write_converts_first :
  forall (rd : loc -> value -> M value) (s : state) (fl lv : loc) (f : field)
         (xs : list value),
    heap s !! fl = Some (OField f) ->
    f_types f = [TDBRef] ->
    f_value f = VLoc lv ->
    heap s !! lv = Some (OList xs) ->
    (forall i coll j,
        ListRefField_setitem rd fl (VInt i) (VDBRef coll j) s =
        match list_index (length xs) i with
        | Some n => (Ok VNone,
                     mkState (<[lv := OList (<[n := VDBRef coll j]> xs)]> (heap s))
                             (classes s) (db s))
        | None => (Err IndexError, s)
        end) /\
    (forall key v,
        passive (heap s) v = true ->
        isinstance1 s v TDBRef = false ->
        ListRefField_setitem rd fl key v s = (Err AttributeError, s)).
Proof.
  intros rd s fl lv f xs Hf Ht Hv Hlv. split.
  - intros i coll j.
    unfold ListRefField_setitem, BaseField_to_ref, isinstance. mred.
    cbn [existsb isinstance1 orb]. mred.
    unfold ListField_setitem, BaseField_validate, isinstance, py_setitem. mgo.
    cbn [existsb isinstance1 orb]. mgo.
    destruct (list_index (length xs) i); mgo; reflexivity.
  - intros key v Hp%passive_plain Hnr.
    unfold ListRefField_setitem, BaseField_to_ref, isinstance. mred.
    cbn [existsb]. rewrite Hnr. cbn [orb]. mred.
    unfold value_ref. rewrite bind_unfold, (load_inst_plain _ _ Hp). reflexivity.
Qed.

Lemma reference_list_item_write_converts_first_witness :
  exists s s1 s2,
    Examples.shelf empty_state = (Ok (4, VLoc 7), s) /\
    ListRefField_add Examples.read 4 (VDBRef "Author" (VOid 1)) s = (Ok (VLoc 9), s1) /\
    ListRefField_setitem Examples.read 4 (VInt 0) (VDBRef "Author" (VOid 2)) s1
    = (Ok VNone, s2) /\
    heap s2 !! 9 = Some (OList [VDBRef "Author" (VOid 2)]).
Proof.
  destruct (Examples.shelf empty_state) as [r0 s] eqn:Es.
  vm_compute in Es. injection Es as <- <-.
  match goal with
  | |- exists _ _ _, (_, ?st) = _ /\ _ =>
    exists st;
    destruct (ListRefField_add Examples.read 4 (VDBRef "Author" (VOid 1)) st)
      as [r1 s1] eqn:E1
  end.
  vm_compute in E1. injection E1 as <- <-.
  match goal with
  | |- exists _ _, _ /\ (_, ?st1) = _ /\ _ =>
    exists st1;
    epose proof (reference_list_item_write_converts_first Examples.read st1 4 9 _
                   [VDBRef "Author" (VOid 1)] eq_refl eq_refl eq_refl eq_refl) as H
  end.
  destruct H as (H & _). specialize (H 0%Z "Author" (VOid 2)).
  cbn [list_index length] in H.
  eexists. split; [reflexivity |]. split; [reflexivity |]. split; [exact H |].
  vm_compute. reflexivity.
Defined.
